(** * Optima IDP: recommendation ranking core and the backend handlers around it

  The development has three parts.

  - [Weights]: the default recommender weight vectors stored by the backend
    (organization settings and the admin's [companySettings.aiWeights]).
  - [Recommender]: the recommendation core (gap analyzer, resource scorer,
    orchestrator).  The Python service that implements it is not part of
    the JavaScript sources, so its definitions are modelled from the
    specification text.
  - [Backend]: the Express handlers [createIDP], [updateIDP], [addSkill],
    [updateSkill], [bulkAddSkills], [deleteSkill], the recommender client
    and the role middleware, over an explicit store for the MongoDB
    collections, the job queue and the console.

  Numbers that the sources write as decimal fractions are rationals ([Q]);
  equality of scores is [Qeq]. *)

From Stdlib Require Import QArith Qminmax Lqa String Ascii List ZArith Lia.
From Stdlib Require Import Sorting.Sorted.
From stdpp Require Import base gmap strings list pretty.

Open Scope Z_scope.

(* ===================================================================== *)
(** * Default weight vectors *)
(* ===================================================================== *)

Module Weights.

(** The six numeric fields of [recommenderDefaults] (organization model)
    and of [companySettings.aiWeights] (user model).  The first five are
    the factors of the scorer; [skill_similarity] is stored next to them. *)
Record WeightVector := {
  skill_gap : Q;
  skill_relevance : Q;
  difficulty_match : Q;
  collaborative : Q;
  resource_type : Q;
  skill_similarity : Q
}.

(** Organization model, [recommenderDefaults]: the [default:] of each field. *)
Definition recommenderDefaults : WeightVector := {|
  skill_gap := 0.35;
  skill_relevance := 0.25;
  difficulty_match := 0.20;
  collaborative := 0.20;
  resource_type := 0.00;
  skill_similarity := 0.00
|}.

(** User model, [companySettings.aiWeights]: the [default:] of each field. *)
Definition aiWeights : WeightVector := {|
  skill_gap := 0.35;
  skill_relevance := 0.25;
  difficulty_match := 0.20;
  collaborative := 0.20;
  resource_type := 0.00;
  skill_similarity := 0.00
|}.

(** Sum over the five factors of the scorer. *)
Definition factor_sum (w : WeightVector) : Q :=
  (skill_gap w + skill_relevance w + difficulty_match w
   + collaborative w + resource_type w)%Q.

(** Sum over every stored field, [skill_similarity] included. *)
Definition stored_sum (w : WeightVector) : Q :=
  (factor_sum w + skill_similarity w)%Q.

End Weights.

(* ===================================================================== *)
(** * The recommendation core *)
(* ===================================================================== *)

Module Recommender.

(** ** Data model

    The recommendation core is a Python service whose sources are missing;
    the records follow the data model and the request and response fields
    of the specification. *)

Abbreviation SkillId := string.
Abbreviation ResourceId := string.

(** Modelled from the spec: the Python data model is missing.  The
    difficulty tier of a resource. *)
Inductive Difficulty := beginner | intermediate | advanced.

(** Modelled from the spec: the Python data model is missing.  Skill:
    identifier, name, category, free-text description. *)
Record Skill := {
  skill_id : SkillId;
  skill_name : string;
  skill_category : string;
  skill_description : string
}.

(** Modelled from the spec: the Python data model is missing.  Resource,
    with its target skill, difficulty tier and popularity counter. *)
Record Resource := {
  res_id : ResourceId;
  res_title : string;
  res_type : string;
  res_skill : SkillId;
  res_provider : string;
  res_difficulty : Difficulty;
  res_description : string;
  res_views : nat                  (* popularity counter *)
}.

(** Modelled from the spec: the Python data model is missing.  Pair of
    skill reference and level. *)
Record UserSkillRecord := { us_skill : SkillId; us_level : Z }.

(** Modelled from the spec: the Python data model is missing.  Skill
    reference, current level, target level. *)
Record SkillTarget := {
  st_skill : SkillId;
  st_current : Z;
  st_target : Z
}.

(** Modelled from the spec: the Python data model is missing.  A manager
    review with the sections the backend stores; the "weaknesses" section
    of the review is its [weaknesses] text. *)
Record PerformanceReview := {
  pr_strengths : string;
  pr_weaknesses : string;
  pr_comments : string
}.

(** Modelled from the spec: the Python data model is missing.  The weight
    vector over the five factors. *)
Record FactorWeights := {
  w_skill_gap : Q;
  w_skill_relevance : Q;
  w_difficulty_match : Q;
  w_collaborative : Q;
  w_resource_type : Q
}.

(** Modelled from the spec: the Python data model is missing.  The
    recommendation request; [limit] and [weights] are optional. *)
Record Request := {
  user_skills : list UserSkillRecord;
  skills_to_improve : list SkillTarget;
  performance_reports : list PerformanceReview;
  resources : list Resource;
  skills : list Skill;
  limit : option nat;
  weights : option FactorWeights
}.

(** Modelled from the spec: the Python data model is missing.  The
    sub-scores of one resource, kept in the result for explanation. *)
Record Factors := {
  f_skill_gap : Q;
  f_skill_relevance : Q;
  f_difficulty_match : Q;
  f_collaborative : Q;
  f_resource_type : Q
}.

(** Modelled from the spec: the Python data model is missing.  One entry
    of the result: resource reference, score, contributing factors. *)
Record Recommendation := {
  resourceId : ResourceId;
  score : Q;
  factors : Factors
}.

(** Modelled from the spec: the Python data model is missing.  The
    response: ranked list, annotated targets, degradation flag. *)
Record Response := {
  recommendations : list Recommendation;
  annotated_targets : list (SkillTarget * Q);
  degraded : bool
}.

(** Modelled from the spec: the Python orchestrator is missing.  The one
    error kind that rejects a request. *)
Inductive ErrorKind := InvalidRequest.

(** Modelled from the spec: the Python orchestrator is missing.  A result
    or a structured error. *)
Inductive Result (A : Type) :=
| Ok (a : A)
| Err (e : ErrorKind).
Arguments Ok {A} a.
Arguments Err {A} e.

(** Modelled from the spec: the Python core is missing.  What the core
    receives from outside a request: the similarity index
    (absent when it is unavailable), the neighbour count K, the collaborative
    signal, the per-type preference, the weight vector used when the request
    carries none, and the resources whose scoring raises. *)
Record Capabilities := {
  similarity_index : option (list Skill -> Skill -> nat -> list (SkillId * Q));
  neighbor_count : nat;
  collaborative_signal : Resource -> Q;
  type_preference : string -> option Q;
  default_weights : FactorWeights;
  scoring_raises : Resource -> bool
}.

(** ** Gap analyzer *)

(** Modelled from the spec: the Python gap analyzer is missing from the
    sources.  Malformed levels are clamped into [1,10]. *)
Definition clamp_level (l : Z) : Z := Z.max 1 (Z.min 10 l).

(** Modelled from the spec: the Python gap analyzer is missing.
    Gap = max(0, targetLevel - currentLevel). *)
Definition gap (currentLevel targetLevel : Z) : Z :=
  Z.max 0 (clamp_level targetLevel - clamp_level currentLevel).

(** Modelled from the spec: the Python gap analyzer is missing.
    Normalized gap = Gap / 9. *)
Definition normalized_gap (currentLevel targetLevel : Z) : Q :=
  (inject_Z (gap currentLevel targetLevel) / 9)%Q.

(** Modelled from the spec: the Python gap analyzer is missing.  Lower case
    of an ASCII letter, for the case-insensitive match. *)
Definition lower_ascii (c : ascii) : ascii :=
  let n := nat_of_ascii c in
  if (65 <=? n)%nat && (n <=? 90)%nat then ascii_of_nat (n + 32) else c.

(** Modelled from the spec: the Python gap analyzer is missing.  Lower case
    of a text. *)
Fixpoint lower (s : string) : string :=
  match s with
  | EmptyString => EmptyString
  | String c s' => String (lower_ascii c) (lower s')
  end.

(** Modelled from the spec: the Python gap analyzer is missing.  Substring
    test. *)
Fixpoint is_substring (p s : string) : bool :=
  String.prefix p s ||
  match s with
  | EmptyString => false
  | String _ s' => is_substring p s'
  end.

(** Modelled from the spec: the Python gap analyzer is missing.
    Case-insensitive substring match of the skill name in a weaknesses
    section. *)
Definition mentions_weakness (reviews : list PerformanceReview) (name : string)
  : bool :=
  existsb (fun r => is_substring (lower name) (lower (pr_weaknesses r))) reviews.

(** Modelled from the spec: the Python gap analyzer is missing.  The fixed
    boost of a skill that a review names as a weakness. *)
Definition weakness_boost : Q := 0.15.

(** Modelled from the spec: the Python gap analyzer is missing.  The name
    of a skill of the catalog. *)
Definition skill_name_of (catalog : list Skill) (sid : SkillId) : option string :=
  skill_name <$> List.find (fun s => String.eqb (skill_id s) sid) catalog.

(** Modelled from the spec: the Python gap analyzer is missing.  The
    priority weight of a target is its normalized gap, boosted by 0.15
    (capped at 1) when a review names the skill as a weakness. *)
Definition priority_weight (req : Request) (t : SkillTarget) : Q :=
  let g := normalized_gap (st_current t) (st_target t) in
  match skill_name_of (skills req) (st_skill t) with
  | Some name =>
      if mentions_weakness (performance_reports req) name
      then Qmin 1 (g + weakness_boost)
      else g
  | None => g
  end.

(** Modelled from the spec: the Python gap analyzer is missing.  Output:
    mapping skill to normalized priority weight. *)
Definition gap_analyzer (req : Request) : gmap SkillId Q :=
  list_to_map (map (fun t => (st_skill t, priority_weight req t))
                   (skills_to_improve req)).

(** ** Resource scorer *)

(** Modelled from the spec: the Python resource scorer is missing.
    Level 1-3 is beginner, 4-7 intermediate, 8-10 advanced. *)
Definition implied_tier (level : Z) : option Difficulty :=
  if (1 <=? level) && (level <=? 3) then Some beginner
  else if (4 <=? level) && (level <=? 7) then Some intermediate
  else if (8 <=? level) && (level <=? 10) then Some advanced
  else None.

(** Modelled from the spec: the Python resource scorer is missing.  The
    tiers in order, to tell adjacent tiers. *)
Definition tier_rank (d : Difficulty) : Z :=
  match d with beginner => 0 | intermediate => 1 | advanced => 2 end.

(** Modelled from the spec: the Python resource scorer is missing.  1 for
    the tier implied by the current level, 0.5 for an adjacent tier, 0
    otherwise. *)
Definition difficulty_match_score (d : Difficulty) (level : Z) : Q :=
  match implied_tier level with
  | Some t =>
      let distance := Z.abs (tier_rank d - tier_rank t) in
      if distance =? 0 then 1
      else if distance =? 1 then 0.5
      else 0
  | None => 0
  end.

(** Modelled from the spec: the Python resource scorer is missing.  The
    user's current level for a skill, 0 if unknown. *)
Definition current_level (req : Request) (sid : SkillId) : Z :=
  match List.find (fun u => String.eqb (us_skill u) sid) (user_skills req) with
  | Some u => us_level u
  | None => 0
  end.

(** Modelled from the spec: the Python resource scorer is missing.  The
    preference of a resource type without a supplied one. *)
Definition neutral_preference : Q := 0.5.

(** Modelled from the spec: the Python resource scorer is missing.
    Weighted sum of the five sub-scores. *)
Definition weighted_sum (w : FactorWeights) (f : Factors) : Q :=
  (w_skill_gap w * f_skill_gap f
   + w_skill_relevance w * f_skill_relevance f
   + w_difficulty_match w * f_difficulty_match f
   + w_collaborative w * f_collaborative f
   + w_resource_type w * f_resource_type f)%Q.

(** Modelled from the spec: the Python resource scorer is missing.
    Clamping to [0,1]. *)
Definition clamp01 (x : Q) : Q := Qmax 0 (Qmin 1 x).

(** Modelled from the spec: the Python resource scorer is missing.  Final
    score = weighted sum of the five sub-scores, clamped to [0,1]. *)
Definition final_score (w : FactorWeights) (f : Factors) : Q :=
  clamp01 (weighted_sum w f).

(** Modelled from the spec: the Python resource scorer is missing.  The
    weight vector of the request, or the externally provided default. *)
Definition effective_weights (caps : Capabilities) (req : Request)
  : FactorWeights :=
  match weights req with
  | Some w => w
  | None => default_weights caps
  end.

(** Modelled from the spec: the Python orchestrator is missing.  A catalog
    entry that survived candidate selection, with its position in the
    catalog and the relevance it earned. *)
Record Candidate := {
  cand_index : nat;
  cand_resource : Resource;
  cand_relevance : Q
}.

(** Modelled from the spec: the Python orchestrator is missing.  A scored
    candidate. *)
Record Scored := {
  sc_index : nat;
  sc_resource : Resource;
  sc_score : Q;
  sc_factors : Factors
}.

(** Modelled from the spec: the Python resource scorer is missing.  The
    five sub-scores of a candidate. *)
Definition sub_scores (caps : Capabilities) (req : Request)
  (gaps : gmap SkillId Q) (c : Candidate) : Factors :=
  let r := cand_resource c in
  {| f_skill_gap := default 0%Q (gaps !! res_skill r);
     f_skill_relevance := cand_relevance c;
     f_difficulty_match :=
       difficulty_match_score (res_difficulty r)
                              (current_level req (res_skill r));
     f_collaborative := collaborative_signal caps r;
     f_resource_type :=
       default neutral_preference (type_preference caps (res_type r)) |}.

(** Modelled from the spec: the Python resource scorer is missing.  One
    score plus the breakdown per factor; [None] is a scoring exception. *)
Definition score_resource (caps : Capabilities) (req : Request)
  (gaps : gmap SkillId Q) (c : Candidate) : option Scored :=
  if scoring_raises caps (cand_resource c) then None
  else
    let f := sub_scores caps req gaps c in
    Some {| sc_index := cand_index c;
            sc_resource := cand_resource c;
            sc_score := final_score (effective_weights caps req) f;
            sc_factors := f |}.

(** ** Orchestrator *)

(** Modelled from the spec: the Python orchestrator is missing.  Lookup in
    the skill catalog of the request. *)
Definition find_skill (req : Request) (sid : SkillId) : option Skill :=
  List.find (fun s => String.eqb (skill_id s) sid) (skills req).

(** Modelled from the spec: the Python orchestrator is missing.  Top-K
    neighbours of a target skill; none when the index is unavailable or the
    skill is not in the catalog. *)
Definition neighbors (caps : Capabilities) (req : Request) (t : SkillTarget)
  : list (SkillId * Q) :=
  match similarity_index caps, find_skill req (st_skill t) with
  | Some index, Some s => index (skills req) s (neighbor_count caps)
  | _, _ => []
  end.

(** Modelled from the spec: the Python orchestrator is missing.  The
    target skill itself (relevance 1) plus its neighbours. *)
Definition expanded_set (caps : Capabilities) (req : Request) (t : SkillTarget)
  : list (SkillId * Q) :=
  (st_skill t, 1%Q) :: neighbors caps req t.

(** Modelled from the spec: the Python orchestrator is missing.  The
    relevance a resource earns on each path that reaches its skill. *)
Definition path_relevances (caps : Capabilities) (req : Request) (r : Resource)
  : list Q :=
  flat_map
    (fun t =>
       map snd (List.filter (fun p => String.eqb (fst p) (res_skill r))
                            (expanded_set caps req t)))
    (skills_to_improve req).

(** Modelled from the spec: the Python orchestrator is missing.  Whether
    the skill of the resource is a requested target skill. *)
Definition is_direct_target (req : Request) (r : Resource) : bool :=
  existsb (fun t => String.eqb (st_skill t) (res_skill r))
          (skills_to_improve req).

(** Modelled from the spec: the Python orchestrator is missing.  [None]
    when no expanded set contains the skill of the resource; otherwise 1 for a directly targeted skill and the largest similarity over
    the paths for the others. *)
Definition relevance (caps : Capabilities) (req : Request) (r : Resource)
  : option Q :=
  match path_relevances caps req r with
  | [] => None
  | p :: ps => Some (if is_direct_target req r then 1%Q else fold_left Qmax ps p)
  end.

(** Modelled from the spec: the Python orchestrator is missing.  Every
    resource of the catalog whose skill is in an expanded set, in catalog
    order and with its catalog position. *)
Definition collect (caps : Capabilities) (req : Request) : list Candidate :=
  omap (fun ir : nat * Resource =>
          (fun rel => {| cand_index := fst ir;
                         cand_resource := snd ir;
                         cand_relevance := rel |})
            <$> relevance caps req (snd ir))
       (zip (seq 0 (length (resources req))) (resources req)).

(** Modelled from the spec: the Python orchestrator is missing.
    Deduplication by resource identifier: the first candidate of each
    identifier is kept. *)
Fixpoint dedup_by_id (seen : gset ResourceId) (cs : list Candidate)
  : list Candidate :=
  match cs with
  | [] => []
  | c :: cs' =>
      let rid := res_id (cand_resource c) in
      if decide (rid ∈ seen) then dedup_by_id seen cs'
      else c :: dedup_by_id ({[rid]} ∪ seen) cs'
  end.

(** Modelled from the spec: the Python orchestrator is missing.  Scores
    every candidate; a candidate whose scoring raises is dropped and the
    degradation flag is set. *)
Fixpoint score_all (caps : Capabilities) (req : Request)
  (gaps : gmap SkillId Q) (cs : list Candidate) : list Scored * bool :=
  match cs with
  | [] => ([], false)
  | c :: cs' =>
      let rest := score_all caps req gaps cs' in
      match score_resource caps req gaps c with
      | Some s => (s :: fst rest, snd rest)
      | None => (fst rest, true)
      end
  end.

(** Modelled from the spec: the Python orchestrator is missing.  Ranking
    order: higher score first; on equal scores more views first; on equal
    views the earlier catalog position first. *)
Definition outranks (a b : Scored) : bool :=
  match (sc_score a ?= sc_score b)%Q with
  | Gt => true
  | Lt => false
  | Eq =>
      match Nat.compare (res_views (sc_resource a)) (res_views (sc_resource b)) with
      | Gt => true
      | Lt => false
      | Eq => (sc_index a <=? sc_index b)%nat
      end
  end.

(** Modelled from the spec: the Python orchestrator is missing.  Insertion
    into a ranked list. *)
Fixpoint insert_ranked (x : Scored) (l : list Scored) : list Scored :=
  match l with
  | [] => [x]
  | y :: l' => if outranks x y then x :: l else y :: insert_ranked x l'
  end.

(** Modelled from the spec: the Python orchestrator is missing.  Sorting
    by the ranking order. *)
Definition rank (l : list Scored) : list Scored := foldr insert_ranked [] l.

(** Modelled from the spec: the Python orchestrator is missing.  The
    result-count limit of a request that carries none. *)
Definition default_limit : nat := 10.

(** Modelled from the spec: the Python orchestrator is missing.  The
    response entry of a ranked candidate. *)
Definition to_recommendation (s : Scored) : Recommendation :=
  {| resourceId := res_id (sc_resource s);
     score := sc_score s;
     factors := sc_factors s |}.

(** Modelled from the spec: the Python orchestrator is missing.  Step 1 of
    the orchestrator: a request with no skill target or with an empty
    resource catalog is rejected before scoring starts. *)
Definition validate (req : Request) : Result unit :=
  match skills_to_improve req, resources req with
  | [], _ => Err InvalidRequest
  | _, [] => Err InvalidRequest
  | _ :: _, _ :: _ => Ok tt
  end.

(** Modelled from the spec: the Python orchestrator is missing.  Steps 2
    to 7: gaps, expansion, collection and deduplication, scoring, sorting,
    truncation.  The boolean is the degradation flag. *)
Definition ranking (caps : Capabilities) (req : Request) : list Scored * bool :=
  let gaps := gap_analyzer req in
  let candidates := dedup_by_id ∅ (collect caps req) in
  let scored := score_all caps req gaps candidates in
  (take (default default_limit (limit req)) (rank (fst scored)), snd scored).

(** Modelled from the spec: the Python orchestrator is missing from the
    sources.  Validation, then the single ranking pass. *)
Definition recommend (caps : Capabilities) (req : Request) : Result Response :=
  match validate req with
  | Err e => Err e
  | Ok _ =>
      let ranked := ranking caps req in
      Ok {| recommendations := map to_recommendation (fst ranked);
            annotated_targets :=
              map (fun t => (t, priority_weight req t)) (skills_to_improve req);
            degraded := snd ranked |}
  end.

(** Modelled from the spec: the Python orchestrator is missing.  The
    ranking order as a relation, strict in the catalog position. *)
Definition ranked_before (a b : Scored) : Prop :=
  (sc_score b < sc_score a)%Q
  \/ ((sc_score a == sc_score b)%Q
      /\ ((res_views (sc_resource b) < res_views (sc_resource a))%nat
          \/ (res_views (sc_resource a) = res_views (sc_resource b)
              /\ (sc_index a < sc_index b)%nat))).

(** What every scored candidate satisfies: its score is the final score of
    its own factor breakdown. *)
Definition well_scored (w : FactorWeights) (s : Scored) : Prop :=
  sc_score s = final_score w (sc_factors s).

End Recommender.

(* ===================================================================== *)
(** * The backend handlers *)
(* ===================================================================== *)

Module Backend.

Abbreviation ObjectId := string.

(** ** Exceptions, values and responses *)

Inductive JsError :=
| ReferenceError (message : string)
| TypeError (message : string)
| ValidationError (message : string)
| MongoServerError (message : string)
| CastError (message : string)
| Error (message : string).

Definition error_message (e : JsError) : string :=
  match e with
  | ReferenceError m | TypeError m | ValidationError m
  | MongoServerError m | CastError m | Error m => m
  end.

(** A JSON scalar as it may arrive in a request body. *)
Inductive Json :=
| JNull
| JBool (b : bool)
| JNum (n : Z)
| JStr (s : string).

(** [v === true] *)
Definition strictly_true (v : option Json) : bool :=
  match v with
  | Some (JBool true) => true
  | _ => false
  end.

(** ** Documents *)

Record SkillDoc := {
  skill_oid : ObjectId;
  skill_name : string;
  skill_category : string;
  skill_description : string
}.

Record SkillTargetDoc := {
  skill : ObjectId;
  currentLevel : Z;
  targetLevel : Z
}.

Record IDPFields := {
  employee : ObjectId;
  goals : option string;
  skillsToImprove : list SkillTargetDoc;
  recommendedResources : list ObjectId;
  status : string;
  managerFeedback : string
}.

Record IDPDoc := {
  idp_oid : ObjectId;
  idp_fields : IDPFields
}.

Record UserSkill := { skillId : ObjectId; level : Z }.

Record UserDoc := {
  user_oid : ObjectId;
  user_role : string;
  user_skills : list UserSkill
}.

Record ResourceDoc := {
  resource_oid : ObjectId;
  title : string;
  type : string;
  difficulty : string;
  url : string;
  provider : string;
  resource_skill : ObjectId
}.

Record Job := { userId : string; idpId : ObjectId }.

(** ** What is sent to and received from the Python service *)

Record UserSkillFormatted := { uf_skillId : string; uf_level : Z }.

Record SkillFormatted := {
  sf_id : string;
  sf_name : string;
  sf_category : string;
  sf_description : string
}.

Record ResourceFormatted := {
  rf_id : string;
  rf_title : string;
  rf_type : string;
  rf_difficulty : string;
  rf_url : string;
  rf_provider : string;
  rf_skill : string * string          (* { _id, name } *)
}.

Record PythonData := {
  pd_user_skills : list UserSkillFormatted;
  pd_skills_to_improve : list SkillTargetDoc;
  pd_performance_reports : list string;
  pd_resources : list ResourceFormatted;
  pd_skills : list SkillFormatted;
  pd_user_skills_data : list string;
  pd_limit : nat
}.

Record AiRecommendation := { ai_resourceId : ObjectId; ai_score : Q }.

(** The body of a reply: the [recommendations] member is absent from a body
    that is not a recommendation result. *)
Record AiResponse := {
  ai_recommendations : option (list AiRecommendation);
  ai_skills_to_improve : list SkillTargetDoc
}.

Inductive CoreErrorKind := InvalidRequest | OtherFailure.

(** How the core answers one call: a reply with a recommendation body, a
    reply that rejects the request with an error kind, or no reply at all
    (the service cannot be reached). *)
Inductive CoreReply :=
| Recommended (http_status : nat) (data : AiResponse)
| Rejected (http_status : nat) (kind : CoreErrorKind)
| Unreachable.

(** ** Responses of the handlers *)

Inductive Body :=
| Message (message : string)
| MessageError (message error : string)
| IdpCreated (message : string) (idp : IDPDoc) (status_text : string)
| IdpUpdated (message : string) (idp : option IDPDoc)
             (aiSummary : option (list AiRecommendation * list SkillTargetDoc))
| SkillAdded (message : string) (added : SkillDoc)
| SkillsExist (message : string) (existingSkills : list string)
| SkillsAdded (message : string) (addedCount : nat) (added : list SkillDoc)
| SkillUpdated (message : string) (updated : SkillDoc)
| SkillList (skills : list SkillDoc)
| SkillFound (found : SkillDoc).

Record Response := { code : nat; body : Body }.

(** [res.status(c).json(b)]; [res.json(b)] answers with 200. *)
Definition status_json (c : nat) (b : Body) : Response :=
  {| code := c; body := b |}.
Definition json (b : Body) : Response := status_json 200 b.

(** ** The world around a handler *)

Record IDPInput := {
  in_employee : string;
  in_goals : option string;
  in_skillsToImprove : list SkillTargetDoc;
  in_recommendedResources : list ObjectId;
  in_status : string
}.

(** The update document of [findByIdAndUpdate]: the members of the request
    body that are present. *)
Record UpdateData := {
  d_goals : option string;
  d_skillsToImprove : option (list SkillTargetDoc);
  d_recommendedResources : option (list ObjectId);
  d_status : option string;
  d_managerFeedback : option string;
  d_employee : option ObjectId
}.

(** The collections, the job queue, the console, and the parts of the
    program that are outside the sources: whether the IDP schema accepts a
    new document, the message of the CastError with which it refuses an
    update document that it cannot cast (none when every member casts),
    whether the queue service accepts a job, and how the Python service
    answers. *)
Record World := {
  idps : gmap ObjectId IDPDoc;
  skillColl : list SkillDoc;
  users : gmap ObjectId UserDoc;
  resourceColl : list ResourceDoc;
  queue : list Job;
  console : list string;
  next_oid : nat;
  idp_schema_accepts : IDPInput -> bool;
  idp_update_cast_error : UpdateData -> option string;
  queue_accepts : Job -> bool;
  python_service : PythonData -> CoreReply
}.

Definition set_idps (f : gmap ObjectId IDPDoc -> gmap ObjectId IDPDoc)
  (w : World) : World :=
  {| idps := f (idps w); skillColl := skillColl w; users := users w;
     resourceColl := resourceColl w; queue := queue w; console := console w;
     next_oid := next_oid w; idp_schema_accepts := idp_schema_accepts w;
     idp_update_cast_error := idp_update_cast_error w;
     queue_accepts := queue_accepts w; python_service := python_service w |}.

Definition set_skillColl (f : list SkillDoc -> list SkillDoc) (w : World)
  : World :=
  {| idps := idps w; skillColl := f (skillColl w); users := users w;
     resourceColl := resourceColl w; queue := queue w; console := console w;
     next_oid := next_oid w; idp_schema_accepts := idp_schema_accepts w;
     idp_update_cast_error := idp_update_cast_error w;
     queue_accepts := queue_accepts w; python_service := python_service w |}.

Definition set_queue (f : list Job -> list Job) (w : World) : World :=
  {| idps := idps w; skillColl := skillColl w; users := users w;
     resourceColl := resourceColl w; queue := f (queue w); console := console w;
     next_oid := next_oid w; idp_schema_accepts := idp_schema_accepts w;
     idp_update_cast_error := idp_update_cast_error w;
     queue_accepts := queue_accepts w; python_service := python_service w |}.

Definition set_console (f : list string -> list string) (w : World) : World :=
  {| idps := idps w; skillColl := skillColl w; users := users w;
     resourceColl := resourceColl w; queue := queue w; console := f (console w);
     next_oid := next_oid w; idp_schema_accepts := idp_schema_accepts w;
     idp_update_cast_error := idp_update_cast_error w;
     queue_accepts := queue_accepts w; python_service := python_service w |}.

Definition set_next_oid (f : nat -> nat) (w : World) : World :=
  {| idps := idps w; skillColl := skillColl w; users := users w;
     resourceColl := resourceColl w; queue := queue w; console := console w;
     next_oid := f (next_oid w); idp_schema_accepts := idp_schema_accepts w;
     idp_update_cast_error := idp_update_cast_error w;
     queue_accepts := queue_accepts w; python_service := python_service w |}.

(** ** Asynchronous code with exceptions *)

Inductive Completion (A : Type) :=
| Normal (a : A)
| Thrown (e : JsError).
Arguments Normal {A} a.
Arguments Thrown {A} e.

Definition M (A : Type) : Type := World -> Completion A * World.

Definition ret {A} (a : A) : M A := fun w => (Normal a, w).

Definition throw {A} (e : JsError) : M A := fun w => (Thrown e, w).

Definition bind {A B} (c : M A) (k : A -> M B) : M B :=
  fun w =>
    match c w with
    | (Normal a, w') => k a w'
    | (Thrown e, w') => (Thrown e, w')
    end.

Notation "'let*' x ':=' c 'in' k" := (bind c (fun x => k))
  (at level 10, x pattern, c at level 100, k at level 200).

(** [try { body } catch (error) { handler }] *)
Definition try_catch {A} (body : M A) (handler : JsError -> M A) : M A :=
  fun w =>
    match body w with
    | (Normal a, w') => (Normal a, w')
    | (Thrown e, w') => handler e w'
    end.

Definition get_world : M World := fun w => (Normal w, w).
Definition modify (f : World -> World) : M unit := fun w => (Normal tt, f w).

(** [console.error(label, ...)]: the label is appended to the console. *)
Definition console_error (label : string) : M unit :=
  modify (set_console (fun out => out ++ [label])).
Definition console_log (label : string) : M unit :=
  modify (set_console (fun out => out ++ [label])).

(** An Express handler: its response and the world it leaves.  A handler
    whose exception escapes is answered by the default error handler. *)
Definition run (h : M Response) (w : World) : Response * World :=
  match h w with
  | (Normal r, w') => (r, w')
  | (Thrown e, w') => (status_json 500 (Message (error_message e)), w')
  end.

Fixpoint mapM {A B} (f : A -> M B) (l : list A) : M (list B) :=
  match l with
  | [] => ret []
  | x :: l' =>
      let* y := f x in
      let* ys := mapM f l' in
      ret (y :: ys)
  end.

(** ** Identifier resolution

    The [const] bindings visible at a program point.  A block extends the
    environment of the enclosing function; the extension ends with the
    block. *)

Inductive Value :=
| VUndefined
| VBool (b : bool)
| VString (s : string)
| VObject.

Definition truthy (v : Value) : bool :=
  match v with
  | VUndefined => false
  | VBool b => b
  | VString s => negb (String.eqb s "")
  | VObject => true
  end.

Abbreviation LexEnv := (gmap string Value).

Definition declare (x : string) (v : Value) (env : LexEnv) : LexEnv :=
  <[x := v]> env.

(** Reading an identifier that no enclosing scope declares throws. *)
Definition resolve (env : LexEnv) (x : string) : M Value :=
  match env !! x with
  | Some v => ret v
  | None => throw (ReferenceError (x ++ " is not defined"))
  end.

(** The top of the IDP controller: its [require]d modules, next to the names
    that Node provides to every module. *)
Definition idp_controller_scope : LexEnv :=
  list_to_map
    [("IDP", VObject); ("User", VObject); ("Skill", VObject);
     ("Resource", VObject); ("recommenderService", VObject);
     ("queueService", VObject); ("require", VObject); ("exports", VObject);
     ("module", VObject); ("console", VObject)]%string.

(** ** The recommender client *)

(** The default [validateStatus] of axios. *)
Definition validateStatus (s : nat) : bool := (200 <=? s)%nat && (s <? 300)%nat.

Definition no_recommendation_body : AiResponse :=
  {| ai_recommendations := None; ai_skills_to_improve := [] |}.

(** [axios.post(url, data)]: resolves with the reply when its status is
    2xx, rejects otherwise and when there is no reply. *)
Definition axios_post (data : PythonData) : M AiResponse :=
  let* w := get_world in
  match python_service w data with
  | Recommended s d =>
      if validateStatus s then ret d
      else throw (Error ("Request failed with status code " ++ pretty s))
  | Rejected s _ =>
      if validateStatus s then ret no_recommendation_body
      else throw (Error ("Request failed with status code " ++ pretty s))
  | Unreachable => throw (Error "connect ECONNREFUSED")
  end.

Definition getRecommendedResources (data : PythonData) : M AiResponse :=
  try_catch
    (let* res := axios_post data in
     ret res)
    (fun error =>
       let* _ := console_error "Error calling Python /recommend/resources:" in
       throw (Error "Python service unavailable")).

(** ** The IDP model and the queue service *)

Definition fresh_oid : M ObjectId :=
  fun w => (Normal (pretty (next_oid w)), set_next_oid S w).

(** [IDP.create(input)]: the schema of the IDP model decides whether the
    document is accepted; an accepted document is stored under a new id. *)
Definition IDP_create (input : IDPInput) : M IDPDoc :=
  let* w := get_world in
  if idp_schema_accepts w input then
    let* oid := fresh_oid in
    let doc :=
      {| idp_oid := oid;
         idp_fields :=
           {| employee := in_employee input;
              goals := in_goals input;
              skillsToImprove := in_skillsToImprove input;
              recommendedResources := in_recommendedResources input;
              status := in_status input;
              managerFeedback := "" |} |} in
    let* _ := modify (set_idps (insert oid doc)) in
    ret doc
  else throw (ValidationError "IDP validation failed").

Definition IDP_findById (id : ObjectId) : M (option IDPDoc) :=
  let* w := get_world in
  ret (idps w !! id).

Definition apply_update (d : UpdateData) (f : IDPFields) : IDPFields :=
  {| employee := default (employee f) (d_employee d);
     goals := match d_goals d with Some g => Some g | None => goals f end;
     skillsToImprove := default (skillsToImprove f) (d_skillsToImprove d);
     recommendedResources :=
       default (recommendedResources f) (d_recommendedResources d);
     status := default (status f) (d_status d);
     managerFeedback := default (managerFeedback f) (d_managerFeedback d) |}.

(** [IDP.findByIdAndUpdate(id, data, { new: true })]: the update document
    is cast to the schema first, and a member that does not cast rejects the
    call with a CastError before anything is written. *)
Definition IDP_findByIdAndUpdate (id : ObjectId) (d : UpdateData)
  : M (option IDPDoc) :=
  let* w := get_world in
  match idp_update_cast_error w d with
  | Some message => throw (CastError message)
  | None =>
      match idps w !! id with
      | None => ret None
      | Some doc =>
          let doc' := {| idp_oid := idp_oid doc;
                         idp_fields := apply_update d (idp_fields doc) |} in
          let* _ := modify (set_idps (insert id doc')) in
          ret (Some doc')
      end
  end.

(** [queueService.addJob(job)] resolves to whether the job was queued. *)
Definition addJob (job : Job) : M bool :=
  let* w := get_world in
  if queue_accepts w job then
    let* _ := modify (set_queue (fun q => q ++ [job])) in
    ret true
  else ret false.

(** ** createIDP *)

Record CreateIDPRequest := {
  c_user_id : string;
  c_goals : option string;
  c_skillsToImprove : option (list SkillTargetDoc);
  c_recommendedResources : option (list ObjectId)
}.

Definition create_input (req : CreateIDPRequest) : IDPInput :=
  let recommendedResources := default [] (c_recommendedResources req) in
  {| in_employee := c_user_id req;
     in_goals := c_goals req;
     in_skillsToImprove := default [] (c_skillsToImprove req);
     in_recommendedResources := recommendedResources;
     in_status :=
       if (0 <? length recommendedResources)%nat then "draft" else "processing" |}.

(** The [try] block of [createIDP]. *)
Definition createIDP_try (req : CreateIDPRequest) : M Response :=
  let employeeId := c_user_id req in
  let goals := c_goals req in
  let skillsToImprove := default [] (c_skillsToImprove req) in
  let recommendedResources := default [] (c_recommendedResources req) in
  let scope :=
    declare "recommendedResources" VObject
      (declare "skillsToImprove" VObject
         (declare "goals" (from_option VString VUndefined goals)
            (declare "employeeId" (VString employeeId)
               idp_controller_scope))) in
  let initialStatus :=
    if (0 <? length recommendedResources)%nat then "draft" else "processing" in
  let scope := declare "initialStatus" (VString initialStatus) scope in
  let* newIDP :=
    IDP_create {| in_employee := employeeId;
                  in_goals := goals;
                  in_skillsToImprove := skillsToImprove;
                  in_recommendedResources := recommendedResources;
                  in_status := initialStatus |} in
  let scope := declare "newIDP" VObject scope in
  let* _ :=
    if (length recommendedResources =? 0)%nat then
      (* the block of the [if]: [jobAdded] is declared here *)
      let* jobAdded :=
        addJob {| userId := employeeId; idpId := idp_oid newIDP |} in
      let block := declare "jobAdded" (VBool jobAdded) scope in
      let* v := resolve block "jobAdded" in
      if negb (truthy v) then console_error "Failed to add job to queue"
      else ret tt
    else ret tt in
  (* after the block: the environment of the function body again *)
  let* v := resolve scope "jobAdded" in
  let* _ :=
    if negb (truthy v) then console_error "Failed to add job to queue"
    else ret tt in
  ret (status_json 201
         (IdpCreated "IDP created. Generating recommendations in background..."
                     newIDP "processing")).

Definition createIDP (req : CreateIDPRequest) : M Response :=
  try_catch
    (createIDP_try req)
    (fun error =>
       let* _ := console_error "Create IDP Error:" in
       ret (status_json 500
              (MessageError "Failed to create IDP" (error_message error)))).

(** The document that [createIDP] stores in world [w], and the job it
    hands to the queue. *)
Definition created_idp (req : CreateIDPRequest) (w : World) : IDPDoc :=
  {| idp_oid := pretty (next_oid w);
     idp_fields :=
       {| employee := in_employee (create_input req);
          goals := in_goals (create_input req);
          skillsToImprove := in_skillsToImprove (create_input req);
          recommendedResources := in_recommendedResources (create_input req);
          status := in_status (create_input req);
          managerFeedback := "" |} |}.

Definition created_job (req : CreateIDPRequest) (w : World) : Job :=
  {| userId := c_user_id req; idpId := pretty (next_oid w) |}.

(** ** updateIDP *)

Record UpdateBody := {
  b_refreshAI : option Json;
  b_goals : option string;
  b_skillsToImprove : option (list SkillTargetDoc);
  b_recommendedResources : option (list ObjectId);
  b_status : option string;
  b_managerFeedback : option string;
  b_employee : option ObjectId
}.

Record UpdateIDPRequest := {
  u_params_id : string;
  u_user_id : string;
  u_body : UpdateBody
}.

(** [{ ...req.body }] followed by [delete updateData.refreshAI] *)
Definition spread_without_refreshAI (b : UpdateBody) : UpdateData :=
  {| d_goals := b_goals b;
     d_skillsToImprove := b_skillsToImprove b;
     d_recommendedResources := b_recommendedResources b;
     d_status := b_status b;
     d_managerFeedback := b_managerFeedback b;
     d_employee := b_employee b |}.

Definition set_recommendedResources (ids : list ObjectId) (d : UpdateData)
  : UpdateData :=
  {| d_goals := d_goals d;
     d_skillsToImprove := d_skillsToImprove d;
     d_recommendedResources := Some ids;
     d_status := d_status d;
     d_managerFeedback := d_managerFeedback d;
     d_employee := d_employee d |}.

Definition find_skill_doc (coll : list SkillDoc) (id : ObjectId)
  : option SkillDoc :=
  List.find (fun d => String.eqb (skill_oid d) id) coll.

(** [User.findById(id).populate("skills.skillId")]: every skill reference
    is replaced by the skill document, or by null when there is none. *)
Definition User_findById_populated (id : ObjectId)
  : M (option (list (option SkillDoc * Z))) :=
  let* w := get_world in
  ret ((fun u => map (fun s => (find_skill_doc (skillColl w) (skillId s), level s))
                     (user_skills u))
         <$> users w !! id).

Definition Skill_find_all : M (list SkillDoc) :=
  let* w := get_world in
  ret (skillColl w).

(** [Resource.find().populate("skill")] *)
Definition Resource_find_populated : M (list (ResourceDoc * option SkillDoc)) :=
  let* w := get_world in
  ret (map (fun r => (r, find_skill_doc (skillColl w) (resource_skill r)))
           (resourceColl w)).

Definition format_user_skill (s : option SkillDoc * Z) : M UserSkillFormatted :=
  match fst s with
  | Some d => ret {| uf_skillId := skill_oid d; uf_level := snd s |}
  | None => throw (TypeError "Cannot read properties of null (reading '_id')")
  end.

Definition format_skill (s : SkillDoc) : SkillFormatted :=
  {| sf_id := skill_oid s;
     sf_name := skill_name s;
     sf_category := skill_category s;
     sf_description := skill_description s |}.

Definition format_resource (r : ResourceDoc * option SkillDoc)
  : ResourceFormatted :=
  {| rf_id := resource_oid (fst r);
     rf_title := title (fst r);
     rf_type := type (fst r);
     rf_difficulty := difficulty (fst r);
     rf_url := url (fst r);
     rf_provider := provider (fst r);
     rf_skill := match snd r with
                 | Some s => (skill_oid s, skill_name s)
                 | None => (""%string, ""%string)
                 end |}.

(** The body of [if (refreshAI) { ... }]: the request sent to the Python
    service, the call, and the update data and summary built from the
    answer. *)
Definition refresh_from_ai (req : UpdateIDPRequest) (updateData : UpdateData)
  : M (UpdateData * option (list AiRecommendation * list SkillTargetDoc)) :=
  let* _ := console_log "🔄 AI Refresh Triggered for IDP:" in
  let* user := User_findById_populated (u_user_id req) in
  let* userSkillsFormatted :=
    match user with
    | Some user_skills => mapM format_user_skill user_skills
    | None => throw (TypeError "Cannot read properties of null (reading 'skills')")
    end in
  let* allSkills := Skill_find_all in
  let skillsFormatted := map format_skill allSkills in
  let* allResources := Resource_find_populated in
  let resourcesFormatted := map format_resource allResources in
  let pythonData :=
    {| pd_user_skills := userSkillsFormatted;
       pd_skills_to_improve := default [] (b_skillsToImprove (u_body req));
       pd_performance_reports := [];
       pd_resources := resourcesFormatted;
       pd_skills := skillsFormatted;
       pd_user_skills_data := [];
       pd_limit := 10 |} in
  let* aiResponse := getRecommendedResources pythonData in
  match ai_recommendations aiResponse with
  | Some recommendations =>
      ret (set_recommendedResources (map ai_resourceId recommendations) updateData,
           Some (recommendations, ai_skills_to_improve aiResponse))
  | None => throw (TypeError "Cannot read properties of undefined (reading 'map')")
  end.

Definition updateIDP (req : UpdateIDPRequest) : M Response :=
  try_catch
    (let idpId := u_params_id req in
     let* idp := IDP_findById idpId in
     match idp with
     | None => ret (status_json 404 (Message "IDP not found"))
     | Some idp =>
         if negb (String.eqb (employee (idp_fields idp)) (u_user_id req)) then
           ret (status_json 403 (Message "Access denied"))
         else
           let refreshAI := strictly_true (b_refreshAI (u_body req)) in
           let updateData := spread_without_refreshAI (u_body req) in
           let* refreshed :=
             if refreshAI then refresh_from_ai req updateData
             else ret (updateData, None) in
           let* updatedIDP := IDP_findByIdAndUpdate idpId (fst refreshed) in
           ret (json (IdpUpdated
                        (if refreshAI
                         then "IDP updated + AI recommendations refreshed"
                         else "IDP updated successfully")
                        updatedIDP (snd refreshed)))
     end)
    (fun error =>
       let* _ := console_error "Update IDP Error:" in
       ret (status_json 500
              (MessageError "Failed to update IDP" (error_message error)))).

(** ** The Skill model

    [name] is required, unique and trimmed; [category] is required;
    [description] defaults to the empty string.  The setters of a path run
    on documents, on update documents and on query filters. *)

(** A JavaScript string is held as the Rocq string of its UTF-8 encoding,
    which is also how a string literal of this file is read: a code point up
    to U+007F is one byte, U+00A0 is the two bytes 194 160, and the other
    white space of [String.prototype.trim] is three bytes each. *)

(** White space and line terminators of one byte: U+0009 to U+000D and
    U+0020. *)
Definition is_space (c : ascii) : bool :=
  let n := nat_of_ascii c in
  (n =? 32)%nat || ((9 <=? n)%nat && (n <=? 13)%nat).

(** U+00A0, the no-break space. *)
Definition is_space2 (c1 c2 : ascii) : bool :=
  (nat_of_ascii c1 =? 194)%nat && (nat_of_ascii c2 =? 160)%nat.

(** U+1680, U+2000 to U+200A, U+2028, U+2029, U+202F, U+205F, U+3000 and
    U+FEFF. *)
Definition is_space3 (c1 c2 c3 : ascii) : bool :=
  let a := nat_of_ascii c1 in
  let b := nat_of_ascii c2 in
  let c := nat_of_ascii c3 in
  ((a =? 225) && (b =? 154) && (c =? 128))%nat
  || ((a =? 226) && (b =? 128)
      && (((128 <=? c) && (c <=? 138)) || (c =? 168) || (c =? 169)
          || (c =? 175)))%nat
  || ((a =? 226) && (b =? 129) && (c =? 159))%nat
  || ((a =? 227) && (b =? 128) && (c =? 128))%nat
  || ((a =? 239) && (b =? 187) && (c =? 191))%nat.

(** The string after its first code point, when that is white space. *)
Definition head_space (s : string) : option string :=
  match s with
  | EmptyString => None
  | String c1 s1 =>
      if is_space c1 then Some s1
      else
        match s1 with
        | EmptyString => None
        | String c2 s2 =>
            if is_space2 c1 c2 then Some s2
            else
              match s2 with
              | EmptyString => None
              | String c3 s3 => if is_space3 c1 c2 c3 then Some s3 else None
              end
        end
  end.

Fixpoint trimStart (s : string) : string :=
  match s with
  | EmptyString => EmptyString
  | String c1 s1 =>
      if is_space c1 then trimStart s1
      else
        match s1 with
        | EmptyString => s
        | String c2 s2 =>
            if is_space2 c1 c2 then trimStart s2
            else
              match s2 with
              | EmptyString => s
              | String c3 s3 => if is_space3 c1 c2 c3 then trimStart s3 else s
              end
        end
  end.

(** Nothing but white space. *)
Definition blank (s : string) : bool :=
  match trimStart s with
  | EmptyString => true
  | String _ _ => false
  end.

(** The string without its longest suffix of white space. *)
Fixpoint trimEnd (s : string) : string :=
  match s with
  | EmptyString => EmptyString
  | String c s' => if blank s then EmptyString else String c (trimEnd s')
  end.

Definition trim (s : string) : string := trimEnd (trimStart s).

Record SkillInput := {
  s_name : option string;
  s_category : option string;
  s_description : option string
}.

Definition name_matches (d : SkillDoc) (submitted : option string) : bool :=
  match submitted with
  | Some n => String.eqb (skill_name d) (trim n)
  | None => false
  end.

(** [Skill.findOne({ name })] *)
Definition Skill_findOne_name (name : option string) : M (option SkillDoc) :=
  let* w := get_world in
  ret (List.find (fun d => name_matches d name) (skillColl w)).

(** The stored documents whose name is one of [names]. *)
Definition matching_docs (names : list (option string)) (coll : list SkillDoc)
  : list SkillDoc :=
  List.filter (fun d => existsb (name_matches d) names) coll.

(** [Skill.find({ name: { $in: names } })] *)
Definition Skill_find_name_in (names : list (option string)) : M (list SkillDoc) :=
  let* w := get_world in
  ret (matching_docs names (skillColl w)).

Definition Skill_findById (id : ObjectId) : M (option SkillDoc) :=
  let* w := get_world in
  ret (find_skill_doc (skillColl w) id).

Definition required (o : option string) : bool :=
  match o with
  | Some s => negb (String.eqb s "")
  | None => false
  end.

Record SkillFields := {
  sk_name : string;
  sk_category : string;
  sk_description : string
}.

(** Casting and validation of a new skill document. *)
Definition validate_skill (i : SkillInput) : option SkillFields :=
  let name := trim <$> s_name i in
  if required name && required (s_category i) then
    Some {| sk_name := default ""%string name;
            sk_category := default ""%string (s_category i);
            sk_description := default ""%string (s_description i) |}
  else None.

Definition name_taken (coll : list SkillDoc) (name : string) : bool :=
  existsb (fun d => String.eqb (skill_name d) name) coll.

(** One insert into the collection: the unique index on [name] refuses a
    second document with a stored name. *)
Definition insert_skill (f : SkillFields) : M SkillDoc :=
  let* w := get_world in
  if name_taken (skillColl w) (sk_name f) then
    throw (MongoServerError "E11000 duplicate key error collection: skills index: name_1")
  else
    let* oid := fresh_oid in
    let doc := {| skill_oid := oid;
                  skill_name := sk_name f;
                  skill_category := sk_category f;
                  skill_description := sk_description f |} in
    let* _ := modify (set_skillColl (fun coll => coll ++ [doc])) in
    ret doc.

(** [Skill.create(input)] *)
Definition Skill_create (i : SkillInput) : M SkillDoc :=
  match validate_skill i with
  | Some f => insert_skill f
  | None => throw (ValidationError "Skill validation failed")
  end.

Fixpoint validate_all (l : list SkillInput) : option (list SkillFields) :=
  match l with
  | [] => Some []
  | i :: l' =>
      match validate_skill i, validate_all l' with
      | Some f, Some fs => Some (f :: fs)
      | _, _ => None
      end
  end.

(** [Skill.insertMany(inputs)]: every document is validated first; the
    ordered insert then stops at the first document that the unique index
    refuses, and the documents before it stay inserted. *)
Definition Skill_insertMany (l : list SkillInput) : M (list SkillDoc) :=
  match validate_all l with
  | Some fs => mapM insert_skill fs
  | None => throw (ValidationError "Skill validation failed")
  end.

Definition update_skill_doc (i : SkillInput) (d : SkillDoc) : SkillDoc :=
  {| skill_oid := skill_oid d;
     skill_name := default (skill_name d) (trim <$> s_name i);
     skill_category := default (skill_category d) (s_category i);
     skill_description := default (skill_description d) (s_description i) |}.

(** The collection with the first document of this id replaced. *)
Fixpoint replace_skill (id : ObjectId) (d' : SkillDoc) (coll : list SkillDoc)
  : list SkillDoc :=
  match coll with
  | [] => []
  | d :: coll' =>
      if String.eqb (skill_oid d) id then d' :: coll'
      else d :: replace_skill id d' coll'
  end.

(** The collection without the first document of this id. *)
Fixpoint remove_skill (id : ObjectId) (coll : list SkillDoc) : list SkillDoc :=
  match coll with
  | [] => []
  | d :: coll' =>
      if String.eqb (skill_oid d) id then coll'
      else d :: remove_skill id coll'
  end.

(** [Skill.findByIdAndUpdate(id, update, { new: true })]: the members of
    the update that are present are set; no validator runs; the unique
    index refuses a name that another document holds. *)
Definition Skill_findByIdAndUpdate (id : ObjectId) (i : SkillInput)
  : M (option SkillDoc) :=
  let* w := get_world in
  match find_skill_doc (skillColl w) id with
  | None => ret None
  | Some d =>
      let d' := update_skill_doc i d in
      if name_taken (remove_skill id (skillColl w)) (skill_name d')
      then throw (MongoServerError "E11000 duplicate key error collection: skills index: name_1")
      else
        let* _ := modify (set_skillColl (replace_skill id d')) in
        ret (Some d')
  end.

(** [Skill.findByIdAndDelete(id)] *)
Definition Skill_findByIdAndDelete (id : ObjectId) : M (option SkillDoc) :=
  let* w := get_world in
  match find_skill_doc (skillColl w) id with
  | None => ret None
  | Some d =>
      let* _ := modify (set_skillColl (remove_skill id)) in
      ret (Some d)
  end.

(** ** The skill controller *)

Record Req (B : Type) := {
  req_user_role : string;
  req_params_id : string;
  req_body : B
}.
Arguments req_user_role {B} _.
Arguments req_params_id {B} _.
Arguments req_body {B} _.

Definition addSkill (req : Req SkillInput) : M Response :=
  try_catch
    (if negb (String.eqb (req_user_role req) "admin") then
       ret (status_json 403 (Message "Access denied: Admin only"))
     else
       let name := s_name (req_body req) in
       let* existing := Skill_findOne_name name in
       match existing with
       | Some _ => ret (status_json 400 (Message "Skill already exists"))
       | None =>
           let* skill := Skill_create (req_body req) in
           ret (status_json 201 (SkillAdded "Skill added successfully" skill))
       end)
    (fun error =>
       let* _ := console_error "Add Skill Error:" in
       ret (status_json 500 (Message "Server error"))).

Definition getAllSkills (req : Req unit) : M Response :=
  try_catch
    (let* skills := Skill_find_all in
     ret (json (SkillList skills)))
    (fun error =>
       let* _ := console_error "Get All Skills Error:" in
       ret (status_json 500 (Message "Server error"))).

Definition getSkillById (req : Req unit) : M Response :=
  try_catch
    (let* skill := Skill_findById (req_params_id req) in
     match skill with
     | None => ret (status_json 404 (Message "Skill not found"))
     | Some skill => ret (json (SkillFound skill))
     end)
    (fun error =>
       let* _ := console_error "Get Skill Error:" in
       ret (status_json 500 (Message "Server error"))).

Definition updateSkill (req : Req SkillInput) : M Response :=
  try_catch
    (if negb (String.eqb (req_user_role req) "admin") then
       ret (status_json 403 (Message "Access denied: Admin only"))
     else
       let* skill := Skill_findByIdAndUpdate (req_params_id req) (req_body req) in
       match skill with
       | None => ret (status_json 404 (Message "Skill not found"))
       | Some skill => ret (json (SkillUpdated "Skill updated successfully" skill))
       end)
    (fun error =>
       let* _ := console_error "Update Skill Error:" in
       ret (status_json 500 (Message "Server error"))).

(** The body is [None] when it is not an array. *)
Definition bulkAddSkills (req : Req (option (list SkillInput))) : M Response :=
  try_catch
    (if negb (String.eqb (req_user_role req) "admin") then
       ret (status_json 403 (Message "Access denied: Admin only"))
     else
       match req_body req with
       | None => ret (status_json 400 (Message "Expected an array of skills"))
       | Some skills =>
           let names := map s_name skills in
           let* existing := Skill_find_name_in names in
           if (0 <? length existing)%nat then
             ret (status_json 400
                    (SkillsExist "Some skills already exist"
                                 (map skill_name existing)))
           else
             let* inserted := Skill_insertMany skills in
             ret (status_json 201
                    (SkillsAdded "Skills added successfully"
                                 (length inserted) inserted))
       end)
    (fun error =>
       let* _ := console_error "Bulk Add Skills Error:" in
       ret (status_json 500 (Message "Server error"))).

Definition deleteSkill (req : Req unit) : M Response :=
  try_catch
    (if negb (String.eqb (req_user_role req) "admin") then
       ret (status_json 403 (Message "Access denied: Admin only"))
     else
       let* skill := Skill_findByIdAndDelete (req_params_id req) in
       match skill with
       | None => ret (status_json 404 (Message "Skill not found"))
       | Some _ => ret (json (Message "Skill deleted successfully"))
       end)
    (fun error =>
       let* _ := console_error "Delete Skill Error:" in
       ret (status_json 500 (Message "Server error"))).

(** ** The role middleware and the skill routes *)

(** [allowedRoles(...roles)(req, res, next)] *)
Definition allowedRoles {B} (roles : list string) (req : Req B)
  (next : M Response) : M Response :=
  if negb (existsb (String.eqb (req_user_role req)) roles) then
    ret (status_json 403
           (Message ("Access denied: Only " ++ String.concat ", " roles
                     ++ " allowed")))
  else next.

Definition route_add (req : Req SkillInput) : M Response :=
  allowedRoles ["admin"%string] req (addSkill req).
Definition route_update (req : Req SkillInput) : M Response :=
  allowedRoles ["admin"%string] req (updateSkill req).
Definition route_bulk_add (req : Req (option (list SkillInput))) : M Response :=
  allowedRoles ["admin"%string] req (bulkAddSkills req).
Definition route_delete (req : Req unit) : M Response :=
  allowedRoles ["admin"%string] req (deleteSkill req).

(** The handlers of the skill controller and the two IDP handlers above, as
    one operation on the world. *)
Inductive Operation :=
| OpCreateIDP (req : CreateIDPRequest)
| OpUpdateIDP (req : UpdateIDPRequest)
| OpAddSkill (req : Req SkillInput)
| OpGetAllSkills (req : Req unit)
| OpGetSkillById (req : Req unit)
| OpUpdateSkill (req : Req SkillInput)
| OpBulkAddSkills (req : Req (option (list SkillInput)))
| OpDeleteSkill (req : Req unit).

Definition handler (op : Operation) : M Response :=
  match op with
  | OpCreateIDP req => createIDP req
  | OpUpdateIDP req => updateIDP req
  | OpAddSkill req => addSkill req
  | OpGetAllSkills req => getAllSkills req
  | OpGetSkillById req => getSkillById req
  | OpUpdateSkill req => updateSkill req
  | OpBulkAddSkills req => bulkAddSkills req
  | OpDeleteSkill req => deleteSkill req
  end.

Definition perform (op : Operation) (w : World) : Response * World :=
  run (handler op) w.

(** A sequence of requests, handled one after the other. *)
Fixpoint perform_all (ops : list Operation) (w : World) : World :=
  match ops with
  | [] => w
  | op :: ops' => perform_all ops' (snd (perform op w))
  end.

(** ** Notions used to state the properties *)

(** The replies on which [axios.post] rejects: a status outside 2xx, or no
    reply. *)
Definition rejected_by_axios (r : CoreReply) : bool :=
  match r with
  | Recommended s _ | Rejected s _ => negb (validateStatus s)
  | Unreachable => true
  end.

(** A reply by which the core refuses the request, or the lack of one. *)
Definition core_refuses (r : CoreReply) : bool :=
  match r with
  | Recommended _ _ => false
  | Rejected _ _ | Unreachable => true
  end.

(** 4xx *)
Definition is_client_error (c : nat) : bool := (400 <=? c)%nat && (c <? 500)%nat.

Fixpoint format_user_skills (l : list (option SkillDoc * Z))
  : option (list UserSkillFormatted) :=
  match l with
  | [] => Some []
  | (Some d, lv) :: l' =>
      match format_user_skills l' with
      | Some r => Some ({| uf_skillId := skill_oid d; uf_level := lv |} :: r)
      | None => None
      end
  | (None, _) :: _ => None
  end.

(** The request that [updateIDP] sends to the Python service in world [w];
    [None] when building it throws. *)
Definition python_data (req : UpdateIDPRequest) (w : World) : option PythonData :=
  match users w !! u_user_id req with
  | Some u =>
      match format_user_skills
              (map (fun s => (find_skill_doc (skillColl w) (skillId s), level s))
                   (user_skills u)) with
      | Some userSkillsFormatted =>
          Some {| pd_user_skills := userSkillsFormatted;
                  pd_skills_to_improve :=
                    default [] (b_skillsToImprove (u_body req));
                  pd_performance_reports := [];
                  pd_resources :=
                    map format_resource
                        (map (fun r => (r, find_skill_doc (skillColl w)
                                                          (resource_skill r)))
                             (resourceColl w));
                  pd_skills := map format_skill (skillColl w);
                  pd_user_skills_data := [];
                  pd_limit := 10 |}
      | None => None
      end
  | None => None
  end.

(** The world after the recommender client, resp. the refresh branch of
    [updateIDP], has written its line to the console. *)
Definition client_log (w : World) : World :=
  set_console
    (fun out => out ++ ["Error calling Python /recommend/resources:"%string]) w.

Definition refresh_log (w : World) : World :=
  set_console (fun out => out ++ ["🔄 AI Refresh Triggered for IDP:"%string]) w.

(** What [updateIDP] answers when the call to the Python service fails. *)
Definition update_failure (detail : string) : Response :=
  status_json 500 (MessageError "Failed to update IDP" detail).

(** A computation keeps a property of the skill collection. *)
Definition keeps {A} (P : list SkillDoc -> Prop) (c : M A) : Prop :=
  forall w, P (skillColl w) -> P (skillColl (snd (c w))).

Definition distinct_names (coll : list SkillDoc) : Prop :=
  NoDup (map skill_name coll).

Definition trimmed_names (coll : list SkillDoc) : Prop :=
  Forall (fun d => trim (skill_name d) = skill_name d) coll.

(** A submitted skill carries the name of a stored one. *)
Definition submitted_exists (skills : list SkillInput) (w : World) : Prop :=
  exists i d, In i skills /\ In d (skillColl w)
              /\ s_name i = Some (skill_name d).

(** Skill names are unique: no name occurs twice in the collection. *)
Definition unique_names (w : World) : Prop := distinct_names (skillColl w).

(** Every stored name is as the [trim] setter leaves it. *)
Definition names_trimmed (w : World) : Prop := trimmed_names (skillColl w).

End Backend.

(* ===================================================================== *)
(** * Concrete scenarios *)
(* ===================================================================== *)

Module Scenarios.

Module Rec.
Import Recommender.

Definition javascript : Skill :=
  {| skill_id := "s1"; skill_name := "JavaScript";
     skill_category := "Technical"; skill_description := "" |}.

Definition react : Skill :=
  {| skill_id := "s2"; skill_name := "React";
     skill_category := "Technical"; skill_description := "" |}.

Definition js_basics : Resource :=
  {| res_id := "r1"; res_title := "JS basics"; res_type := "course";
     res_skill := "s1"; res_provider := "Udemy"; res_difficulty := beginner;
     res_description := ""; res_views := 10 |}.

Definition js_advanced : Resource :=
  {| res_id := "r2"; res_title := "JS in depth"; res_type := "book";
     res_skill := "s1"; res_provider := "OReilly"; res_difficulty := advanced;
     res_description := ""; res_views := 25 |}.

Definition react_intro : Resource :=
  {| res_id := "r3"; res_title := "React intro"; res_type := "video";
     res_skill := "s2"; res_provider := "YouTube"; res_difficulty := beginner;
     res_description := ""; res_views := 7 |}.

(** An index that relates JavaScript and React with similarity 0.8. *)
Definition toy_index (catalog : list Skill) (s : Skill) (k : nat)
  : list (SkillId * Q) :=
  take k (if String.eqb (skill_id s) "s1" then [("s2"%string, 0.8%Q)]
          else if String.eqb (skill_id s) "s2" then [("s1"%string, 0.8%Q)]
          else []).

Definition caps : Capabilities :=
  {| similarity_index := Some toy_index;
     neighbor_count := 5;
     collaborative_signal := fun r => (inject_Z (Z.of_nat (res_views r)) / 100)%Q;
     type_preference := fun _ => None;
     default_weights :=
       {| w_skill_gap := 0.35; w_skill_relevance := 0.25;
          w_difficulty_match := 0.20; w_collaborative := 0.20;
          w_resource_type := 0.00 |};
     scoring_raises := fun _ => false |}.

Definition request : Request :=
  {| user_skills := [{| us_skill := "s1"; us_level := 3 |}];
     skills_to_improve :=
       [{| st_skill := "s1"; st_current := 3; st_target := 8 |}];
     performance_reports := [];
     resources := [js_basics; js_advanced; react_intro];
     skills := [javascript; react];
     limit := None;
     weights := None |}.

End Rec.

Module Srv.
Import Backend.

Definition plan : IDPDoc :=
  {| idp_oid := "idp1";
     idp_fields :=
       {| employee := "u1"; goals := Some "Learn React"%string;
          skillsToImprove := [{| skill := "sk1"; currentLevel := 3;
                                 targetLevel := 8 |}];
          recommendedResources := []; status := "draft";
          managerFeedback := "" |} |}.

Definition javascript : SkillDoc :=
  {| skill_oid := "sk1"; skill_name := "JavaScript";
     skill_category := "Technical"; skill_description := "" |}.

Definition alice : UserDoc :=
  {| user_oid := "u1"; user_role := "employee";
     user_skills := [{| skillId := "sk1"; level := 3 |}] |}.

(** A world with one plan, one skill and one user, in which the IDP schema
    accepts every document and casts every update, the queue accepts every
    job, and the Python service answers every call with [reply]. *)
Definition world (reply : CoreReply) : World :=
  {| idps := {[ "idp1"%string := plan ]};
     skillColl := [javascript];
     users := {[ "u1"%string := alice ]};
     resourceColl := [];
     queue := [];
     console := [];
     next_oid := 7;
     idp_schema_accepts := fun _ => true;
     idp_update_cast_error := fun _ => None;
     queue_accepts := fun _ => true;
     python_service := fun _ => reply |}.

Definition no_change : UpdateBody :=
  {| b_refreshAI := None; b_goals := None; b_skillsToImprove := None;
     b_recommendedResources := None; b_status := None;
     b_managerFeedback := None; b_employee := None |}.

(** The owner asks for an AI refresh of the plan. *)
Definition refresh_by_owner : UpdateIDPRequest :=
  {| u_params_id := "idp1"; u_user_id := "u1";
     u_body :=
       {| b_refreshAI := Some (JBool true); b_goals := None;
          b_skillsToImprove := None; b_recommendedResources := None;
          b_status := None; b_managerFeedback := None; b_employee := None |} |}.

(** Somebody else tries to mark the plan as completed. *)
Definition update_by_stranger : UpdateIDPRequest :=
  {| u_params_id := "idp1"; u_user_id := "u2";
     u_body :=
       {| b_refreshAI := None; b_goals := None;
          b_skillsToImprove := None; b_recommendedResources := None;
          b_status := Some "completed"%string; b_managerFeedback := None;
          b_employee := None |} |}.

Definition create_without_resources : CreateIDPRequest :=
  {| c_user_id := "u1"; c_goals := Some "Learn React"%string;
     c_skillsToImprove := None; c_recommendedResources := None |}.

Definition add_javascript : Req SkillInput :=
  {| req_user_role := "admin"; req_params_id := "";
     req_body := {| s_name := Some "JavaScript"%string;
                    s_category := Some "Technical"%string;
                    s_description := None |} |}.

Definition go_and_javascript : list SkillInput :=
  [ {| s_name := Some "Go"%string;
       s_category := Some "Technical"%string;
       s_description := None |};
    {| s_name := Some "JavaScript"%string;
       s_category := Some "Technical"%string;
       s_description := None |} ].

Definition bulk_with_javascript : Req (option (list SkillInput)) :=
  {| req_user_role := "admin"; req_params_id := "";
     req_body := Some go_and_javascript |}.

End Srv.

End Scenarios.

(* ===================================================================== *)
(** * More of the backend: the rest of the IDP controller, the second
      function of the recommender client, the auth middleware and the skill
      routes *)
(* ===================================================================== *)

Module Extended.
Import Backend.

(** As in [Backend], the id in the path of a request is a well-formed
    ObjectId and the database answers every query: the CastError of a
    malformed path id and the failures of the connection are outside the
    model. *)

(** An answer of a handler whose body is not one of [Backend.Body]. *)
Record Answer (B : Type) := { a_code : nat; a_body : B }.
Arguments a_code {B} _.
Arguments a_body {B} _.

(** ** approveIDP *)

Record ApproveRequest := {
  ap_params_id : string;
  ap_status : option string;
  ap_managerFeedback : option string
}.

Inductive ApproveBody :=
| ApproveMessage (message : string)
| ApproveDone (message : string) (idp : IDPDoc).

Definition reviewable : list string :=
  ["approved"; "rejected"; "needs_revision"]%string.

(** [status && ["approved", "rejected", "needs_revision"].includes(status)] *)
Definition accepted_status (status : option string) : bool :=
  match status with
  | Some s => negb (String.eqb s "") && existsb (String.eqb s) reviewable
  | None => false
  end.

(** [managerFeedback || ""] *)
Definition or_empty (o : option string) : string :=
  match o with
  | Some s => if String.eqb s "" then ""%string else s
  | None => ""%string
  end.

Definition with_review (status feedback : string) (d : IDPDoc) : IDPDoc :=
  {| idp_oid := idp_oid d;
     idp_fields :=
       {| employee := employee (idp_fields d);
          goals := goals (idp_fields d);
          skillsToImprove := skillsToImprove (idp_fields d);
          recommendedResources := recommendedResources (idp_fields d);
          status := status;
          managerFeedback := feedback |} |}.

(** [idp.save()]: the schema of the IDP model (outside the sources, here
    the parameter [schema_accepts]) decides whether the changed document is
    written back under its id. *)
Definition IDP_save (schema_accepts : IDPDoc -> bool) (d : IDPDoc) : M unit :=
  if schema_accepts d then modify (set_idps (insert (idp_oid d) d))
  else throw (ValidationError "IDP validation failed").

Definition approveIDP (schema_accepts : IDPDoc -> bool) (req : ApproveRequest)
  : M (Answer ApproveBody) :=
  try_catch
    (let idpId := ap_params_id req in
     let* idp := IDP_findById idpId in
     match idp with
     | None =>
         ret {| a_code := 404; a_body := ApproveMessage "IDP not found" |}
     | Some idp =>
         let new_status :=
           if accepted_status (ap_status req)
           then default ""%string (ap_status req)
           else "approved"%string in
         let idp :=
           with_review new_status (or_empty (ap_managerFeedback req)) idp in
         let* _ := IDP_save schema_accepts idp in
         ret {| a_code := 200;
                a_body := ApproveDone
                            ("IDP " ++ status (idp_fields idp) ++ " successfully")
                            idp |}
     end)
    (fun error =>
       let* _ := console_error "Approve IDP Error:" in
       ret {| a_code := 500; a_body := ApproveMessage "Server error" |}).

(** ** getMyIDPs and getIDPsByEmployee *)

Record PopulatedTarget := {
  pt_skill : option SkillDoc;
  pt_currentLevel : Z;
  pt_targetLevel : Z
}.

Record PopulatedIDP := {
  p_idp : IDPDoc;
  p_skillsToImprove : list PopulatedTarget;
  p_recommendedResources : list ResourceDoc
}.

Inductive IdpListBody :=
| IdpListMessage (message : string)
| IdpList (idps : list PopulatedIDP).

Definition find_resource_doc (coll : list ResourceDoc) (id : ObjectId)
  : option ResourceDoc :=
  List.find (fun r => String.eqb (resource_oid r) id) coll.

(** [.populate("skillsToImprove.skill").populate("recommendedResources")]:
    a skill reference without a document becomes null; a resource reference
    without a document is dropped from the populated array. *)
Definition populate_idp (w : World) (d : IDPDoc) : PopulatedIDP :=
  {| p_idp := d;
     p_skillsToImprove :=
       map (fun t => {| pt_skill := find_skill_doc (skillColl w) (skill t);
                        pt_currentLevel := currentLevel t;
                        pt_targetLevel := targetLevel t |})
           (skillsToImprove (idp_fields d));
     p_recommendedResources :=
       omap (find_resource_doc (resourceColl w))
            (recommendedResources (idp_fields d)) |}.

(** [IDP.find({ employee })] followed by the two [populate]s. *)
Definition IDP_find_by_employee (employeeId : string) : M (list PopulatedIDP) :=
  let* w := get_world in
  ret (map (populate_idp w)
           (List.filter
              (fun d => String.eqb (employee (idp_fields d)) employeeId)
              (map snd (map_to_list (idps w))))).

(** [req.user.id] is the employee. *)
Definition getMyIDPs (user_id : string) : M (Answer IdpListBody) :=
  try_catch
    (let* idps := IDP_find_by_employee user_id in
     ret {| a_code := 200; a_body := IdpList idps |})
    (fun error =>
       let* _ := console_error "Get My IDPs Error:" in
       ret {| a_code := 500; a_body := IdpListMessage "Server error" |}).

(** [req.params.id] is the employee. *)
Definition getIDPsByEmployee (params_id : string) : M (Answer IdpListBody) :=
  try_catch
    (let employeeId := params_id in
     let* idps := IDP_find_by_employee employeeId in
     ret {| a_code := 200; a_body := IdpList idps |})
    (fun error =>
       let* _ := console_error "Get IDPs By Employee Error:" in
       ret {| a_code := 500; a_body := IdpListMessage "Server error" |}).

(** ** getSimilarSkills, the second function of the recommender client *)

(** How the Python service answers [/recommend/similar-skills]: the client
    reads nothing of the data, so its type is a parameter. *)
Inductive SimilarReply (D : Type) :=
| SimilarAnswer (http_status : nat) (data : D)
| SimilarUnreachable.
Arguments SimilarAnswer {D} http_status data.
Arguments SimilarUnreachable {D}.

Definition axios_post_similar {Q D} (service : Q -> SimilarReply D) (data : Q)
  : M D :=
  match service data with
  | SimilarAnswer s d =>
      if validateStatus s then ret d
      else throw (Error ("Request failed with status code " ++ pretty s))
  | SimilarUnreachable => throw (Error "connect ECONNREFUSED")
  end.

Definition getSimilarSkills {Q D} (service : Q -> SimilarReply D) (data : Q)
  : M D :=
  try_catch
    (let* res := axios_post_similar service data in
     ret res)
    (fun error =>
       let* _ := console_error "Error calling Python /recommend/similar-skills:" in
       throw (Error "Python service unavailable")).

(** ** The auth middleware *)

(** The decoded token: user id and role. *)
Record Claims := { claim_id : string; claim_role : string }.

(** [s.split(sep)] for a separator of one character. *)
Fixpoint split_on (sep : ascii) (s : string) : list string :=
  match s with
  | EmptyString => [EmptyString]
  | String c s' =>
      if Ascii.eqb c sep then EmptyString :: split_on sep s'
      else match split_on sep s' with
           | piece :: pieces => String c piece :: pieces
           | [] => [String c EmptyString]
           end
  end.

(** [authHeader.split(" ")[1]] *)
Definition bearer_token (authHeader : string) : option string :=
  split_on " "%char authHeader !! 1%nat.

(** [jwt.verify(token, secret)]: the check of the signature is the
    parameter [verify]; a token that does not verify throws, and so does a
    missing or empty token. *)
Definition jwt_verify (verify : string -> option Claims) (token : option string)
  : M Claims :=
  match token with
  | Some t =>
      if String.eqb t "" then throw (Error "jwt must be provided")
      else
        match verify t with
        | Some decoded => ret decoded
        | None => throw (Error "invalid token")
        end
  | None => throw (Error "jwt must be provided")
  end.

(** The middleware either answers itself or calls [next] with [req.user]
    set to the decoded token; what [next] does happens after the [try]. *)
Definition authMiddleware (verify : string -> option Claims)
  (authorization : option string) (next : Claims -> M Response) : M Response :=
  let* verdict :=
    try_catch
      (match authorization with
       | Some authHeader =>
           if String.eqb authHeader "" || negb (String.prefix "Bearer " authHeader)
           then ret (inl (status_json 401
                            (Message "Unauthorized: No token provided")))
           else
             let token := bearer_token authHeader in
             let* decoded := jwt_verify verify token in
             ret (inr decoded)
       | None => ret (inl (status_json 401
                             (Message "Unauthorized: No token provided")))
       end)
      (fun error =>
         let* _ := console_error "Auth Error:" in
         ret (inl (status_json 401 (Message "Unauthorized: Invalid token")))) in
  match verdict with
  | inl response => ret response
  | inr decoded => next decoded
  end.

(** ** The skill routes, each with its middlewares *)

Definition to_req {B} (user : Claims) (params_id : string) (body : B) : Req B :=
  {| req_user_role := claim_role user;
     req_params_id := params_id;
     req_body := body |}.

Inductive SkillRoute :=
| PostAdd (body : SkillInput)
| GetAll
| GetById (id : string)
| PutUpdate (id : string) (body : SkillInput)
| DeleteDelete (id : string)
| PostBulkAdd (body : option (list SkillInput)).

(** [router.METHOD(path, authMiddleware, [roleMiddleware("admin"),] handler)] *)
Definition skill_router (verify : string -> option Claims)
  (authorization : option string) (route : SkillRoute) : M Response :=
  authMiddleware verify authorization
    (fun user =>
       match route with
       | PostAdd body => route_add (to_req user "" body)
       | GetAll => getAllSkills (to_req user "" tt)
       | GetById id => getSkillById (to_req user id tt)
       | PutUpdate id body => route_update (to_req user id body)
       | DeleteDelete id => route_delete (to_req user id tt)
       | PostBulkAdd body => route_bulk_add (to_req user "" body)
       end).

(** The document that [insert_skill] stores for the fields [f] when the
    next id is [n]. *)
Definition new_skill_doc (n : nat) (f : SkillFields) : SkillDoc :=
  {| skill_oid := pretty n;
     skill_name := sk_name f;
     skill_category := sk_category f;
     skill_description := sk_description f |}.

(** The documents that an ordered insert of [fs] stores from id [n] on. *)
Fixpoint new_skill_docs (n : nat) (fs : list SkillFields) : list SkillDoc :=
  match fs with
  | [] => []
  | f :: fs' => new_skill_doc n f :: new_skill_docs (S n) fs'
  end.

(** The world after an ordered insert of [fs]. *)
Definition with_new_skills (fs : list SkillFields) (w : World) : World :=
  set_skillColl (fun coll => coll ++ new_skill_docs (next_oid w) fs)
                (set_next_oid (fun n => (n + length fs)%nat) w).

(** Fields whose names are pairwise distinct and not stored: an ordered
    insert of them meets no duplicate key. *)
Definition insertable (coll : list SkillDoc) (fs : list SkillFields) : Prop :=
  NoDup (map sk_name fs)
  /\ Forall (fun f => name_taken coll (sk_name f) = false) fs.

(** The world after a line on the console. *)
Definition logged (label : string) (w : World) : World :=
  set_console (fun out => out ++ [label]) w.

(** [w'] has the users and the resources of [w], its console lines and
    jobs followed by further ones, an id counter that is not lower, and a
    plan under every id that has one in [w]. *)
Definition grows_to (w w' : World) : Prop :=
  users w' = users w
  /\ resourceColl w' = resourceColl w
  /\ (exists lines, console w' = console w ++ lines)
  /\ (exists jobs, queue w' = queue w ++ jobs)
  /\ (next_oid w <= next_oid w')%nat
  /\ (forall k, is_Some (idps w !! k) -> is_Some (idps w' !! k)).

(** [w'] has the plans and the queue of [w]. *)
Definition same_plans (w w' : World) : Prop :=
  idps w' = idps w /\ queue w' = queue w.

(** A computation that leads every world to one related to it by [R]. *)
Definition leads (R : World -> World -> Prop) {A} (c : M A) : Prop :=
  forall w, R w (snd (c w)).

(** ** deleteResource, of the resource controller *)

Definition set_resourceColl (f : list ResourceDoc -> list ResourceDoc)
  (w : World) : World :=
  {| idps := idps w; skillColl := skillColl w; users := users w;
     resourceColl := f (resourceColl w); queue := queue w;
     console := console w; next_oid := next_oid w;
     idp_schema_accepts := idp_schema_accepts w;
     idp_update_cast_error := idp_update_cast_error w;
     queue_accepts := queue_accepts w; python_service := python_service w |}.

(** The collection without the first document of this id. *)
Fixpoint remove_resource (id : ObjectId) (coll : list ResourceDoc)
  : list ResourceDoc :=
  match coll with
  | [] => []
  | r :: coll' =>
      if String.eqb (resource_oid r) id then coll'
      else r :: remove_resource id coll'
  end.

(** [Resource.findByIdAndDelete(id)] *)
Definition Resource_findByIdAndDelete (id : ObjectId) : M (option ResourceDoc) :=
  let* w := get_world in
  match find_resource_doc (resourceColl w) id with
  | None => ret None
  | Some r =>
      let* _ := modify (set_resourceColl (remove_resource id)) in
      ret (Some r)
  end.

Definition deleteResource (req : Req unit) : M Response :=
  try_catch
    (if negb (String.eqb (req_user_role req) "admin") then
       ret (status_json 403 (Message "Access denied: Admin only"))
     else
       let* resource := Resource_findByIdAndDelete (req_params_id req) in
       match resource with
       | None => ret (status_json 404 (Message "Resource not found"))
       | Some _ => ret (json (Message "Resource deleted successfully"))
       end)
    (fun error =>
       let* _ := console_error "Delete Resource Error:" in
       ret (status_json 500 (Message "Server error"))).

End Extended.

(* ===================================================================== *)
(** * The organization settings model *)
(* ===================================================================== *)

Module Org.
Import Backend.

Record Branding := {
  logo : option string;
  primaryColor : string;
  secondaryColor : string
}.

Record DataRetention := {
  archiveInactiveUsersAfterDays : nat;
  deleteLogsAfterDays : nat;
  complianceMode : bool
}.

Record PasswordPolicy := {
  minLength : nat;
  requireUppercase : bool;
  requireNumbers : bool;
  requireSpecialChars : bool
}.

Record Policies := {
  approvalRequired : bool;
  passwordPolicy : PasswordPolicy;
  mfaEnforced : bool;
  sessionTimeoutMinutes : nat
}.

Record OrgSkillTarget := {
  target_skill : string;
  target_targetLevel : nat;
  target_priority : string;
  target_description : option string
}.

Record CompanyInfo := {
  industry : option string;
  size : option string;
  timezone : string;
  website : option string
}.

Record NotificationDefaults := {
  newUserRegistration : bool;
  pendingApprovals : bool;
  systemAlerts : bool;
  digestCadence : string
}.

Record OrgSettingsDoc := {
  org_oid : ObjectId;
  company : string;
  branding : Branding;
  allowedDomains : list string;
  dataRetention : DataRetention;
  policies : Policies;
  skillTargets : list OrgSkillTarget;
  recommenderDefaults : Weights.WeightVector;
  companyInfo : CompanyInfo;
  notificationDefaults : NotificationDefaults
}.

(** The document that the schema builds from [{ company }]: the trimmed
    company and the [default:] of every other path. *)
Definition new_settings (oid : ObjectId) (name : string) : OrgSettingsDoc :=
  {| org_oid := oid;
     company := trim name;
     branding := {| logo := None; primaryColor := "#9333ea";
                    secondaryColor := "#3b82f6" |};
     allowedDomains := [];
     dataRetention := {| archiveInactiveUsersAfterDays := 90;
                         deleteLogsAfterDays := 365;
                         complianceMode := false |};
     policies := {| approvalRequired := true;
                    passwordPolicy := {| minLength := 8;
                                         requireUppercase := true;
                                         requireNumbers := true;
                                         requireSpecialChars := false |};
                    mfaEnforced := false;
                    sessionTimeoutMinutes := 480 |};
     skillTargets := [];
     recommenderDefaults := Weights.recommenderDefaults;
     companyInfo := {| industry := None; size := None; timezone := "UTC";
                       website := None |};
     notificationDefaults := {| newUserRegistration := true;
                                pendingApprovals := true;
                                systemAlerts := true;
                                digestCadence := "daily" |} |}.

(** The collection of the model and the counter of its ids. *)
Record Store := {
  docs : list OrgSettingsDoc;
  next_id : nat
}.

(** [this.findOne({ company })]: the [trim] setter of the path runs on the
    filter too. *)
Definition findOne (name : string) (s : Store) : option OrgSettingsDoc :=
  List.find (fun d => String.eqb (company d) (trim name)) (docs s).

(** [this.create({ company })]: [company] is required, so a name that is
    empty after trimming fails validation; the unique index refuses a second
    document of a company. *)
Definition create (name : string) (s : Store)
  : (JsError + OrgSettingsDoc) * Store :=
  if String.eqb (trim name) "" then
    (inl (ValidationError
            "OrgSettings validation failed: company: Path `company` is required."),
     s)
  else if existsb (fun d => String.eqb (company d) (trim name)) (docs s) then
    (inl (MongoServerError
            "E11000 duplicate key error collection: orgsettings index: company_1"),
     s)
  else
    let d := new_settings (pretty (next_id s)) name in
    (inr d, {| docs := docs s ++ [d]; next_id := S (next_id s) |}).

(** The static [getOrCreate]; a rejected promise is the [inl] result. *)
Definition getOrCreate (name : string) (s : Store)
  : (JsError + OrgSettingsDoc) * Store :=
  let settings := findOne name s in
  match settings with
  | Some settings => (inr settings, s)
  | None => create name s
  end.

(** No two documents of one company. *)
Definition one_per_company (s : Store) : Prop :=
  NoDup (map company (docs s)).

End Org.

(* ===================================================================== *)
(** * The API client of the frontend *)
(* ===================================================================== *)

Module Frontend.
Import Backend.

(** [localStorage], and the headers of a request. *)
Abbreviation Storage := (gmap string string).
Abbreviation Headers := (gmap string string).

(** Whether a string that may be null is truthy. *)
Definition truthy_string (o : option string) : bool :=
  match o with
  | Some s => negb (String.eqb s "")
  | None => false
  end.

(** The request interceptor: the headers of [config] after it. *)
Definition request_interceptor (storage : Storage) (headers : Headers)
  : Headers :=
  let token := storage !! "accessToken"%string in
  if truthy_string token then
    <["Authorization"%string := ("Bearer " ++ default "" token)%string]> headers
  else headers.

(** What a token listener is called with. *)
Record TokenEvent := {
  ev_accessToken : option string;
  ev_refreshToken : option string;
  ev_user : option string;
  ev_forceLogout : bool
}.

(** The state of the module: [localStorage], the variable [tokenListener]
    (a listener is known by its identity), and the calls made to listeners so
    far. *)
Record Client := {
  storage : Storage;
  tokenListener : option nat;
  calls : list (nat * TokenEvent)
}.

(** [registerTokenListener(listener)]: the new state; the function it
    returns is [unsubscribe listener]. *)
Definition registerTokenListener (listener : nat) (c : Client) : Client :=
  {| storage := storage c; tokenListener := Some listener; calls := calls c |}.

Definition unsubscribe (listener : nat) (c : Client) : Client :=
  match tokenListener c with
  | Some current =>
      if Nat.eqb current listener
      then {| storage := storage c; tokenListener := None; calls := calls c |}
      else c
  | None => c
  end.

(** The data of the reply to [/auth/refresh]; each member may be missing. *)
Record RefreshData := {
  r_accessToken : option string;
  r_refreshToken : option string;
  r_user : option string
}.

(** [client.post('/auth/refresh', { refreshToken })] resolves with a reply,
    whose data may be missing, or rejects. *)
Inductive RefreshReply :=
| Resolved (data : option RefreshData)
| RejectedWith (e : JsError).

Record Tokens := { accessToken : string; refreshToken : string }.

Definition refreshAccessToken (post : string -> RefreshReply) (c : Client)
  : (JsError + Tokens) * Client :=
  let storedRefresh := storage c !! "refreshToken"%string in
  if negb (truthy_string storedRefresh) then
    (inl (Error "No refresh token"), c)
  else
    match post (default ""%string storedRefresh) with
    | RejectedWith e => (inl e, c)
    | Resolved data =>
        let newAccess := data ≫= r_accessToken in
        let newRefresh :=
          default (default ""%string storedRefresh) (data ≫= r_refreshToken) in
        let newUser := data ≫= r_user in
        if negb (truthy_string newAccess) then
          (inl (Error "No access token returned"), c)
        else
          let stored :=
            <["refreshToken"%string := newRefresh]>
              (<["accessToken"%string := default ""%string newAccess]>
                 (storage c)) in
          let event :=
            {| ev_accessToken := newAccess;
               ev_refreshToken := Some newRefresh;
               ev_user := if truthy_string newUser then newUser else None;
               ev_forceLogout := false |} in
          (inr {| accessToken := default ""%string newAccess;
                  refreshToken := newRefresh |},
           {| storage := stored;
              tokenListener := tokenListener c;
              calls := match tokenListener c with
                       | Some listener => calls c ++ [(listener, event)]
                       | None => calls c
                       end |})
    end.

End Frontend.

(* ===================================================================== *)
(** * Further concrete cases *)
(* ===================================================================== *)

Module Cases.
Import Backend Extended.

(** One plan of user u1, the skill JavaScript, no resources; every document
    and every job is accepted; the Python service cannot be reached. *)
Definition world : World := Scenarios.Srv.world Unreachable.

Definition as_admin {B} (id : string) (body : B) : Req B :=
  {| req_user_role := "admin"; req_params_id := id; req_body := body |}.

Definition go : SkillInput :=
  {| s_name := Some " Go "%string; s_category := Some "Technical"%string;
     s_description := None |}.

Definition rust : SkillInput :=
  {| s_name := Some "Rust"%string; s_category := Some "Technical"%string;
     s_description := Some "Systems programming"%string |}.

Definition go_again : SkillInput :=
  {| s_name := Some "Go"%string; s_category := Some "Backend"%string;
     s_description := None |}.

Definition blank : SkillInput :=
  {| s_name := Some "   "%string; s_category := Some "Technical"%string;
     s_description := None |}.

Definition go_fields : SkillFields :=
  {| sk_name := "Go"; sk_category := "Technical"; sk_description := "" |}.

Definition rust_fields : SkillFields :=
  {| sk_name := "Rust"; sk_category := "Technical";
     sk_description := "Systems programming" |}.

Definition go_again_fields : SkillFields :=
  {| sk_name := "Go"; sk_category := "Backend"; sk_description := "" |}.

Definition typescript : SkillDoc :=
  {| skill_oid := "sk2"; skill_name := "TypeScript";
     skill_category := "Technical"; skill_description := "" |}.

(** The world with a second skill. *)
Definition two_skills : World :=
  set_skillColl (fun coll => coll ++ [typescript]) world.

Definition rename_to_typescript : SkillInput :=
  {| s_name := Some " TypeScript "%string; s_category := None;
     s_description := None |}.

Definition recategorize : SkillInput :=
  {| s_name := None; s_category := Some "Language"%string;
     s_description := None |}.

Definition js_course : ResourceDoc :=
  {| resource_oid := "64b7f0c2a1d3e4f5a6b7c8d9"; title := "JavaScript basics";
     type := "course";
     difficulty := "beginner"; url := "https://example.org/js";
     provider := "Example"; resource_skill := "sk1" |}.

Definition recommended : AiResponse :=
  {| ai_recommendations :=
       Some [{| ai_resourceId := resource_oid js_course; ai_score := 0.9 |}];
     ai_skills_to_improve := [] |}.

Definition is_hex (c : ascii) : bool :=
  let n := nat_of_ascii c in
  ((48 <=? n) && (n <=? 57) || (97 <=? n) && (n <=? 102)
   || (65 <=? n) && (n <=? 70))%nat.

(** A string of 24 hexadecimal digits. *)
Definition hex24 (s : string) : bool :=
  (String.length s =? 24)%nat && forallb is_hex (list_ascii_of_string s).

(** An IDP schema whose [employee], [recommendedResources] and
    [skillsToImprove.skill] are ObjectIds: an update casts when each of
    them that is present is 24 hexadecimal digits. *)
Definition cast_error (d : UpdateData) : option string :=
  if forallb hex24
       (option_list (d_employee d)
        ++ default [] (d_recommendedResources d)
        ++ map skill (default [] (d_skillsToImprove d)))
  then None
  else Some "Cast to ObjectId failed"%string.

Definition with_casts (w : World) : World :=
  {| idps := idps w; skillColl := skillColl w; users := users w;
     resourceColl := resourceColl w; queue := queue w; console := console w;
     next_oid := next_oid w; idp_schema_accepts := idp_schema_accepts w;
     idp_update_cast_error := cast_error;
     queue_accepts := queue_accepts w; python_service := python_service w |}.

(** The world with a catalog of one resource and a Python service that
    recommends it. *)
Definition answering : World :=
  with_casts
    (set_resourceColl (fun _ => [js_course])
                      (Scenarios.Srv.world (Recommended 200 recommended))).

(** The plan of u1 with that resource recommended. *)
Definition plan_with_course : IDPDoc :=
  {| idp_oid := "idp1";
     idp_fields :=
       {| employee := "u1"; goals := Some "Learn React"%string;
          skillsToImprove := [{| skill := "sk1"; currentLevel := 3;
                                 targetLevel := 8 |}];
          recommendedResources := [resource_oid js_course]; status := "draft";
          managerFeedback := "" |} |}.

Definition with_course : World :=
  set_idps (fun _ => {[ "idp1"%string := plan_with_course ]}) answering.

(** The world in which the skill of the user has no document. *)
Definition without_skills : World := set_skillColl (fun _ => []) world.

(** The world whose IDP schema accepts no document. *)
Definition refusing : World :=
  {| idps := idps world; skillColl := skillColl world; users := users world;
     resourceColl := resourceColl world; queue := queue world;
     console := console world; next_oid := next_oid world;
     idp_schema_accepts := fun _ => false;
     idp_update_cast_error := idp_update_cast_error world;
     queue_accepts := queue_accepts world;
     python_service := python_service world |}.



(** U+00A0 *)
Definition no_break_space : string :=
  String (ascii_of_nat 194) (String (ascii_of_nat 160) EmptyString).

(** U+3000 *)
Definition ideographic_space : string :=
  String (ascii_of_nat 227)
         (String (ascii_of_nat 128) (String (ascii_of_nat 128) EmptyString)).




Definition create_with_resources : CreateIDPRequest :=
  {| c_user_id := "u1"; c_goals := None; c_skillsToImprove := None;
     c_recommendedResources := Some [resource_oid js_course] |}.

Definition admin : Claims := {| claim_id := "a1"; claim_role := "admin" |}.
Definition employee_u1 : Claims := {| claim_id := "u1"; claim_role := "employee" |}.

(** A verification that knows two tokens. *)
Definition verify (token : string) : option Claims :=
  if String.eqb token "token-of-admin" then Some admin
  else if String.eqb token "token-of-u1" then Some employee_u1
  else None.

Definition empty_store : Org.Store := {| Org.docs := []; Org.next_id := 0 |}.

(** A manager sends a status that is none of the three, and no feedback. *)
Definition review_done : ApproveRequest :=
  {| ap_params_id := "idp1"; ap_status := Some "done"%string;
     ap_managerFeedback := None |}.

(** A Python service that answers every similar-skills query with 503. *)
Definition overloaded (query : list string) : SimilarReply (list string) :=
  SimilarAnswer 503 [].

(** The request that [updateIDP] sends for u1 in [world]. *)
Definition request_of_u1 : PythonData :=
  {| pd_user_skills := [{| uf_skillId := "sk1"; uf_level := 3 |}];
     pd_skills_to_improve := [];
     pd_performance_reports := [];
     pd_resources := [];
     pd_skills := [format_skill Scenarios.Srv.javascript];
     pd_user_skills_data := [];
     pd_limit := 10 |}.

(** A client with a refresh token and listener 1, and a server that answers
    a refresh with a new access token only. *)
Definition signed_in : Frontend.Client :=
  {| Frontend.storage := {[ "refreshToken"%string := "refresh-1"%string ]};
     Frontend.tokenListener := Some 1%nat;
     Frontend.calls := [] |}.

(** The client after that refresh. *)
Definition refreshed : Frontend.Client :=
  {| Frontend.storage :=
       <["refreshToken"%string := "refresh-1"%string]>
         (<["accessToken"%string := "access-2"%string]>
            (Frontend.storage signed_in));
     Frontend.tokenListener := Some 1%nat;
     Frontend.calls :=
       [(1%nat, {| Frontend.ev_accessToken := Some "access-2"%string;
                   Frontend.ev_refreshToken := Some "refresh-1"%string;
                   Frontend.ev_user := None;
                   Frontend.ev_forceLogout := false |})] |}.

Definition rotate_access (refreshToken : string) : Frontend.RefreshReply :=
  Frontend.Resolved
    (Some {| Frontend.r_accessToken := Some "access-2"%string;
             Frontend.r_refreshToken := None;
             Frontend.r_user := None |}).

End Cases.

(* ===================================================================== *)
(** * Properties of the default weight vectors *)
(* ===================================================================== *)

Module WeightsFacts.
Import Weights.

Lemma same_defaults : aiWeights = recommenderDefaults.
Proof. reflexivity. Qed.

(** C6: the default weight vector over the five factors skill_gap,
    skill_relevance, difficulty_match, collaborative and resource_type sums
    to at most 1, and in fact to exactly 1 (0.35 + 0.25 + 0.20 + 0.20 + 0.00),
    both for the organization defaults and for the per-admin [aiWeights];
    the sixth stored field, [skill_similarity], adds 0. *)
Theorem default_weights_sum_to_one :
  (factor_sum recommenderDefaults <= 1)%Q
  /\ (factor_sum aiWeights <= 1)%Q
  /\ (factor_sum recommenderDefaults == 1)%Q
  /\ (factor_sum aiWeights == 1)%Q
  /\ (factor_sum recommenderDefaults == 0.35 + 0.25 + 0.20 + 0.20 + 0.00)%Q
  /\ (factor_sum aiWeights == 0.35 + 0.25 + 0.20 + 0.20 + 0.00)%Q
  /\ (stored_sum recommenderDefaults == 1)%Q
  /\ (stored_sum aiWeights == 1)%Q.
Proof.
  rewrite same_defaults.
  assert (H : (factor_sum recommenderDefaults == 1)%Q) by reflexivity.
  repeat split; try exact H; try reflexivity; rewrite H; apply Qle_refl.
Qed.

End WeightsFacts.

(* ===================================================================== *)
(** * Properties of the recommendation core *)
(* ===================================================================== *)

Module RecommenderFacts.
Import Recommender.

(** ** Gap analyzer *)

Lemma clamp_level_id (l : Z) : 1 <= l <= 10 -> clamp_level l = l.
Proof. unfold clamp_level. lia. Qed.

Lemma gap_nonneg (c t : Z) : 0 <= gap c t.
Proof. unfold gap. lia. Qed.

Lemma gap_le_9 (c t : Z) : gap c t <= 9.
Proof. unfold gap, clamp_level. lia. Qed.

Lemma normalized_gap_bounds (c t : Z) :
  (0 <= normalized_gap c t <= 1)%Q.
Proof.
  unfold normalized_gap.
  pose proof (gap_nonneg c t) as Hlo. pose proof (gap_le_9 c t) as Hhi.
  assert (H0 : (inject_Z 0 <= inject_Z (gap c t))%Q) by (rewrite <- Zle_Qle; lia).
  assert (H9 : (inject_Z (gap c t) <= inject_Z 9)%Q) by (rewrite <- Zle_Qle; lia).
  change (inject_Z 0) with 0%Q in H0. change (inject_Z 9) with 9%Q in H9.
  split.
  - apply Qle_shift_div_l; lra.
  - apply Qle_shift_div_r; lra.
Qed.

(** C3: for levels in [1,10] the normalized gap is
    max(0, targetLevel - currentLevel) / 9; it is never negative;
    (current=1, target=10) gives exactly 1 and (current=10, target=1)
    gives exactly 0. *)
Theorem normalized_gap_formula (currentLevel targetLevel : Z) :
  1 <= currentLevel <= 10 ->
  1 <= targetLevel <= 10 ->
  (normalized_gap currentLevel targetLevel
   == inject_Z (Z.max 0 (targetLevel - currentLevel)) / 9)%Q
  /\ (0 <= normalized_gap currentLevel targetLevel)%Q
  /\ (normalized_gap 1 10 == 1)%Q
  /\ (normalized_gap 10 1 == 0)%Q.
Proof.
  intros Hc Ht. split; [|split; [|split]].
  - unfold normalized_gap, gap. rewrite !clamp_level_id by assumption.
    reflexivity.
  - apply normalized_gap_bounds.
  - reflexivity.
  - reflexivity.
Qed.

Lemma normalized_gap_formula_witness :
  (normalized_gap 3 8 == inject_Z (Z.max 0 (8 - 3)) / 9)%Q
  /\ (0 <= normalized_gap 3 8)%Q
  /\ (normalized_gap 1 10 == 1)%Q
  /\ (normalized_gap 10 1 == 0)%Q.
Proof. apply (normalized_gap_formula 3 8); lia. Defined.

(** ** Scores *)

Lemma clamp01_bounds (x : Q) : (0 <= clamp01 x <= 1)%Q.
Proof.
  unfold clamp01. split.
  - apply Q.le_max_l.
  - apply Q.max_lub; [lra | apply Q.le_min_l].
Qed.

Lemma final_score_bounds (w : FactorWeights) (f : Factors) :
  (0 <= final_score w f <= 1)%Q.
Proof. apply clamp01_bounds. Qed.

Lemma score_resource_well_scored caps req gaps c s :
  score_resource caps req gaps c = Some s ->
  well_scored (effective_weights caps req) s.
Proof.
  unfold score_resource. destruct (scoring_raises caps (cand_resource c)).
  - discriminate.
  - intros [= <-]. reflexivity.
Qed.

Lemma score_all_well_scored caps req gaps cs :
  Forall (well_scored (effective_weights caps req))
         (fst (score_all caps req gaps cs)).
Proof.
  induction cs as [|c cs IH]; simpl.
  - constructor.
  - destruct (score_resource caps req gaps c) as [s|] eqn:E; simpl.
    + constructor; [eapply score_resource_well_scored; eassumption | exact IH].
    + exact IH.
Qed.

Lemma insert_ranked_Forall (P : Scored -> Prop) x l :
  P x -> Forall P l -> Forall P (insert_ranked x l).
Proof.
  intros Hx Hl. induction Hl as [|y l Hy Hl IH]; simpl.
  - repeat constructor; assumption.
  - destruct (outranks x y); repeat constructor; assumption.
Qed.

Lemma rank_Forall (P : Scored -> Prop) l : Forall P l -> Forall P (rank l).
Proof.
  induction 1 as [|x l Hx Hl IH]; simpl.
  - constructor.
  - apply insert_ranked_Forall; assumption.
Qed.

Lemma ranking_Forall (P : Scored -> Prop) caps req :
  Forall P (fst (score_all caps req (gap_analyzer req)
                           (dedup_by_id ∅ (collect caps req)))) ->
  Forall P (fst (ranking caps req)).
Proof.
  intros H. unfold ranking. simpl. apply Forall_take, rank_Forall, H.
Qed.

Lemma recommend_Ok caps req resp :
  recommend caps req = Ok resp ->
  validate req = Ok tt
  /\ recommendations resp = map to_recommendation (fst (ranking caps req))
  /\ degraded resp = snd (ranking caps req).
Proof.
  unfold recommend. destruct (validate req) as [[]|e] eqn:E; [|discriminate].
  intros [= <-]. simpl. auto.
Qed.

(** C1: every score in a returned recommendation list lies in [0,1], and
    it is the weighted sum of the five sub-scores of that entry under the
    weight vector in force, clamped to [0,1]. *)
Theorem recommend_scores_in_unit_interval caps req resp :
  recommend caps req = Ok resp ->
  Forall (fun r =>
            (0 <= score r <= 1)%Q
            /\ score r = clamp01 (weighted_sum (effective_weights caps req)
                                               (factors r)))
         (recommendations resp).
Proof.
  intros H. apply recommend_Ok in H as (_ & -> & _).
  assert (Hall : Forall (well_scored (effective_weights caps req))
                        (fst (ranking caps req)))
    by apply ranking_Forall, score_all_well_scored.
  induction Hall as [|s l Hs Hl IH]; simpl; constructor; [|exact IH].
  unfold well_scored in Hs. simpl. rewrite Hs. split.
  - apply final_score_bounds.
  - reflexivity.
Qed.

Lemma recommend_scores_in_unit_interval_witness :
  exists resp,
    recommend Scenarios.Rec.caps Scenarios.Rec.request = Ok resp
    /\ Forall (fun r =>
                 (0 <= score r <= 1)%Q
                 /\ score r
                    = clamp01 (weighted_sum
                                 (effective_weights Scenarios.Rec.caps
                                                    Scenarios.Rec.request)
                                 (factors r)))
              (recommendations resp).
Proof.
  eexists. split.
  - vm_compute. reflexivity.
  - apply (recommend_scores_in_unit_interval
             Scenarios.Rec.caps Scenarios.Rec.request).
    vm_compute. reflexivity.
Defined.

(** ** Ranking order *)

Lemma outranks_iff (a b : Scored) :
  outranks a b = true <->
  (sc_score b < sc_score a)%Q
  \/ ((sc_score a == sc_score b)%Q
      /\ ((res_views (sc_resource b) < res_views (sc_resource a))%nat
          \/ (res_views (sc_resource a) = res_views (sc_resource b)
              /\ (sc_index a <= sc_index b)%nat))).
Proof.
  unfold outranks.
  destruct (Qcompare_spec (sc_score a) (sc_score b)) as [He|Hl|Hg].
  - destruct (Nat.compare_spec (res_views (sc_resource a))
                               (res_views (sc_resource b))) as [Ve|Vl|Vg].
    + rewrite Nat.leb_le. split.
      * intros H. right. split; [exact He|]. right. split; assumption.
      * intros [H|(_ & [H|(_ & H)])]; [lra | lia | exact H].
    + split; [discriminate|].
      intros [H|(_ & [H|(H & _)])]; [lra | lia | lia].
    + split; [|reflexivity]. intros _. right. split; [exact He|]. left. lia.
  - split; [discriminate|]. intros [H|(H & _)]; lra.
  - split; [|reflexivity]. intros _. left. exact Hg.
Qed.

Lemma outranks_total (a b : Scored) :
  outranks a b = false -> outranks b a = true.
Proof.
  intros H. apply outranks_iff.
  destruct (Qlt_le_dec (sc_score a) (sc_score b)) as [Hlt|Hle]; [left; exact Hlt|].
  destruct (Qlt_le_dec (sc_score b) (sc_score a)) as [Hgt|Hge].
  { assert (Ht : outranks a b = true) by (apply outranks_iff; left; exact Hgt).
    congruence. }
  assert (Heq : (sc_score a == sc_score b)%Q) by lra.
  right. split; [symmetry; exact Heq|].
  destruct (lt_eq_lt_dec (res_views (sc_resource a)) (res_views (sc_resource b)))
    as [[Vlt|Veq]|Vgt].
  - left. exact Vlt.
  - right. split; [symmetry; exact Veq|].
    destruct (le_lt_dec (sc_index a) (sc_index b)) as [Ile|Igt]; [|lia].
    assert (Ht : outranks a b = true).
    { apply outranks_iff. right. split; [exact Heq|]. right. split; assumption. }
    congruence.
  - assert (Ht : outranks a b = true).
    { apply outranks_iff. right. split; [exact Heq|]. left. exact Vgt. }
    congruence.
Qed.

Lemma outranks_trans (a b c : Scored) :
  outranks a b = true -> outranks b c = true -> outranks a c = true.
Proof.
  rewrite !outranks_iff.
  intros [H1|(E1 & V1)] [H2|(E2 & V2)].
  - left. lra.
  - left. lra.
  - left. lra.
  - right. split; [lra|].
    destruct V1 as [V1|(V1 & I1)], V2 as [V2|(V2 & I2)].
    + left. lia.
    + left. lia.
    + left. lia.
    + right. split; lia.
Qed.

Lemma insert_ranked_sorted x l :
  StronglySorted (fun a b => outranks a b = true) l ->
  StronglySorted (fun a b => outranks a b = true) (insert_ranked x l).
Proof.
  induction 1 as [|y l Hs IH Hy]; simpl.
  - repeat constructor.
  - destruct (outranks x y) eqn:E.
    + constructor; [constructor; assumption|].
      constructor; [exact E|].
      eapply Forall_impl; [exact Hy|]. simpl. intros z Hz.
      eapply outranks_trans; eassumption.
    + constructor; [exact IH|].
      apply insert_ranked_Forall; [apply outranks_total; exact E | exact Hy].
Qed.

Lemma rank_sorted l : StronglySorted (fun a b => outranks a b = true) (rank l).
Proof.
  induction l as [|x l IH]; simpl.
  - constructor.
  - apply insert_ranked_sorted, IH.
Qed.

Lemma insert_ranked_perm x l : insert_ranked x l ≡ₚ x :: l.
Proof.
  induction l as [|y l IH]; simpl.
  - reflexivity.
  - destruct (outranks x y); [reflexivity|].
    rewrite IH. apply perm_swap.
Qed.

Lemma rank_perm l : rank l ≡ₚ l.
Proof.
  induction l as [|x l IH]; simpl.
  - reflexivity.
  - rewrite insert_ranked_perm, IH. reflexivity.
Qed.

Lemma StronglySorted_take {A} (R : A -> A -> Prop) n l :
  StronglySorted R l -> StronglySorted R (take n l).
Proof.
  intros H. revert n. induction H as [|x l Hs IH Hx]; intros [|n]; simpl;
    try constructor.
  - apply IH.
  - apply Forall_take, Hx.
Qed.

(** ** Catalog positions of the candidates *)

Lemma collect_indices_sublist (f : nat * Resource -> option Candidate) rs j :
  (forall ir c, f ir = Some c -> cand_index c = fst ir) ->
  map cand_index (omap f (zip (seq j (length rs)) rs))
    `sublist_of` seq j (length rs).
Proof.
  intros Hf. revert j. induction rs as [|r rs IH]; intros j; simpl.
  - constructor.
  - destruct (f (j, r)) as [c|] eqn:E; simpl.
    + rewrite (Hf _ _ E). simpl. apply sublist_skip, IH.
    + apply sublist_cons, IH.
Qed.

Lemma collect_lookup (f : nat * Resource -> option Candidate) rs j :
  (forall ir c, f ir = Some c ->
                cand_index c = fst ir /\ cand_resource c = snd ir) ->
  Forall (fun c => exists i, cand_index c = (j + i)%nat
                             /\ rs !! i = Some (cand_resource c))
         (omap f (zip (seq j (length rs)) rs)).
Proof.
  intros Hf. revert j. induction rs as [|r rs IH]; intros j; simpl.
  - constructor.
  - assert (Hrest : Forall (fun c => exists i, cand_index c = (j + i)%nat
                                     /\ (r :: rs) !! i = Some (cand_resource c))
                           (omap f (zip (seq (S j) (length rs)) rs))).
    { eapply Forall_impl; [apply (IH (S j))|]. simpl.
      intros c (i & Hi & Hl). exists (S i). split; [lia | exact Hl]. }
    destruct (f (j, r)) as [c|] eqn:E; simpl; [|exact Hrest].
    constructor; [|exact Hrest].
    destruct (Hf _ _ E) as [Hi Hr]. simpl in Hi, Hr.
    exists 0%nat. split; [lia|]. simpl. congruence.
Qed.

Lemma dedup_sublist seen cs : dedup_by_id seen cs `sublist_of` cs.
Proof.
  revert seen. induction cs as [|c cs IH]; intros seen; simpl.
  - constructor.
  - destruct (decide (res_id (cand_resource c) ∈ seen)).
    + apply sublist_cons, IH.
    + apply sublist_skip, IH.
Qed.

Lemma sublist_map {A B} (f : A -> B) (l1 l2 : list A) :
  l1 `sublist_of` l2 -> map f l1 `sublist_of` map f l2.
Proof.
  induction 1; simpl; [constructor | apply sublist_skip | apply sublist_cons];
    assumption.
Qed.

Lemma sublist_Forall_incl {A} (P : A -> Prop) (l1 l2 : list A) :
  l1 `sublist_of` l2 -> Forall P l2 -> Forall P l1.
Proof.
  induction 1; intros HF; [constructor | |].
  - inversion HF; subst. constructor; auto.
  - inversion HF; subst. auto.
Qed.

Lemma score_all_indices_sublist caps req gaps cs :
  map sc_index (fst (score_all caps req gaps cs))
    `sublist_of` map cand_index cs.
Proof.
  induction cs as [|c cs IH]; simpl.
  - constructor.
  - unfold score_resource.
    destruct (scoring_raises caps (cand_resource c)); simpl.
    + apply sublist_cons, IH.
    + apply sublist_skip, IH.
Qed.

Lemma score_all_lookup caps req gaps cs (rs : list Resource) :
  Forall (fun c => rs !! cand_index c = Some (cand_resource c)) cs ->
  Forall (fun s => rs !! sc_index s = Some (sc_resource s))
         (fst (score_all caps req gaps cs)).
Proof.
  induction 1 as [|c cs Hc Hcs IH]; simpl.
  - constructor.
  - unfold score_resource.
    destruct (scoring_raises caps (cand_resource c)); simpl.
    + exact IH.
    + constructor; [exact Hc | exact IH].
Qed.

Lemma collect_index_of caps req (ir : nat * Resource) c :
  (fun ir : nat * Resource =>
     (fun rel => {| cand_index := fst ir;
                    cand_resource := snd ir;
                    cand_relevance := rel |})
       <$> relevance caps req (snd ir)) ir = Some c ->
  cand_index c = fst ir /\ cand_resource c = snd ir.
Proof.
  simpl. destruct (relevance caps req (snd ir)); simpl; [|discriminate].
  intros [= <-]. auto.
Qed.

Lemma NoDup_sublist_of {A} (l1 l2 : list A) :
  l1 `sublist_of` l2 -> NoDup l2 -> NoDup l1.
Proof. intros Hs Hn. exact (sublist_NoDup l1 l2 Hn Hs). Qed.

Lemma ranking_indices_NoDup caps req :
  NoDup (map sc_index (fst (ranking caps req))).
Proof.
  unfold ranking. simpl. rewrite <- firstn_map.
  eapply NoDup_sublist_of; [apply sublist_take|].
  change (map sc_index ?l) with (sc_index <$> l).
  rewrite rank_perm.
  eapply NoDup_sublist_of; [apply score_all_indices_sublist|].
  eapply NoDup_sublist_of; [apply sublist_map, dedup_sublist|].
  eapply NoDup_sublist_of; [|apply (NoDup_seq 0 (length (resources req)))].
  apply collect_indices_sublist. intros ir c H.
  apply (collect_index_of caps req ir c H).
Qed.

Lemma ranking_lookup caps req :
  Forall (fun s => resources req !! sc_index s = Some (sc_resource s))
         (fst (ranking caps req)).
Proof.
  apply ranking_Forall, score_all_lookup.
  eapply sublist_Forall_incl; [apply dedup_sublist|].
  eapply Forall_impl.
  - apply (collect_lookup _ (resources req) 0).
    intros ir c H. apply (collect_index_of caps req ir c H).
  - simpl. intros c (i & Hi & Hl). rewrite Hi. exact Hl.
Qed.

Lemma strict_ranking l :
  StronglySorted (fun a b => outranks a b = true) l ->
  NoDup (map sc_index l) ->
  StronglySorted ranked_before l.
Proof.
  induction 1 as [|x l Hs IH Hx]; intros Hnd; [constructor|].
  simpl in Hnd. apply NoDup_cons in Hnd as [Hnotin Hnd].
  constructor; [apply IH, Hnd|].
  clear IH Hs Hnd. induction Hx as [|y l Hy Hx IH]; [constructor|].
  constructor.
  - apply outranks_iff in Hy.
    assert (Hne : sc_index x <> sc_index y).
    { intros Heq. apply Hnotin. simpl. rewrite Heq. left. }
    unfold ranked_before.
    destruct Hy as [Hy|(He & [Hv|(Hv & Hi)])]; [left; exact Hy | |].
    + right. split; [exact He|]. left. exact Hv.
    + right. split; [exact He|]. right. split; [exact Hv | lia].
  - apply IH. intros Hin. apply Hnotin. simpl. right. exact Hin.
Qed.

Lemma ranking_sorted caps req :
  StronglySorted ranked_before (fst (ranking caps req)).
Proof.
  apply strict_ranking; [|apply ranking_indices_NoDup].
  unfold ranking. simpl. apply StronglySorted_take, rank_sorted.
Qed.

Lemma ranked_scores_descend l :
  StronglySorted ranked_before l ->
  StronglySorted (fun a b => (score b <= score a)%Q) (map to_recommendation l).
Proof.
  induction 1 as [|x l Hs IH Hx]; simpl; constructor; [exact IH|].
  clear IH Hs. induction Hx as [|y l Hy Hx IH]; simpl; constructor; [|exact IH].
  simpl. destruct Hy as [Hy|(He & _)]; lra.
Qed.

(** C2: the returned recommendation list is the image of a ranked list of
    scored catalog entries; that list is strictly ordered by score
    descending, then views descending, then catalog position ascending;
    every entry sits at its recorded position of the catalog; and the scores
    of the returned list are non-increasing. *)
Theorem recommend_sorted caps req resp :
  recommend caps req = Ok resp ->
  recommendations resp = map to_recommendation (fst (ranking caps req))
  /\ StronglySorted ranked_before (fst (ranking caps req))
  /\ Forall (fun s => resources req !! sc_index s = Some (sc_resource s))
            (fst (ranking caps req))
  /\ StronglySorted (fun a b => (score b <= score a)%Q) (recommendations resp).
Proof.
  intros H. apply recommend_Ok in H as (_ & Hrec & _).
  split; [exact Hrec|]. split; [apply ranking_sorted|].
  split; [apply ranking_lookup|].
  rewrite Hrec. apply ranked_scores_descend, ranking_sorted.
Qed.

Lemma recommend_sorted_witness :
  exists resp,
    recommend Scenarios.Rec.caps Scenarios.Rec.request = Ok resp
    /\ recommendations resp
       = map to_recommendation
             (fst (ranking Scenarios.Rec.caps Scenarios.Rec.request))
    /\ StronglySorted ranked_before
                      (fst (ranking Scenarios.Rec.caps Scenarios.Rec.request))
    /\ Forall (fun s => resources Scenarios.Rec.request !! sc_index s
                        = Some (sc_resource s))
              (fst (ranking Scenarios.Rec.caps Scenarios.Rec.request))
    /\ StronglySorted (fun a b => (score b <= score a)%Q) (recommendations resp).
Proof.
  eexists. split.
  - vm_compute. reflexivity.
  - apply (recommend_sorted Scenarios.Rec.caps Scenarios.Rec.request).
    vm_compute. reflexivity.
Defined.

End RecommenderFacts.

(* ===================================================================== *)
(** * Properties of the backend handlers *)
(* ===================================================================== *)

Module BackendFacts.
Import Backend.

Ltac unfold_handler :=
  unfold run, try_catch, bind, ret, throw, get_world, modify,
    console_error, console_log in *.

(** ** updateIDP: ownership *)

Lemma updateIDP_not_owner req w idp :
  idps w !! u_params_id req = Some idp ->
  employee (idp_fields idp) <> u_user_id req ->
  run (updateIDP req) w = (status_json 403 (Message "Access denied"), w).
Proof.
  intros Hfind Hne.
  unfold updateIDP, IDP_findById. unfold_handler. rewrite Hfind.
  destruct (String.eqb (employee (idp_fields idp)) (u_user_id req)) eqn:E.
  - apply String.eqb_eq in E. contradiction.
  - reflexivity.
Qed.

(** C9: when the authenticated user is not the employee of the IDP, the
    handler answers 403 and leaves the world, the IDP documents included,
    as it was; the stored documents change only when the user is the
    owner. *)
Theorem updateIDP_owner_only req w idp :
  idps w !! u_params_id req = Some idp ->
  (employee (idp_fields idp) <> u_user_id req ->
   fst (run (updateIDP req) w) = status_json 403 (Message "Access denied")
   /\ snd (run (updateIDP req) w) = w
   /\ idps (snd (run (updateIDP req) w)) !! u_params_id req = Some idp)
  /\ (idps (snd (run (updateIDP req) w)) <> idps w ->
      employee (idp_fields idp) = u_user_id req).
Proof.
  intros Hfind. split.
  - intros Hne. rewrite (updateIDP_not_owner req w idp Hfind Hne). simpl.
    auto.
  - intros Hchanged.
    destruct (decide (employee (idp_fields idp) = u_user_id req)) as [Heq|Hne];
      [exact Heq|].
    rewrite (updateIDP_not_owner req w idp Hfind Hne) in Hchanged.
    simpl in Hchanged. contradiction.
Qed.

Lemma updateIDP_owner_only_witness :
  (fst (run (updateIDP Scenarios.Srv.update_by_stranger)
            (Scenarios.Srv.world Unreachable))
   = status_json 403 (Message "Access denied")
   /\ snd (run (updateIDP Scenarios.Srv.update_by_stranger)
               (Scenarios.Srv.world Unreachable))
      = Scenarios.Srv.world Unreachable
   /\ idps (snd (run (updateIDP Scenarios.Srv.update_by_stranger)
                     (Scenarios.Srv.world Unreachable))) !! "idp1"%string
      = Some Scenarios.Srv.plan).
Proof.
  refine (proj1 (updateIDP_owner_only Scenarios.Srv.update_by_stranger
                   (Scenarios.Srv.world Unreachable) Scenarios.Srv.plan _) _).
  - vm_compute. reflexivity.
  - vm_compute. discriminate.
Defined.

(** ** createIDP *)

Lemma jobAdded_not_declared (v1 v2 v3 v4 v5 v6 : Value) :
  declare "newIDP" v1
    (declare "initialStatus" v2
       (declare "recommendedResources" v3
          (declare "skillsToImprove" v4
             (declare "goals" v5
                (declare "employeeId" v6 idp_controller_scope)))))
    !! "jobAdded"%string = None.
Proof.
  unfold declare. rewrite !lookup_insert_ne by discriminate. reflexivity.
Qed.

Lemma bind_eq {A B} (c : M A) (k : A -> M B) w :
  bind c k w = match c w with
               | (Normal a, w') => k a w'
               | (Thrown e, w') => (Thrown e, w')
               end.
Proof. reflexivity. Qed.

Lemma try_catch_eq {A} (c : M A) (h : JsError -> M A) w :
  try_catch c h w = match c w with
                    | (Normal a, w') => (Normal a, w')
                    | (Thrown e, w') => h e w'
                    end.
Proof. reflexivity. Qed.

Lemma IDP_create_accepts input w :
  idp_schema_accepts w input = true ->
  IDP_create input w
  = (Normal {| idp_oid := pretty (next_oid w);
               idp_fields :=
                 {| employee := in_employee input;
                    goals := in_goals input;
                    skillsToImprove := in_skillsToImprove input;
                    recommendedResources := in_recommendedResources input;
                    status := in_status input;
                    managerFeedback := "" |} |},
     set_idps (insert (pretty (next_oid w))
                 {| idp_oid := pretty (next_oid w);
                    idp_fields :=
                      {| employee := in_employee input;
                         goals := in_goals input;
                         skillsToImprove := in_skillsToImprove input;
                         recommendedResources := in_recommendedResources input;
                         status := in_status input;
                         managerFeedback := "" |} |})
              (set_next_oid S w)).
Proof.
  intros H. unfold IDP_create, fresh_oid. unfold_handler. rewrite H. reflexivity.
Qed.

Lemma addJob_eq job w :
  addJob job w
  = if queue_accepts w job
    then (Normal true, set_queue (fun q => q ++ [job]) w)
    else (Normal false, w).
Proof.
  unfold addJob. unfold_handler. destruct (queue_accepts w job); reflexivity.
Qed.

Lemma resolve_eq env x w :
  resolve env x w
  = match env !! x with
    | Some v => (Normal v, w)
    | None => (Thrown (ReferenceError (x ++ " is not defined")), w)
    end.
Proof. unfold resolve. destruct (env !! x); reflexivity. Qed.

Lemma createIDP_try_throws req w :
  idp_schema_accepts w (create_input req) = true ->
  fst (createIDP_try req w) = Thrown (ReferenceError "jobAdded is not defined")
  /\ idps (snd (createIDP_try req w))
     = <[pretty (next_oid w) := created_idp req w]> (idps w)
  /\ queue (snd (createIDP_try req w))
     = (if (length (default [] (c_recommendedResources req)) =? 0)%nat
           && queue_accepts w (created_job req w)
        then queue w ++ [created_job req w]
        else queue w).
Proof.
  intros Hok. unfold createIDP_try. cbv zeta.
  change (IDP_create _) with (IDP_create (create_input req)).
  rewrite bind_eq, (IDP_create_accepts _ _ Hok). cbv beta iota.
  rewrite bind_eq.
  destruct (length (default [] (c_recommendedResources req)) =? 0)%nat.
  - rewrite bind_eq, addJob_eq.
    change (queue_accepts (set_idps _ (set_next_oid S w)) ?j)
      with (queue_accepts w j).
    change (idp_oid {| idp_oid := ?o; idp_fields := _ |}) with o.
    fold (created_job req w).
    destruct (queue_accepts w (created_job req w)); cbv beta iota.
    + rewrite bind_eq, resolve_eq. unfold declare at 1.
      rewrite lookup_insert_eq. cbv beta iota. cbn [truthy negb].
      unfold ret at 1. cbv beta iota.
      rewrite bind_eq, resolve_eq, jobAdded_not_declared.
      cbn [fst snd andb]. repeat split.
    + rewrite bind_eq, resolve_eq. unfold declare at 1.
      rewrite lookup_insert_eq. cbv beta iota. cbn [truthy negb].
      unfold console_error, modify. cbv beta iota.
      rewrite bind_eq, resolve_eq, jobAdded_not_declared.
      cbn [fst snd andb]. repeat split.
  - unfold ret at 1. cbv beta iota.
    rewrite bind_eq, resolve_eq, jobAdded_not_declared.
    cbn [fst snd andb]. repeat split.
Qed.

Lemma createIDP_try_rejected req w :
  idp_schema_accepts w (create_input req) = false ->
  createIDP_try req w = (Thrown (ValidationError "IDP validation failed"), w).
Proof.
  intros Hno. unfold createIDP_try. cbv zeta.
  change (IDP_create _) with (IDP_create (create_input req)).
  rewrite bind_eq. unfold IDP_create at 1. rewrite bind_eq.
  unfold get_world at 1. cbv beta iota. rewrite Hno. reflexivity.
Qed.

Lemma createIDP_always_500 req w :
  code (fst (run (createIDP req) w)) = 500%nat.
Proof.
  unfold run, createIDP. rewrite try_catch_eq.
  destruct (idp_schema_accepts w (create_input req)) eqn:E.
  - destruct (createIDP_try_throws req w E) as (Hthrow & _).
    destruct (createIDP_try req w) as [c w']. cbn [fst] in Hthrow. subst c.
    reflexivity.
  - rewrite (createIDP_try_rejected req w E). reflexivity.
Qed.

(** C8: [createIDP] answers 500 to every request, never 201.  Whenever
    [IDP.create] persists the new document, the read of [jobAdded] after the
    block that declares it throws a ReferenceError, the handler answers 500
    with that error, the document stays stored, and so does the job when no
    resources were supplied and the queue took it. *)
Theorem createIDP_responds_500 req w :
  code (fst (run (createIDP req) w)) = 500%nat
  /\ code (fst (run (createIDP req) w)) <> 201%nat
  /\ (idp_schema_accepts w (create_input req) = true ->
      fst (createIDP_try req w)
      = Thrown (ReferenceError "jobAdded is not defined")
      /\ fst (run (createIDP req) w)
         = status_json 500
             (MessageError "Failed to create IDP" "jobAdded is not defined")
      /\ idps (snd (run (createIDP req) w)) !! pretty (next_oid w)
         = Some (created_idp req w)
      /\ (default [] (c_recommendedResources req) = [] ->
          queue_accepts w (created_job req w) = true ->
          queue (snd (run (createIDP req) w)) = queue w ++ [created_job req w])).
Proof.
  split; [apply createIDP_always_500|].
  split; [rewrite createIDP_always_500; discriminate|].
  intros Hok.
  destruct (createIDP_try_throws req w Hok) as (Hthrow & Hidps & Hqueue).
  split; [exact Hthrow|].
  unfold createIDP. unfold_handler.
  destruct (createIDP_try req w) as [c w'] eqn:E. simpl in Hthrow, Hidps, Hqueue.
  subst c. simpl.
  split; [reflexivity|]. split.
  - rewrite Hidps. apply lookup_insert_eq.
  - intros Hnone Hacc. rewrite Hqueue, Hnone, Hacc. reflexivity.
Qed.

Lemma createIDP_responds_500_witness :
  fst (createIDP_try Scenarios.Srv.create_without_resources
                     (Scenarios.Srv.world Unreachable))
  = Thrown (ReferenceError "jobAdded is not defined")
  /\ fst (run (createIDP Scenarios.Srv.create_without_resources)
              (Scenarios.Srv.world Unreachable))
     = status_json 500
         (MessageError "Failed to create IDP" "jobAdded is not defined")
  /\ idps (snd (run (createIDP Scenarios.Srv.create_without_resources)
                    (Scenarios.Srv.world Unreachable)))
       !! pretty (next_oid (Scenarios.Srv.world Unreachable))
     = Some (created_idp Scenarios.Srv.create_without_resources
                         (Scenarios.Srv.world Unreachable))
  /\ (default [] (c_recommendedResources Scenarios.Srv.create_without_resources)
      = [] ->
      queue_accepts (Scenarios.Srv.world Unreachable)
        (created_job Scenarios.Srv.create_without_resources
                     (Scenarios.Srv.world Unreachable)) = true ->
      queue (snd (run (createIDP Scenarios.Srv.create_without_resources)
                      (Scenarios.Srv.world Unreachable)))
      = queue (Scenarios.Srv.world Unreachable)
        ++ [created_job Scenarios.Srv.create_without_resources
                        (Scenarios.Srv.world Unreachable)]).
Proof.
  apply (proj2 (proj2 (createIDP_responds_500
                         Scenarios.Srv.create_without_resources
                         (Scenarios.Srv.world Unreachable)))).
  vm_compute. reflexivity.
Defined.

(** ** The recommender client and updateIDP *)

Lemma getRecommendedResources_eq data w :
  getRecommendedResources data w
  = if rejected_by_axios (python_service w data)
    then (Thrown (Error "Python service unavailable"), client_log w)
    else match python_service w data with
         | Recommended _ d => (Normal d, w)
         | _ => (Normal no_recommendation_body, w)
         end.
Proof.
  unfold getRecommendedResources, axios_post, rejected_by_axios, client_log.
  unfold_handler.
  destruct (python_service w data) as [s d|s k|];
    try destruct (validateStatus s); reflexivity.
Qed.

Lemma mapM_format_user_skill l w :
  mapM format_user_skill l w
  = match format_user_skills l with
    | Some r => (Normal r, w)
    | None =>
        (Thrown (TypeError "Cannot read properties of null (reading '_id')"), w)
    end.
Proof.
  induction l as [|[[d|] lv] l IH]; cbn [mapM format_user_skills].
  - reflexivity.
  - rewrite bind_eq. unfold format_user_skill at 1. cbn [fst snd].
    unfold ret at 1. rewrite bind_eq, IH.
    destruct (format_user_skills l); reflexivity.
  - rewrite bind_eq. reflexivity.
Qed.

Lemma refresh_from_ai_eq req updateData w data :
  python_data req w = Some data ->
  refresh_from_ai req updateData w
  = match getRecommendedResources data (refresh_log w) with
    | (Normal aiResponse, w') =>
        match ai_recommendations aiResponse with
        | Some recommendations =>
            (Normal (set_recommendedResources
                       (map ai_resourceId recommendations) updateData,
                     Some (recommendations, ai_skills_to_improve aiResponse)),
             w')
        | None =>
            (Thrown (TypeError "Cannot read properties of undefined (reading 'map')"),
             w')
        end
    | (Thrown e, w') => (Thrown e, w')
    end.
Proof.
  unfold python_data. intros Hdata.
  unfold refresh_from_ai, User_findById_populated, Skill_find_all,
    Resource_find_populated.
  rewrite bind_eq. unfold console_log, modify at 1. cbv beta iota.
  fold (refresh_log w).
  rewrite !bind_eq. unfold get_world at 1, ret at 1. cbv beta iota.
  change (users (refresh_log w)) with (users w).
  change (skillColl (refresh_log w)) with (skillColl w).
  destruct (users w !! u_user_id req) as [u|]; [|discriminate].
  cbn [fmap option_fmap option_map].
  rewrite bind_eq, mapM_format_user_skill.
  destruct (format_user_skills _) as [us|]; [|discriminate].
  injection Hdata as <-.
  repeat first [rewrite bind_eq
               | progress cbv beta iota delta [get_world ret throw modify]].
  change (skillColl (refresh_log w)) with (skillColl w).
  change (resourceColl (refresh_log w)) with (resourceColl w).
  destruct (getRecommendedResources _ (refresh_log w)) as [[ai|e] w'];
    [|reflexivity].
  destruct (ai_recommendations ai); reflexivity.
Qed.

Ltac mnorm :=
  repeat first [rewrite bind_eq
               | rewrite try_catch_eq
               | progress cbv beta iota delta [get_world ret throw modify]].

Lemma updateIDP_refresh_eq req w idp data :
  idps w !! u_params_id req = Some idp ->
  employee (idp_fields idp) = u_user_id req ->
  strictly_true (b_refreshAI (u_body req)) = true ->
  python_data req w = Some data ->
  core_refuses (python_service w data) = true ->
  exists w',
    run (updateIDP req) w
    = (update_failure
         (if rejected_by_axios (python_service w data)
          then "Python service unavailable"
          else "Cannot read properties of undefined (reading 'map')"),
       w')
    /\ idps w' = idps w.
Proof.
  intros Hfind Howner Hrefresh Hdata Hrefuses.
  unfold run, updateIDP, IDP_findById. mnorm. rewrite Hfind.
  apply String.eqb_eq in Howner. rewrite Howner, Hrefresh. cbn [negb].
  mnorm. rewrite (refresh_from_ai_eq _ _ _ _ Hdata).
  rewrite getRecommendedResources_eq.
  change (python_service (refresh_log w)) with (python_service w).
  unfold console_error.
  destruct (python_service w data) as [s d|s k|]; [discriminate| |].
  - unfold rejected_by_axios. destruct (validateStatus s); cbn [negb].
    + mnorm. eexists. split; reflexivity.
    + mnorm. eexists. split; reflexivity.
  - cbn [rejected_by_axios]. mnorm. eexists. split; reflexivity.
Qed.

(** C5, as the backend behaves: when the core refuses the request of an
    AI refresh (with any error kind, [InvalidRequest] included) or cannot be
    reached, [updateIDP] answers 500 "Failed to update IDP", which is not a
    client error, and leaves the IDP documents as they were; for every reply
    on which axios rejects the error detail is "Python service unavailable",
    the same as for a core that cannot be reached. *)
Theorem updateIDP_core_refusal_is_500 req w idp data :
  idps w !! u_params_id req = Some idp ->
  employee (idp_fields idp) = u_user_id req ->
  strictly_true (b_refreshAI (u_body req)) = true ->
  python_data req w = Some data ->
  core_refuses (python_service w data) = true ->
  fst (run (updateIDP req) w)
  = update_failure
      (if rejected_by_axios (python_service w data)
       then "Python service unavailable"
       else "Cannot read properties of undefined (reading 'map')")
  /\ is_client_error (code (fst (run (updateIDP req) w))) = false
  /\ idps (snd (run (updateIDP req) w)) = idps w.
Proof.
  intros Hfind Howner Hrefresh Hdata Hrefuses.
  destruct (updateIDP_refresh_eq req w idp data Hfind Howner Hrefresh Hdata
              Hrefuses) as (w' & -> & Hidps).
  cbn [fst snd]. split; [reflexivity|]. split; [reflexivity | exact Hidps].
Qed.

Lemma updateIDP_core_refusal_is_500_witness :
  fst (run (updateIDP Scenarios.Srv.refresh_by_owner)
           (Scenarios.Srv.world (Rejected 422 InvalidRequest)))
  = update_failure "Python service unavailable"
  /\ is_client_error
       (code (fst (run (updateIDP Scenarios.Srv.refresh_by_owner)
                       (Scenarios.Srv.world (Rejected 422 InvalidRequest)))))
     = false
  /\ idps (snd (run (updateIDP Scenarios.Srv.refresh_by_owner)
                    (Scenarios.Srv.world (Rejected 422 InvalidRequest))))
     = idps (Scenarios.Srv.world (Rejected 422 InvalidRequest)).
Proof.
  refine (updateIDP_core_refusal_is_500
            Scenarios.Srv.refresh_by_owner
            (Scenarios.Srv.world (Rejected 422 InvalidRequest))
            Scenarios.Srv.plan
            {| pd_user_skills := [{| uf_skillId := "sk1"; uf_level := 3 |}];
               pd_skills_to_improve := [];
               pd_performance_reports := [];
               pd_resources := [];
               pd_skills := [format_skill Scenarios.Srv.javascript];
               pd_user_skills_data := [];
               pd_limit := 10 |}
            _ _ _ _ _);
    vm_compute; reflexivity.
Defined.

(** C5 as stated fails: the core rejects the refresh request as
    [InvalidRequest] with status 422, and the caller of [updateIDP] receives
    500, which is no client error, in the very response it receives when the
    core cannot be reached. *)
Lemma invalid_request_not_surfaced_counterexample :
  python_service (Scenarios.Srv.world (Rejected 422 InvalidRequest))
  = (fun _ => Rejected 422 InvalidRequest)
  /\ code (fst (run (updateIDP Scenarios.Srv.refresh_by_owner)
                    (Scenarios.Srv.world (Rejected 422 InvalidRequest))))
     = 500%nat
  /\ is_client_error
       (code (fst (run (updateIDP Scenarios.Srv.refresh_by_owner)
                       (Scenarios.Srv.world (Rejected 422 InvalidRequest)))))
     = false
  /\ fst (run (updateIDP Scenarios.Srv.refresh_by_owner)
              (Scenarios.Srv.world (Rejected 422 InvalidRequest)))
     = fst (run (updateIDP Scenarios.Srv.refresh_by_owner)
                (Scenarios.Srv.world Unreachable)).
Proof.
  split; [reflexivity|]. repeat split; vm_compute; reflexivity.
Qed.

(** ** The trim setter *)

Lemma trimStart_eq s :
  trimStart s = match head_space s with
                | Some rest => trimStart rest
                | None => s
                end.
Proof.
  destruct s as [|c1 [|c2 [|c3 s]]]; cbn [trimStart head_space];
    try reflexivity.
  - destruct (is_space c1); reflexivity.
  - destruct (is_space c1); [reflexivity|]. destruct (is_space2 c1 c2); reflexivity.
  - destruct (is_space c1); [reflexivity|].
    destruct (is_space2 c1 c2); [reflexivity|].
    destruct (is_space3 c1 c2 c3); reflexivity.
Qed.

Lemma head_space_shorter s rest :
  head_space s = Some rest -> (String.length rest < String.length s)%nat.
Proof.
  destruct s as [|c1 [|c2 [|c3 s]]]; cbn [head_space String.length];
    try discriminate.
  - destruct (is_space c1); [|discriminate]. intros [= <-]. cbn. lia.
  - destruct (is_space c1); [intros [= <-]; cbn; lia|].
    destruct (is_space2 c1 c2); [|discriminate]. intros [= <-]. cbn. lia.
  - destruct (is_space c1); [intros [= <-]; cbn; lia|].
    destruct (is_space2 c1 c2); [intros [= <-]; cbn; lia|].
    destruct (is_space3 c1 c2 c3); [|discriminate]. intros [= <-]. cbn. lia.
Qed.

Lemma head_space_app s rest t :
  head_space s = Some rest -> head_space (s ++ t) = Some (rest ++ t)%string.
Proof.
  destruct s as [|c1 [|c2 [|c3 s]]];
    repeat (change (String ?c ?x ++ t)%string with (String c (x ++ t)));
    change ("" ++ t)%string with t; cbn [head_space]; try discriminate.
  - destruct (is_space c1); [|discriminate]. intros [= <-]. reflexivity.
  - destruct (is_space c1); [intros [= <-]; reflexivity|].
    destruct (is_space2 c1 c2); [|discriminate]. intros [= <-]. reflexivity.
  - destruct (is_space c1); [intros [= <-]; reflexivity|].
    destruct (is_space2 c1 c2); [intros [= <-]; reflexivity|].
    destruct (is_space3 c1 c2 c3); [|discriminate]. intros [= <-]. reflexivity.
Qed.

(** Induction along the white space at the head of a string. *)
Lemma head_space_ind (P : string -> Prop) :
  (forall s, head_space s = None -> P s) ->
  (forall s rest, head_space s = Some rest -> P rest -> P s) ->
  forall s, P s.
Proof.
  intros Hnone Hsome s.
  remember (String.length s) as n eqn:Hn. revert s Hn.
  induction n as [n IH] using lt_wf_ind. intros s ->.
  destruct (head_space s) as [rest|] eqn:E.
  - apply (Hsome s rest E).
    apply (IH (String.length rest) (head_space_shorter s rest E) rest eq_refl).
  - apply Hnone, E.
Qed.

Lemma trimStart_head s : head_space (trimStart s) = None.
Proof.
  induction s as [s Hs|s rest Hs IH] using head_space_ind;
    rewrite trimStart_eq, Hs; [exact Hs | exact IH].
Qed.

Lemma trimStart_fixed s : head_space s = None -> trimStart s = s.
Proof. intros H. rewrite trimStart_eq, H. reflexivity. Qed.

Lemma trimStart_app_blank u t :
  trimStart u = EmptyString -> trimStart (u ++ t) = trimStart t.
Proof.
  induction u as [u Hu|u rest Hu IH] using head_space_ind.
  - rewrite (trimStart_fixed u Hu). intros ->. reflexivity.
  - rewrite (trimStart_eq u), Hu. intros Hrest.
    rewrite trimStart_eq, (head_space_app u rest t Hu). apply IH, Hrest.
Qed.

Lemma blank_spec s : blank s = true <-> trimStart s = EmptyString.
Proof.
  unfold blank. destruct (trimStart s); split; congruence.
Qed.

Lemma trimEnd_split s :
  exists t, s = (trimEnd s ++ t)%string /\ trimStart t = EmptyString.
Proof.
  induction s as [|c s (t & Hs & Ht)]; cbn [trimEnd].
  - exists EmptyString. split; reflexivity.
  - destruct (blank (String c s)) eqn:E.
    + exists (String c s). split; [reflexivity | apply blank_spec, E].
    + exists t. split; [|exact Ht].
      change (String c (trimEnd s) ++ t)%string
        with (String c (trimEnd s ++ t)).
      rewrite <- Hs. reflexivity.
Qed.

Lemma trimEnd_idem s : trimEnd (trimEnd s) = trimEnd s.
Proof.
  induction s as [|c s IH]; [reflexivity|].
  cbn [trimEnd]. destruct (blank (String c s)) eqn:E; [reflexivity|].
  cbn [trimEnd]. rewrite IH.
  destruct (blank (String c (trimEnd s))) eqn:E'; [|reflexivity].
  destruct (trimEnd_split s) as (t & Hs & Ht).
  apply blank_spec in E'.
  pose proof (trimStart_app_blank (String c (trimEnd s)) t E') as H.
  change (String c (trimEnd s) ++ t)%string
    with (String c (trimEnd s ++ t)) in H.
  rewrite <- Hs, Ht in H. apply blank_spec in H. congruence.
Qed.

Lemma trimEnd_head s : head_space s = None -> head_space (trimEnd s) = None.
Proof.
  intros Hs. destruct (trimEnd_split s) as (t & Hsplit & _).
  destruct (head_space (trimEnd s)) as [rest|] eqn:E; [|reflexivity].
  rewrite Hsplit, (head_space_app _ _ t E) in Hs. discriminate.
Qed.

Lemma trim_idem s : trim (trim s) = trim s.
Proof.
  unfold trim.
  rewrite (trimStart_fixed (trimEnd (trimStart s))).
  - apply trimEnd_idem.
  - apply trimEnd_head, trimStart_head.
Qed.

(** ** Computations that keep a property of the skill collection *)

Section Keeps.
Context (P : list SkillDoc -> Prop).

Lemma keeps_ret {A} (a : A) : keeps P (ret a).
Proof. intros w H. exact H. Qed.

Lemma keeps_throw {A} (e : JsError) : keeps P (@throw A e).
Proof. intros w H. exact H. Qed.

Lemma keeps_get_world : keeps P get_world.
Proof. intros w H. exact H. Qed.

Lemma keeps_bind {A B} (c : M A) (k : A -> M B) :
  keeps P c -> (forall a, keeps P (k a)) -> keeps P (bind c k).
Proof.
  intros Hc Hk w H. rewrite bind_eq. specialize (Hc w H).
  destruct (c w) as [[a|e] w']; cbn [snd] in *.
  - apply Hk, Hc.
  - exact Hc.
Qed.

Lemma keeps_try_catch {A} (c : M A) (h : JsError -> M A) :
  keeps P c -> (forall e, keeps P (h e)) -> keeps P (try_catch c h).
Proof.
  intros Hc Hh w H. rewrite try_catch_eq. specialize (Hc w H).
  destruct (c w) as [[a|e] w']; cbn [snd] in *.
  - exact Hc.
  - apply Hh, Hc.
Qed.

Lemma keeps_modify (f : World -> World) :
  (forall w, skillColl (f w) = skillColl w) -> keeps P (modify f).
Proof. intros Hf w H. unfold modify. cbn [snd]. rewrite Hf. exact H. Qed.

Lemma keeps_console_error (label : string) : keeps P (console_error label).
Proof. apply keeps_modify. reflexivity. Qed.

Lemma keeps_console_log (label : string) : keeps P (console_log label).
Proof. apply keeps_modify. reflexivity. Qed.

Lemma keeps_fresh_oid : keeps P fresh_oid.
Proof. intros w H. exact H. Qed.

Lemma keeps_mapM {A B} (f : A -> M B) (l : list A) :
  Forall (fun a => keeps P (f a)) l -> keeps P (mapM f l).
Proof.
  induction 1 as [|a l Ha Hl IH]; cbn [mapM].
  - apply keeps_ret.
  - apply keeps_bind; [exact Ha|]. intros b.
    apply keeps_bind; [exact IH|]. intros bs. apply keeps_ret.
Qed.

Lemma keeps_run (h : M Response) (w : World) :
  keeps P h -> P (skillColl w) -> P (skillColl (snd (run h w))).
Proof.
  intros Hh H. unfold run. specialize (Hh w H).
  destruct (h w) as [[r|e] w']; exact Hh.
Qed.

End Keeps.

Ltac keeps_step :=
  first
    [ apply keeps_ret | apply keeps_throw | apply keeps_get_world
    | apply keeps_console_error | apply keeps_console_log
    | apply keeps_fresh_oid
    | apply keeps_bind; [|intros ?]
    | apply keeps_try_catch; [|intros ?]
    | apply keeps_modify; intros ?; reflexivity
    | match goal with
      | |- keeps _ (if ?b then _ else _) => destruct b
      | |- keeps _ (match ?x with _ => _ end) => destruct x
      end ].

Lemma keeps_createIDP P req : keeps P (createIDP req).
Proof.
  unfold createIDP, createIDP_try, IDP_create, addJob, resolve. cbv zeta.
  repeat keeps_step.
Qed.

Lemma keeps_format_user_skill P s : keeps P (format_user_skill s).
Proof. unfold format_user_skill. repeat keeps_step. Qed.

Lemma keeps_updateIDP P req : keeps P (updateIDP req).
Proof.
  unfold updateIDP, IDP_findById, refresh_from_ai, IDP_findByIdAndUpdate,
    User_findById_populated, Skill_find_all, Resource_find_populated,
    getRecommendedResources, axios_post.
  cbv zeta.
  repeat first [ keeps_step
               | apply keeps_mapM, Forall_forall; intros ? _;
                 apply keeps_format_user_skill ].
Qed.

(** ** The skill collection under the model operations *)

Lemma name_taken_In coll n :
  name_taken coll n = true <-> In n (map skill_name coll).
Proof.
  unfold name_taken. rewrite existsb_exists, in_map_iff. split.
  - intros (d & Hd & He). apply String.eqb_eq in He. exists d. auto.
  - intros (d & He & Hd). exists d. split; [exact Hd|]. apply String.eqb_eq, He.
Qed.

Lemma name_not_taken coll n :
  name_taken coll n = false -> ~ In n (map skill_name coll).
Proof.
  intros H Hin. apply name_taken_In in Hin. congruence.
Qed.

Lemma insert_skill_eq f w :
  insert_skill f w
  = if name_taken (skillColl w) (sk_name f)
    then (Thrown (MongoServerError
                    "E11000 duplicate key error collection: skills index: name_1"),
          w)
    else (Normal {| skill_oid := pretty (next_oid w);
                    skill_name := sk_name f;
                    skill_category := sk_category f;
                    skill_description := sk_description f |},
          set_skillColl
            (fun coll => coll ++ [{| skill_oid := pretty (next_oid w);
                                     skill_name := sk_name f;
                                     skill_category := sk_category f;
                                     skill_description := sk_description f |}])
            (set_next_oid S w)).
Proof.
  unfold insert_skill, fresh_oid. mnorm.
  destruct (name_taken (skillColl w) (sk_name f)); reflexivity.
Qed.

Lemma distinct_names_snoc coll d :
  distinct_names coll ->
  ~ In (skill_name d) (map skill_name coll) ->
  distinct_names (coll ++ [d]).
Proof.
  unfold distinct_names. intros Hnd Hnot. rewrite map_app. cbn [map].
  apply NoDup_app. split; [exact Hnd|]. split.
  - intros x Hx Hin. apply list_elem_of_singleton in Hin. subst x.
    apply Hnot, list_elem_of_In, Hx.
  - apply NoDup_singleton.
Qed.

Lemma keeps_insert_skill_distinct f : keeps distinct_names (insert_skill f).
Proof.
  intros w H. rewrite insert_skill_eq.
  destruct (name_taken (skillColl w) (sk_name f)) eqn:E; cbn [snd].
  - exact H.
  - apply (distinct_names_snoc (skillColl w)); [exact H|].
    apply name_not_taken, E.
Qed.

Lemma keeps_insert_skill_trimmed f :
  trim (sk_name f) = sk_name f -> keeps trimmed_names (insert_skill f).
Proof.
  intros Hf w H. rewrite insert_skill_eq.
  destruct (name_taken (skillColl w) (sk_name f)); cbn [snd].
  - exact H.
  - apply Forall_app. split; [exact H|]. constructor; [exact Hf | constructor].
Qed.

Lemma validate_skill_trimmed i f :
  validate_skill i = Some f -> trim (sk_name f) = sk_name f.
Proof.
  unfold validate_skill. destruct (s_name i) as [n|]; cbn [fmap option_fmap option_map required andb].
  - destruct (negb (String.eqb (trim n) "") && required (s_category i));
      [|discriminate].
    intros [= <-]. cbn [sk_name default from_option]. apply trim_idem.
  - discriminate.
Qed.

Lemma validate_all_trimmed l fs :
  validate_all l = Some fs ->
  Forall (fun f => trim (sk_name f) = sk_name f) fs.
Proof.
  revert fs. induction l as [|i l IH]; intros fs; cbn [validate_all].
  - intros [= <-]. constructor.
  - destruct (validate_skill i) as [f|] eqn:E; [|discriminate].
    destruct (validate_all l) as [fs'|]; [|discriminate].
    intros [= <-]. constructor; [eapply validate_skill_trimmed, E | apply IH].
    reflexivity.
Qed.

Lemma keeps_Skill_create_distinct i : keeps distinct_names (Skill_create i).
Proof.
  unfold Skill_create. destruct (validate_skill i).
  - apply keeps_insert_skill_distinct.
  - apply keeps_throw.
Qed.

Lemma keeps_Skill_create_trimmed i : keeps trimmed_names (Skill_create i).
Proof.
  unfold Skill_create. destruct (validate_skill i) as [f|] eqn:E.
  - apply keeps_insert_skill_trimmed. eapply validate_skill_trimmed, E.
  - apply keeps_throw.
Qed.

Lemma keeps_Skill_insertMany_distinct l :
  keeps distinct_names (Skill_insertMany l).
Proof.
  unfold Skill_insertMany. destruct (validate_all l) as [fs|].
  - apply keeps_mapM, Forall_forall. intros f _.
    apply keeps_insert_skill_distinct.
  - apply keeps_throw.
Qed.

Lemma keeps_Skill_insertMany_trimmed l :
  keeps trimmed_names (Skill_insertMany l).
Proof.
  unfold Skill_insertMany. destruct (validate_all l) as [fs|] eqn:E.
  - apply keeps_mapM. eapply Forall_impl; [apply (validate_all_trimmed l fs E)|].
    intros f Hf. apply keeps_insert_skill_trimmed, Hf.
  - apply keeps_throw.
Qed.

Lemma In_replace_names id d' coll x :
  In x (map skill_name (replace_skill id d' coll)) ->
  x = skill_name d' \/ In x (map skill_name coll).
Proof.
  induction coll as [|d coll IH]; cbn [replace_skill map]; [tauto|].
  destruct (String.eqb (skill_oid d) id); cbn [map In].
  - intros [H|H]; auto.
  - intros [H|H]; [auto|]. destruct (IH H); auto.
Qed.

Lemma replace_distinct id d' coll :
  distinct_names coll ->
  name_taken (remove_skill id coll) (skill_name d') = false ->
  distinct_names (replace_skill id d' coll).
Proof.
  unfold distinct_names.
  induction coll as [|d coll IH]; cbn [replace_skill remove_skill map];
    [auto|].
  intros Hnd Hfree. apply NoDup_cons in Hnd as [Hd Hnd].
  destruct (String.eqb (skill_oid d) id); cbn [map].
  - apply NoDup_cons. split; [|exact Hnd].
    intros Hin. apply name_not_taken in Hfree. apply Hfree, list_elem_of_In, Hin.
  - cbn [name_taken existsb] in Hfree. apply orb_false_iff in Hfree as [Hne Hfree].
    apply NoDup_cons. split; [|apply IH; assumption].
    intros Hin. apply list_elem_of_In, In_replace_names in Hin as [Heq|Hin].
    + rewrite Heq, String.eqb_refl in Hne. discriminate.
    + apply Hd, list_elem_of_In, Hin.
Qed.

Lemma In_remove_names id coll x :
  In x (map skill_name (remove_skill id coll)) -> In x (map skill_name coll).
Proof.
  induction coll as [|d coll IH]; cbn [remove_skill map]; [tauto|].
  destruct (String.eqb (skill_oid d) id); cbn [map In]; [auto|].
  intros [H|H]; auto.
Qed.

Lemma remove_distinct id coll :
  distinct_names coll -> distinct_names (remove_skill id coll).
Proof.
  unfold distinct_names.
  induction coll as [|d coll IH]; cbn [remove_skill map]; [auto|].
  intros Hnd. apply NoDup_cons in Hnd as [Hd Hnd].
  destruct (String.eqb (skill_oid d) id); cbn [map]; [exact Hnd|].
  apply NoDup_cons. split; [|apply IH, Hnd].
  intros Hin. apply Hd, list_elem_of_In, (In_remove_names id), list_elem_of_In, Hin.
Qed.

Lemma replace_Forall (Q : SkillDoc -> Prop) id d' coll :
  Forall Q coll -> Q d' -> Forall Q (replace_skill id d' coll).
Proof.
  intros H Hd. induction H as [|d coll Hq Hc IH]; cbn [replace_skill];
    [constructor|].
  destruct (String.eqb (skill_oid d) id); constructor; assumption.
Qed.

Lemma remove_Forall (Q : SkillDoc -> Prop) id coll :
  Forall Q coll -> Forall Q (remove_skill id coll).
Proof.
  induction 1 as [|d coll Hq Hc IH]; cbn [remove_skill]; [constructor|].
  destruct (String.eqb (skill_oid d) id); [exact Hc|]. constructor; assumption.
Qed.

Lemma find_skill_doc_In coll id d : find_skill_doc coll id = Some d -> In d coll.
Proof. unfold find_skill_doc. intros H. apply find_some in H. tauto. Qed.

Lemma keeps_Skill_findByIdAndUpdate_distinct id i :
  keeps distinct_names (Skill_findByIdAndUpdate id i).
Proof.
  intros w H. unfold Skill_findByIdAndUpdate. mnorm.
  destruct (find_skill_doc (skillColl w) id) as [d|]; [|exact H].
  destruct (name_taken _ _) eqn:E; [exact H|].
  mnorm. cbn [snd]. apply (replace_distinct _ _ (skillColl w) H E).
Qed.

Lemma keeps_Skill_findByIdAndUpdate_trimmed id i :
  keeps trimmed_names (Skill_findByIdAndUpdate id i).
Proof.
  intros w H. unfold Skill_findByIdAndUpdate. mnorm.
  destruct (find_skill_doc (skillColl w) id) as [d|] eqn:Ef; [|exact H].
  destruct (name_taken _ _); [exact H|].
  mnorm. cbn [snd]. apply (replace_Forall _ _ _ (skillColl w) H).
  unfold update_skill_doc. cbn [skill_name].
  destruct (s_name i) as [n|]; cbn [fmap option_fmap option_map default from_option].
  - apply trim_idem.
  - apply find_skill_doc_In in Ef.
    unfold trimmed_names in H. rewrite Forall_forall in H.
    apply H, list_elem_of_In, Ef.
Qed.

Lemma keeps_Skill_findByIdAndDelete_distinct id :
  keeps distinct_names (Skill_findByIdAndDelete id).
Proof.
  intros w H. unfold Skill_findByIdAndDelete. mnorm.
  destruct (find_skill_doc (skillColl w) id) as [d|]; [|exact H].
  mnorm. cbn [snd]. apply remove_distinct, H.
Qed.

Lemma keeps_Skill_findByIdAndDelete_trimmed id :
  keeps trimmed_names (Skill_findByIdAndDelete id).
Proof.
  intros w H. unfold Skill_findByIdAndDelete. mnorm.
  destruct (find_skill_doc (skillColl w) id) as [d|]; [|exact H].
  mnorm. cbn [snd]. apply remove_Forall, H.
Qed.

Ltac keeps_skill :=
  repeat first
    [ apply keeps_Skill_create_distinct | apply keeps_Skill_create_trimmed
    | apply keeps_Skill_insertMany_distinct
    | apply keeps_Skill_insertMany_trimmed
    | apply keeps_Skill_findByIdAndUpdate_distinct
    | apply keeps_Skill_findByIdAndUpdate_trimmed
    | apply keeps_Skill_findByIdAndDelete_distinct
    | apply keeps_Skill_findByIdAndDelete_trimmed
    | keeps_step ].

Lemma keeps_handler_distinct op : keeps distinct_names (handler op).
Proof.
  destruct op as [req|req|req|req|req|req|req|req]; cbn [handler].
  - apply keeps_createIDP.
  - apply keeps_updateIDP.
  - unfold addSkill, Skill_findOne_name. cbv zeta. keeps_skill.
  - unfold getAllSkills, Skill_find_all. keeps_skill.
  - unfold getSkillById, Skill_findById. keeps_skill.
  - unfold updateSkill. keeps_skill.
  - unfold bulkAddSkills, Skill_find_name_in. cbv zeta. keeps_skill.
  - unfold deleteSkill. keeps_skill.
Qed.

Lemma keeps_handler_trimmed op : keeps trimmed_names (handler op).
Proof.
  destruct op as [req|req|req|req|req|req|req|req]; cbn [handler].
  - apply keeps_createIDP.
  - apply keeps_updateIDP.
  - unfold addSkill, Skill_findOne_name. cbv zeta. keeps_skill.
  - unfold getAllSkills, Skill_find_all. keeps_skill.
  - unfold getSkillById, Skill_findById. keeps_skill.
  - unfold updateSkill. keeps_skill.
  - unfold bulkAddSkills, Skill_find_name_in. cbv zeta. keeps_skill.
  - unfold deleteSkill. keeps_skill.
Qed.

(** ** Duplicate names in addSkill and bulkAddSkills *)

Lemma stored_name_matches coll d :
  trimmed_names coll -> In d coll ->
  name_matches d (Some (skill_name d)) = true.
Proof.
  intros Ht Hd. unfold trimmed_names in Ht. rewrite Forall_forall in Ht.
  cbn [name_matches]. rewrite (Ht d (proj2 (list_elem_of_In _ _) Hd)).
  apply String.eqb_refl.
Qed.

Lemma addSkill_existing req w d :
  req_user_role req = "admin"%string ->
  names_trimmed w ->
  In d (skillColl w) ->
  s_name (req_body req) = Some (skill_name d) ->
  run (addSkill req) w = (status_json 400 (Message "Skill already exists"), w).
Proof.
  intros Hadmin Ht Hd Hname.
  unfold run, addSkill, Skill_findOne_name. cbv zeta.
  apply String.eqb_eq in Hadmin. rewrite Hadmin. cbn [negb]. mnorm.
  destruct (List.find _ (skillColl w)) as [e|] eqn:Ef; [reflexivity|].
  exfalso. pose proof (find_none _ _ Ef d Hd) as Hno. cbv beta in Hno.
  rewrite Hname, (stored_name_matches _ d Ht Hd) in Hno. discriminate.
Qed.

Lemma matching_docs_In skills w i d :
  names_trimmed w ->
  In i skills -> In d (skillColl w) -> s_name i = Some (skill_name d) ->
  In d (matching_docs (map s_name skills) (skillColl w)).
Proof.
  intros Ht Hi Hd Hname. unfold matching_docs. apply filter_In.
  split; [exact Hd|]. apply existsb_exists. exists (s_name i). split.
  - apply in_map, Hi.
  - rewrite Hname. apply (stored_name_matches _ d Ht Hd).
Qed.

Lemma bulkAddSkills_existing req skills w :
  req_user_role req = "admin"%string ->
  req_body req = Some skills ->
  names_trimmed w ->
  submitted_exists skills w ->
  run (bulkAddSkills req) w
  = (status_json 400
       (SkillsExist "Some skills already exist"
          (map skill_name (matching_docs (map s_name skills) (skillColl w)))),
     w).
Proof.
  intros Hadmin Hbody Ht (i & d & Hi & Hd & Hname).
  unfold run, bulkAddSkills, Skill_find_name_in. cbv zeta.
  apply String.eqb_eq in Hadmin. rewrite Hadmin, Hbody. cbn [negb]. mnorm.
  pose proof (matching_docs_In skills w i d Ht Hi Hd Hname) as Hin.
  destruct (matching_docs (map s_name skills) (skillColl w)) as [|e l];
    [destruct Hin|].
  reflexivity.
Qed.

Lemma bulkAddSkills_refused req w :
  req_user_role req <> "admin"%string \/ req_body req = None ->
  snd (run (bulkAddSkills req) w) = w.
Proof.
  intros H. unfold run, bulkAddSkills. cbv zeta. mnorm.
  destruct (String.eqb (req_user_role req) "admin") eqn:E; cbn [negb].
  - destruct H as [H|H]; [apply String.eqb_eq in E; contradiction|].
    rewrite H. reflexivity.
  - reflexivity.
Qed.

Lemma distinct_names_alt coll :
  distinct_names coll <->
  (forall i j d1 d2,
      coll !! i = Some d1 -> coll !! j = Some d2 -> i <> j ->
      skill_name d1 <> skill_name d2).
Proof.
  unfold distinct_names. change (map skill_name coll) with (skill_name <$> coll).
  rewrite NoDup_alt. split.
  - intros H i j d1 d2 H1 H2 Hne Heq. apply Hne.
    apply (H i j (skill_name d1)); rewrite list_lookup_fmap.
    + rewrite H1. reflexivity.
    + rewrite H2, Heq. reflexivity.
  - intros H i j x Hi Hj. rewrite list_lookup_fmap in Hi, Hj.
    destruct (coll !! i) as [d1|] eqn:E1; [|discriminate].
    destruct (coll !! j) as [d2|] eqn:E2; [|discriminate].
    cbn in Hi, Hj. destruct (decide (i = j)) as [Heq|Hne]; [exact Heq|].
    exfalso. apply (H i j d1 d2 E1 E2 Hne). congruence.
Qed.

Lemma addSkill_refused req w :
  req_user_role req <> "admin"%string -> snd (run (addSkill req) w) = w.
Proof.
  intros H. unfold run, addSkill. cbv zeta. mnorm.
  destruct (String.eqb_spec (req_user_role req) "admin") as [E|E];
    [contradiction | reflexivity].
Qed.

Lemma perform_all_keeps (P : list SkillDoc -> Prop) ops :
  (forall op, keeps P (handler op)) ->
  forall w, P (skillColl w) -> P (skillColl (perform_all ops w)).
Proof.
  intros Hk. induction ops as [|op ops IH]; intros w H; cbn [perform_all].
  - exact H.
  - apply IH. exact (keeps_run P (handler op) w (Hk op) H).
Qed.

(** C7: skill names are unique, that is, two stored skills at different
    positions have different names; every handler keeps this (and keeps
    the names trimmed), so it holds after every sequence of requests that
    starts from an empty collection; when a stored skill has the submitted
    name [addSkill] creates nothing and answers 400 to the admin, and when a
    stored skill has one of the submitted names [bulkAddSkills] inserts
    nothing and answers 400 to the admin. *)
Theorem skill_names_stay_unique :
  (forall w,
      unique_names w <->
      (forall i j d1 d2,
          skillColl w !! i = Some d1 -> skillColl w !! j = Some d2 ->
          i <> j -> skill_name d1 <> skill_name d2))
  /\ (forall op w, unique_names w -> unique_names (snd (perform op w)))
  /\ (forall op w, names_trimmed w -> names_trimmed (snd (perform op w)))
  /\ (forall ops w,
         skillColl w = [] ->
         unique_names (perform_all ops w) /\ names_trimmed (perform_all ops w))
  /\ (forall req w d,
         names_trimmed w ->
         In d (skillColl w) ->
         s_name (req_body req) = Some (skill_name d) ->
         snd (run (addSkill req) w) = w
         /\ (req_user_role req = "admin"%string ->
             fst (run (addSkill req) w)
             = status_json 400 (Message "Skill already exists")))
  /\ (forall req skills w,
         req_body req = Some skills ->
         names_trimmed w ->
         submitted_exists skills w ->
         snd (run (bulkAddSkills req) w) = w
         /\ (req_user_role req = "admin"%string ->
             code (fst (run (bulkAddSkills req) w)) = 400%nat)).
Proof.
  split; [|split; [|split; [|split; [|split]]]].
  - intros w. apply distinct_names_alt.
  - intros op w H.
    exact (keeps_run distinct_names (handler op) w (keeps_handler_distinct op) H).
  - intros op w H.
    exact (keeps_run trimmed_names (handler op) w (keeps_handler_trimmed op) H).
  - intros ops w Hempty. split.
    + apply (perform_all_keeps distinct_names ops keeps_handler_distinct).
      rewrite Hempty. apply NoDup_nil_2.
    + apply (perform_all_keeps trimmed_names ops keeps_handler_trimmed).
      rewrite Hempty. constructor.
  - intros req w d Ht Hd Hname.
    destruct (String.eqb_spec (req_user_role req) "admin") as [Hadmin|Hother].
    + rewrite (addSkill_existing req w d Hadmin Ht Hd Hname). auto.
    + split; [apply addSkill_refused, Hother | contradiction].
  - intros req skills w Hbody Ht Hex.
    destruct (String.eqb_spec (req_user_role req) "admin") as [Hadmin|Hother].
    + rewrite (bulkAddSkills_existing req skills w Hadmin Hbody Ht Hex). auto.
    + split; [apply bulkAddSkills_refused; left; exact Hother | contradiction].
Qed.


Lemma scenario_names_trimmed reply :
  names_trimmed (Scenarios.Srv.world reply).
Proof. constructor; [vm_compute; reflexivity | constructor]. Qed.

Lemma scenario_unique_names reply :
  unique_names (Scenarios.Srv.world reply).
Proof. apply NoDup_singleton. Qed.

Lemma scenario_submitted_exists reply :
  submitted_exists Scenarios.Srv.go_and_javascript (Scenarios.Srv.world reply).
Proof.
  eexists _, Scenarios.Srv.javascript. split; [right; left; reflexivity|].
  split; [left; reflexivity | reflexivity].
Qed.

Lemma skill_names_stay_unique_witness :
  unique_names (snd (perform (OpAddSkill Scenarios.Srv.add_javascript)
                             (Scenarios.Srv.world Unreachable)))
  /\ names_trimmed (snd (perform (OpAddSkill Scenarios.Srv.add_javascript)
                                 (Scenarios.Srv.world Unreachable)))
  /\ (snd (run (addSkill Scenarios.Srv.add_javascript)
               (Scenarios.Srv.world Unreachable))
      = Scenarios.Srv.world Unreachable
      /\ fst (run (addSkill Scenarios.Srv.add_javascript)
                  (Scenarios.Srv.world Unreachable))
         = status_json 400 (Message "Skill already exists"))
  /\ (snd (run (bulkAddSkills Scenarios.Srv.bulk_with_javascript)
               (Scenarios.Srv.world Unreachable))
      = Scenarios.Srv.world Unreachable
      /\ code (fst (run (bulkAddSkills Scenarios.Srv.bulk_with_javascript)
                        (Scenarios.Srv.world Unreachable))) = 400%nat).
Proof.
  destruct skill_names_stay_unique
    as (_ & Hunique & Htrimmed & _ & Hadd & Hbulk).
  split; [|split; [|split]].
  - apply Hunique, scenario_unique_names.
  - apply Htrimmed, scenario_names_trimmed.
  - destruct (Hadd Scenarios.Srv.add_javascript
                   (Scenarios.Srv.world Unreachable)
                   Scenarios.Srv.javascript
                   (scenario_names_trimmed Unreachable)
                   (or_introl eq_refl) eq_refl) as [Hworld Hresp].
    split; [exact Hworld | exact (Hresp eq_refl)].
  - destruct (Hbulk Scenarios.Srv.bulk_with_javascript
                    Scenarios.Srv.go_and_javascript
                    (Scenarios.Srv.world Unreachable)
                    eq_refl
                    (scenario_names_trimmed Unreachable)
                    (scenario_submitted_exists Unreachable))
      as [Hworld Hresp].
    split; [exact Hworld | exact (Hresp eq_refl)].
Defined.


(** ** The skill routes *)

Lemma route_admits_admin {B} (req : Req B) (next : M Response) :
  req_user_role req = "admin"%string ->
  allowedRoles ["admin"%string] req next = next.
Proof.
  intros H. unfold allowedRoles. cbn [existsb]. rewrite H. reflexivity.
Qed.

Lemma route_refuses_others {B} (req : Req B) (next : M Response) w :
  req_user_role req <> "admin"%string ->
  run (allowedRoles ["admin"%string] req next) w
  = (status_json 403 (Message "Access denied: Only admin allowed"), w).
Proof.
  intros H. unfold allowedRoles. cbn [existsb].
  destruct (String.eqb_spec (req_user_role req) "admin") as [E|E].
  - contradiction.
  - reflexivity.
Qed.

End BackendFacts.

(* ===================================================================== *)
(** * Further properties of the backend *)
(* ===================================================================== *)

Module ExtendedFacts.
Import Backend BackendFacts Extended.

(** ** Ordered inserts *)

Lemma with_new_skills_nil w : with_new_skills [] w = w.
Proof.
  destruct w. unfold with_new_skills, set_skillColl, set_next_oid.
  cbn [skillColl idps users resourceColl queue console next_oid
       idp_schema_accepts queue_accepts python_service new_skill_docs length].
  rewrite app_nil_r, Nat.add_0_r. reflexivity.
Qed.

Lemma with_new_skills_cons f fs w :
  with_new_skills fs
    (set_skillColl (fun coll => coll ++ [new_skill_doc (next_oid w) f])
                   (set_next_oid S w))
  = with_new_skills (f :: fs) w.
Proof.
  destruct w. unfold with_new_skills, set_skillColl, set_next_oid.
  cbn [skillColl idps users resourceColl queue console next_oid
       idp_schema_accepts queue_accepts python_service new_skill_docs length].
  rewrite <- app_assoc. cbn [app]. rewrite Nat.add_succ_r. reflexivity.
Qed.

Lemma name_taken_app coll1 coll2 n :
  name_taken (coll1 ++ coll2) n = name_taken coll1 n || name_taken coll2 n.
Proof. unfold name_taken. apply existsb_app. Qed.

Lemma insertable_cons_inv coll f fs n :
  insertable coll (f :: fs) ->
  name_taken coll (sk_name f) = false
  /\ insertable (coll ++ [new_skill_doc n f]) fs.
Proof.
  intros [Hnd Hall]. cbn [map] in Hnd. apply NoDup_cons in Hnd as [Hf Hnd].
  inversion Hall as [|? ? Hfree Hrest]; subst. split; [exact Hfree|].
  split; [exact Hnd|].
  rewrite Forall_forall in Hrest |- *. intros g Hg.
  rewrite name_taken_app, (Hrest g Hg). cbn [name_taken existsb orb new_skill_doc skill_name].
  rewrite orb_false_r. apply String.eqb_neq. intros Heq. apply Hf.
  rewrite Heq. apply list_elem_of_In, in_map, list_elem_of_In, Hg.
Qed.

Lemma mapM_insert_skill fs : forall w,
  insertable (skillColl w) fs ->
  mapM insert_skill fs w
  = (Normal (new_skill_docs (next_oid w) fs), with_new_skills fs w).
Proof.
  induction fs as [|f fs IH]; intros w Hins; cbn [mapM new_skill_docs].
  - rewrite with_new_skills_nil. reflexivity.
  - destruct (insertable_cons_inv _ f fs (next_oid w) Hins) as [Hfree Hrest].
    rewrite bind_eq, insert_skill_eq, Hfree.
    fold (new_skill_doc (next_oid w) f).
    rewrite bind_eq.
    rewrite (IH (set_skillColl
                   (fun coll => coll ++ [new_skill_doc (next_oid w) f])
                   (set_next_oid S w)) Hrest).
    change (next_oid (set_skillColl _ (set_next_oid S w))) with (S (next_oid w)).
    rewrite with_new_skills_cons. reflexivity.
Qed.

Lemma mapM_insert_skill_stops pre f post : forall w,
  insertable (skillColl w) pre ->
  In (sk_name f) (map sk_name pre) \/ name_taken (skillColl w) (sk_name f) = true ->
  mapM insert_skill (pre ++ f :: post) w
  = (Thrown (MongoServerError
               "E11000 duplicate key error collection: skills index: name_1"),
     with_new_skills pre w).
Proof.
  induction pre as [|g pre IH]; intros w Hins Hdup; cbn [app mapM].
  - rewrite with_new_skills_nil, bind_eq, insert_skill_eq.
    destruct Hdup as [[]|Htaken]. rewrite Htaken. reflexivity.
  - destruct (insertable_cons_inv _ g pre (next_oid w) Hins) as [Hfree Hrest].
    rewrite bind_eq, insert_skill_eq, Hfree.
    fold (new_skill_doc (next_oid w) g).
    rewrite bind_eq.
    rewrite (IH (set_skillColl
                   (fun coll => coll ++ [new_skill_doc (next_oid w) g])
                   (set_next_oid S w)) Hrest).
    + change (next_oid (set_skillColl _ (set_next_oid S w))) with (S (next_oid w)).
      rewrite with_new_skills_cons. reflexivity.
    + change (skillColl (set_skillColl ?h (set_next_oid S w)))
        with (h (skillColl w)). cbv beta.
      rewrite name_taken_app.
      cbn [name_taken existsb orb new_skill_doc skill_name map In] in *.
      destruct Hdup as [[Heq|Hin]|Htaken].
      * right. rewrite Heq, String.eqb_refl, orb_true_r. reflexivity.
      * left. exact Hin.
      * right. rewrite Htaken. reflexivity.
Qed.

(** ** bulkAddSkills beyond the duplicate check *)

Lemma validate_skill_name i f :
  validate_skill i = Some f ->
  exists n, s_name i = Some n /\ sk_name f = trim n.
Proof.
  unfold validate_skill. destruct (s_name i) as [n|];
    cbn [fmap option_fmap option_map required andb]; [|discriminate].
  destruct (negb (String.eqb (trim n) "") && required (s_category i));
    [|discriminate].
  intros [= <-]. exists n. auto.
Qed.

Lemma validate_all_sources l : forall fs,
  validate_all l = Some fs ->
  length fs = length l
  /\ Forall (fun f => exists i n, In i l /\ s_name i = Some n
                                  /\ sk_name f = trim n) fs.
Proof.
  induction l as [|i l IH]; intros fs; cbn [validate_all].
  - intros [= <-]. split; [reflexivity | constructor].
  - destruct (validate_skill i) as [f|] eqn:E; [|discriminate].
    destruct (validate_all l) as [fs'|]; [|discriminate].
    intros [= <-]. destruct (IH fs' eq_refl) as [Hlen Hall]. split.
    + cbn [length]. rewrite Hlen. reflexivity.
    + constructor.
      * destruct (validate_skill_name i f E) as (n & Hn & Hf).
        exists i, n. split; [left; reflexivity | auto].
      * eapply Forall_impl; [exact Hall|]. cbv beta.
        intros g (j & n & Hj & Hn & Hg). exists j, n.
        split; [right; exact Hj | auto].
Qed.

Lemma no_match_not_taken skills coll i n :
  matching_docs (map s_name skills) coll = [] ->
  In i skills -> s_name i = Some n ->
  name_taken coll (trim n) = false.
Proof.
  intros Hnone Hi Hn. destruct (name_taken coll (trim n)) eqn:E; [|reflexivity].
  exfalso. apply name_taken_In, in_map_iff in E as (d & Hd & Hin).
  assert (Hm : In d (matching_docs (map s_name skills) coll)).
  { unfold matching_docs. apply filter_In. split; [exact Hin|].
    apply existsb_exists. exists (Some n). split.
    - rewrite <- Hn. apply in_map, Hi.
    - cbn [name_matches]. apply String.eqb_eq, Hd. }
  rewrite Hnone in Hm. destruct Hm.
Qed.

Lemma no_match_insertable skills coll fs :
  validate_all skills = Some fs ->
  matching_docs (map s_name skills) coll = [] ->
  Forall (fun f => name_taken coll (sk_name f) = false) fs.
Proof.
  intros Hval Hnone. destruct (validate_all_sources skills fs Hval) as [_ Hall].
  eapply Forall_impl; [exact Hall|]. cbv beta.
  intros f (i & n & Hi & Hn & Hf). rewrite Hf.
  apply (no_match_not_taken skills coll i n Hnone Hi Hn).
Qed.

(** X1: for an admin whose array is valid throughout, names no stored skill
    and, after trimming, repeats no name, [bulkAddSkills] answers 201 with
    the count and the documents, and the collection is the old one followed
    by one document per submitted skill, in order, with the trimmed names. *)
Theorem bulkAddSkills_inserts_all req skills fs w :
  req_user_role req = "admin"%string ->
  req_body req = Some skills ->
  validate_all skills = Some fs ->
  matching_docs (map s_name skills) (skillColl w) = [] ->
  NoDup (map sk_name fs) ->
  run (bulkAddSkills req) w
  = (status_json 201
       (SkillsAdded "Skills added successfully" (length skills)
                    (new_skill_docs (next_oid w) fs)),
     with_new_skills fs w)
  /\ skillColl (with_new_skills fs w)
     = skillColl w ++ new_skill_docs (next_oid w) fs
  /\ map skill_name (new_skill_docs (next_oid w) fs) = map sk_name fs.
Proof.
  intros Hadmin Hbody Hval Hnone Hnd.
  assert (Hins : insertable (skillColl w) fs).
  { split; [exact Hnd | apply (no_match_insertable skills _ fs Hval Hnone)]. }
  split; [|split].
  - unfold run, bulkAddSkills, Skill_find_name_in, Skill_insertMany. cbv zeta.
    apply String.eqb_eq in Hadmin. rewrite Hadmin, Hbody, Hval. cbn [negb].
    mnorm. rewrite Hnone. cbn [length Nat.ltb Nat.leb].
    mnorm. rewrite (mapM_insert_skill fs w Hins).
    destruct (validate_all_sources skills fs Hval) as [Hlen _].
    assert (Hdocs : forall n, length (new_skill_docs n fs) = length fs).
    { clear. induction fs as [|f fs IH]; intros n; cbn [new_skill_docs length];
        [reflexivity | rewrite IH; reflexivity]. }
    rewrite Hdocs, Hlen. reflexivity.
  - reflexivity.
  - clear. generalize (next_oid w). induction fs as [|f fs IH]; intros n;
      cbn [new_skill_docs map]; [reflexivity | rewrite IH; reflexivity].
Qed.

(** X2: when the valid array of an admin names no stored skill but repeats
    a name after trimming, [bulkAddSkills] answers 500 although the skills
    before the first repetition have been inserted and stay inserted. *)
Theorem bulkAddSkills_partial_insert req skills pre f post w :
  req_user_role req = "admin"%string ->
  req_body req = Some skills ->
  validate_all skills = Some (pre ++ f :: post) ->
  matching_docs (map s_name skills) (skillColl w) = [] ->
  NoDup (map sk_name pre) ->
  In (sk_name f) (map sk_name pre) ->
  run (bulkAddSkills req) w
  = (status_json 500 (Message "Server error"),
     logged "Bulk Add Skills Error:" (with_new_skills pre w))
  /\ skillColl (snd (run (bulkAddSkills req) w))
     = skillColl w ++ new_skill_docs (next_oid w) pre.
Proof.
  intros Hadmin Hbody Hval Hnone Hnd Hrep.
  assert (Hins : insertable (skillColl w) pre).
  { split; [exact Hnd|].
    pose proof (no_match_insertable skills _ _ Hval Hnone) as Hall.
    apply Forall_app in Hall as [Hpre _]. exact Hpre. }
  assert (Hrun : run (bulkAddSkills req) w
                 = (status_json 500 (Message "Server error"),
                    logged "Bulk Add Skills Error:" (with_new_skills pre w))).
  { unfold run, bulkAddSkills, Skill_find_name_in, Skill_insertMany. cbv zeta.
    apply String.eqb_eq in Hadmin. rewrite Hadmin, Hbody, Hval. cbn [negb].
    mnorm. rewrite Hnone. cbn [length Nat.ltb Nat.leb].
    mnorm. rewrite (mapM_insert_skill_stops pre f post w Hins (or_introl Hrep)).
    unfold console_error. mnorm. reflexivity. }
  split; [exact Hrun|]. rewrite Hrun. reflexivity.
Qed.

(** ** addSkill beyond the duplicate check *)

Lemma find_none_of {A} (p : A -> bool) (l : list A) :
  (forall x, In x l -> p x = false) -> List.find p l = None.
Proof.
  intros H. destruct (List.find p l) as [x|] eqn:E; [|reflexivity].
  apply find_some in E as [Hin Hp]. rewrite (H x Hin) in Hp. discriminate.
Qed.

Lemma find_some_of {A} (p : A -> bool) (l : list A) x :
  In x l -> p x = true -> exists y, List.find p l = Some y.
Proof.
  intros Hin Hp. destruct (List.find p l) as [y|] eqn:E; [eauto|].
  rewrite (find_none _ _ E x Hin) in Hp. discriminate.
Qed.

Lemma findOne_not_taken coll n :
  name_taken coll (trim n) = false ->
  List.find (fun d => name_matches d (Some n)) coll = None.
Proof.
  intros H. apply find_none_of. intros d Hd. cbn [name_matches].
  apply String.eqb_neq. intros Heq.
  apply (name_not_taken coll (trim n) H). rewrite <- Heq. apply in_map, Hd.
Qed.

Lemma with_new_skills_one f w :
  set_skillColl (fun coll => coll ++ [new_skill_doc (next_oid w) f])
                (set_next_oid S w)
  = with_new_skills [f] w.
Proof. rewrite <- with_new_skills_cons, with_new_skills_nil. reflexivity. Qed.

(** X3: for an admin, a valid input whose trimmed name is not stored is
    answered 201 and adds exactly one document, with the trimmed name, at the
    end of the collection; the same request sent again is answered 400 and
    adds nothing. *)
Theorem addSkill_creates_once req f w :
  req_user_role req = "admin"%string ->
  validate_skill (req_body req) = Some f ->
  name_taken (skillColl w) (sk_name f) = false ->
  run (addSkill req) w
  = (status_json 201
       (SkillAdded "Skill added successfully" (new_skill_doc (next_oid w) f)),
     with_new_skills [f] w)
  /\ skillColl (with_new_skills [f] w)
     = skillColl w ++ [new_skill_doc (next_oid w) f]
  /\ run (addSkill req) (with_new_skills [f] w)
     = (status_json 400 (Message "Skill already exists"),
        with_new_skills [f] w).
Proof.
  intros Hadmin Hval Hfree.
  destruct (validate_skill_name _ _ Hval) as (n & Hn & Hf).
  apply String.eqb_eq in Hadmin. split; [|split].
  - unfold run, addSkill, Skill_findOne_name, Skill_create. cbv zeta.
    rewrite Hadmin, Hval, Hn. cbn [negb]. mnorm.
    rewrite findOne_not_taken by (rewrite <- Hf; exact Hfree).
    mnorm. rewrite insert_skill_eq, Hfree.
    fold (new_skill_doc (next_oid w) f). rewrite with_new_skills_one.
    reflexivity.
  - reflexivity.
  - unfold run, addSkill, Skill_findOne_name. cbv zeta.
    rewrite Hadmin, Hn. cbn [negb]. mnorm.
    destruct (find_some_of (fun d => name_matches d (Some n))
                (skillColl (with_new_skills [f] w))
                (new_skill_doc (next_oid w) f)) as [y ->].
    + change (skillColl (with_new_skills [f] w))
        with (skillColl w ++ [new_skill_doc (next_oid w) f]).
      apply in_or_app. right. left. reflexivity.
    + cbn [name_matches new_skill_doc skill_name]. apply String.eqb_eq, Hf.
    + reflexivity.
Qed.

Lemma validate_skill_None_iff i :
  validate_skill i = None <->
  (match s_name i with Some n => trim n = ""%string | None => True end)
  \/ (match s_category i with Some c => c = ""%string | None => True end).
Proof.
  unfold validate_skill.
  destruct (s_name i) as [n|], (s_category i) as [c|];
    cbn [fmap option_fmap option_map required andb negb].
  - destruct (String.eqb_spec (trim n) ""), (String.eqb_spec c "");
      cbn [negb andb]; split; intros H; try discriminate; try tauto;
      try reflexivity; destruct H; contradiction.
  - destruct (String.eqb_spec (trim n) ""); cbn [negb andb];
      split; intros H; tauto || reflexivity.
  - split; intros H; tauto || reflexivity.
  - split; intros H; tauto || reflexivity.
Qed.

(** X4: [addSkill] never stores a skill whose name is missing or blank or
    whose category is missing or empty: whoever asks, the collection stays
    as it was and the answer is not 201. *)
Theorem addSkill_rejects_invalid req w :
  (match s_name (req_body req) with
   | Some n => trim n = ""%string
   | None => True
   end)
  \/ (match s_category (req_body req) with
      | Some c => c = ""%string
      | None => True
      end) ->
  skillColl (snd (run (addSkill req) w)) = skillColl w
  /\ code (fst (run (addSkill req) w)) <> 201%nat
  /\ (req_user_role req = "admin"%string ->
      List.find (fun d => name_matches d (s_name (req_body req))) (skillColl w)
      = None ->
      run (addSkill req) w
      = (status_json 500 (Message "Server error"),
         logged "Add Skill Error:" w)).
Proof.
  intros Hbad. apply validate_skill_None_iff in Hbad.
  unfold run, addSkill, Skill_findOne_name, Skill_create. cbv zeta.
  rewrite Hbad.
  destruct (String.eqb (req_user_role req) "admin") eqn:E; cbn [negb].
  - mnorm.
    destruct (List.find _ (skillColl w)) as [d|] eqn:Ef.
    + cbn [fst snd code status_json]. repeat split; try discriminate.
    + unfold console_error. mnorm. cbn [fst snd code status_json].
      repeat split; discriminate.
  - mnorm. cbn [fst snd code status_json]. split; [reflexivity|].
    split; [discriminate|]. intros Hadmin. apply String.eqb_eq in Hadmin.
    congruence.
Qed.

(** ** The admin check of the four mutating skill handlers *)

(** X5: whoever is not an admin gets 403 "Access denied: Admin only" from
    [addSkill], [updateSkill], [bulkAddSkills] and [deleteSkill], whatever
    the request carries, and the world stays exactly as it was. *)
Theorem skill_mutations_need_admin role id add_body update_body bulk_body w :
  role <> "admin"%string ->
  let denied := (status_json 403 (Message "Access denied: Admin only"), w) in
  run (addSkill {| req_user_role := role; req_params_id := id;
                   req_body := add_body |}) w = denied
  /\ run (updateSkill {| req_user_role := role; req_params_id := id;
                         req_body := update_body |}) w = denied
  /\ run (bulkAddSkills {| req_user_role := role; req_params_id := id;
                           req_body := bulk_body |}) w = denied
  /\ run (deleteSkill {| req_user_role := role; req_params_id := id;
                         req_body := tt |}) w = denied.
Proof.
  intros Hrole denied. subst denied.
  unfold run, addSkill, updateSkill, bulkAddSkills, deleteSkill. cbv zeta.
  cbn [req_user_role].
  destruct (String.eqb_spec role "admin") as [E|E]; [contradiction|].
  cbn [negb]. mnorm. auto.
Qed.

(** ** updateSkill *)



(** X6: for an admin, [updateSkill] answers 404 for a well-formed id that
    no document has and leaves the world as it was; and when the new name,
    trimmed, is the name of another stored skill it answers 500, not the 400
    of [addSkill], and the collection stays as it was. *)
Theorem updateSkill_unknown_or_taken req w :
  req_user_role req = "admin"%string ->
  (find_skill_doc (skillColl w) (req_params_id req) = None ->
   run (updateSkill req) w = (status_json 404 (Message "Skill not found"), w))
  /\ (forall d n e,
         find_skill_doc (skillColl w) (req_params_id req) = Some d ->
         s_name (req_body req) = Some n ->
         In e (remove_skill (req_params_id req) (skillColl w)) ->
         skill_name e = trim n ->
         run (updateSkill req) w
         = (status_json 500 (Message "Server error"),
            logged "Update Skill Error:" w)
         /\ skillColl (snd (run (updateSkill req) w)) = skillColl w).
Proof.
  intros Hadmin. apply String.eqb_eq in Hadmin. split.
  - intros Hnone. unfold run, updateSkill, Skill_findByIdAndUpdate.
    rewrite Hadmin. cbn [negb]. mnorm. rewrite Hnone. mnorm. reflexivity.
  - intros d n e Hfind Hname He Heq.
    assert (Hrun : run (updateSkill req) w
                   = (status_json 500 (Message "Server error"),
                      logged "Update Skill Error:" w)).
    { unfold run, updateSkill, Skill_findByIdAndUpdate.
      rewrite Hadmin. cbn [negb]. mnorm. rewrite Hfind.
      assert (Htaken : name_taken (remove_skill (req_params_id req) (skillColl w))
                         (skill_name (update_skill_doc (req_body req) d)) = true).
      { apply name_taken_In. unfold update_skill_doc. cbn [skill_name].
        rewrite Hname. cbn [fmap option_fmap option_map default from_option].
        apply in_map_iff. exists e. split; [exact Heq|exact He]. }
      rewrite Htaken. unfold console_error. mnorm. reflexivity. }
    split; [exact Hrun|]. rewrite Hrun. reflexivity.
Qed.


(** ** deleteSkill *)

Lemma find_skill_doc_remove_other id id' coll :
  id' <> id ->
  find_skill_doc (remove_skill id coll) id' = find_skill_doc coll id'.
Proof.
  intros Hne. unfold find_skill_doc.
  induction coll as [|e coll IH]; cbn [remove_skill List.find]; [reflexivity|].
  destruct (String.eqb_spec (skill_oid e) id) as [E|E].
  - destruct (String.eqb_spec (skill_oid e) id') as [E'|E']; [congruence|].
    reflexivity.
  - cbn [List.find]. destruct (String.eqb (skill_oid e) id'); [reflexivity|].
    exact IH.
Qed.

Lemma find_skill_doc_remove_same id coll :
  NoDup (map skill_oid coll) ->
  find_skill_doc (remove_skill id coll) id = None.
Proof.
  unfold find_skill_doc.
  induction coll as [|e coll IH]; cbn [remove_skill List.find map];
    [reflexivity|].
  intros Hnd. apply NoDup_cons in Hnd as [He Hnd].
  destruct (String.eqb_spec (skill_oid e) id) as [E|E].
  - apply find_none_of. intros x Hx. apply String.eqb_neq. intros Hx'.
    apply He. rewrite E, <- Hx'. apply list_elem_of_In, in_map, Hx.
  - cbn [List.find]. destruct (String.eqb_spec (skill_oid e) id); [contradiction|].
    apply IH, Hnd.
Qed.

(** X8: for an admin and a collection whose ids are pairwise distinct,
    deleting a stored skill answers 200; afterwards [getSkillById] answers
    404 for that id, and every other id finds what it found before. *)
Theorem deleteSkill_then_not_found role id w d :
  NoDup (map skill_oid (skillColl w)) ->
  find_skill_doc (skillColl w) id = Some d ->
  let del := {| req_user_role := "admin"%string; req_params_id := id;
                req_body := tt |} in
  let w' := set_skillColl (remove_skill id) w in
  run (deleteSkill del) w
  = (json (Message "Skill deleted successfully"), w')
  /\ run (getSkillById {| req_user_role := role; req_params_id := id;
                          req_body := tt |}) w'
     = (status_json 404 (Message "Skill not found"), w')
  /\ (forall id', id' <> id ->
                  find_skill_doc (skillColl w') id'
                  = find_skill_doc (skillColl w) id').
Proof.
  intros Hnd Hfind del w'. subst del w'. split; [|split].
  - unfold run, deleteSkill, Skill_findByIdAndDelete. cbn [req_user_role
      req_params_id String.eqb Ascii.eqb Bool.eqb negb]. mnorm.
    rewrite Hfind. mnorm. reflexivity.
  - unfold run, getSkillById, Skill_findById. cbn [req_params_id]. mnorm.
    change (skillColl (set_skillColl (remove_skill id) w))
      with (remove_skill id (skillColl w)).
    rewrite (find_skill_doc_remove_same id _ Hnd). mnorm. reflexivity.
  - intros id' Hne. apply (find_skill_doc_remove_other id id' _ Hne).
Qed.

(** ** updateIDP beyond the owner check and the refusal of the core *)

Lemma format_user_skills_dangling l lv :
  In (None, lv) l -> format_user_skills l = None.
Proof.
  induction l as [|[[d|] lv'] l IH]; cbn [In format_user_skills].
  - intros [].
  - intros [H|H]; [discriminate|]. rewrite (IH H). reflexivity.
  - reflexivity.
Qed.

Lemma refresh_from_ai_no_user req updateData w :
  users w !! u_user_id req = None ->
  refresh_from_ai req updateData w
  = (Thrown (TypeError "Cannot read properties of null (reading 'skills')"),
     refresh_log w).
Proof.
  intros Hnone.
  unfold refresh_from_ai, User_findById_populated.
  rewrite bind_eq. unfold console_log, modify at 1. cbv beta iota.
  fold (refresh_log w).
  rewrite !bind_eq. unfold get_world at 1, ret at 1. cbv beta iota.
  change (users (refresh_log w)) with (users w).
  rewrite Hnone. reflexivity.
Qed.

Lemma refresh_from_ai_dangling req updateData w u :
  users w !! u_user_id req = Some u ->
  format_user_skills
    (map (fun s => (find_skill_doc (skillColl w) (skillId s), level s))
         (user_skills u)) = None ->
  refresh_from_ai req updateData w
  = (Thrown (TypeError "Cannot read properties of null (reading '_id')"),
     refresh_log w).
Proof.
  intros Hu Hnone.
  unfold refresh_from_ai, User_findById_populated.
  rewrite bind_eq. unfold console_log, modify at 1. cbv beta iota.
  fold (refresh_log w).
  rewrite !bind_eq. unfold get_world at 1, ret at 1. cbv beta iota.
  change (users (refresh_log w)) with (users w).
  change (skillColl (refresh_log w)) with (skillColl w).
  rewrite Hu. cbn [fmap option_fmap option_map].
  rewrite bind_eq, mapM_format_user_skill, Hnone. reflexivity.
Qed.

Lemma python_data_cases req w :
  match python_data req w with
  | Some _ => True
  | None =>
      users w !! u_user_id req = None
      \/ exists u, users w !! u_user_id req = Some u
                   /\ format_user_skills
                        (map (fun s => (find_skill_doc (skillColl w) (skillId s),
                                        level s))
                             (user_skills u)) = None
  end.
Proof.
  unfold python_data. destruct (users w !! u_user_id req) as [u|] eqn:Eu.
  - destruct (format_user_skills _) eqn:Ef; [exact I|].
    right. exists u. split; [reflexivity | exact Ef].
  - left. reflexivity.
Qed.

(** The refresh branch changes no IDP document. *)
Lemma refresh_from_ai_idps req updateData w :
  idps (snd (refresh_from_ai req updateData w)) = idps w.
Proof.
  pose proof (python_data_cases req w) as Hcases.
  destruct (python_data req w) as [data|] eqn:Edata.
  - rewrite (refresh_from_ai_eq _ _ _ _ Edata), getRecommendedResources_eq.
    change (python_service (refresh_log w)) with (python_service w).
    destruct (rejected_by_axios (python_service w data)); [reflexivity|].
    destruct (python_service w data) as [s d|s k|]; cbn [ai_recommendations
      no_recommendation_body]; [destruct (ai_recommendations d)|..]; reflexivity.
  - destruct Hcases as [Hnone|(u & Hu & Hf)].
    + rewrite (refresh_from_ai_no_user _ _ _ Hnone). reflexivity.
    + rewrite (refresh_from_ai_dangling _ _ _ _ Hu Hf). reflexivity.
Qed.

Lemma IDP_findByIdAndUpdate_eq id d w :
  IDP_findByIdAndUpdate id d w
  = match idp_update_cast_error w d with
    | Some message => (Thrown (CastError message), w)
    | None =>
        match idps w !! id with
        | None => (Normal None, w)
        | Some doc =>
            (Normal (Some {| idp_oid := idp_oid doc;
                             idp_fields := apply_update d (idp_fields doc) |}),
             set_idps (insert id {| idp_oid := idp_oid doc;
                                    idp_fields :=
                                      apply_update d (idp_fields doc) |}) w)
        end
    end.
Proof.
  unfold IDP_findByIdAndUpdate. mnorm.
  destruct (idp_update_cast_error w d); [reflexivity|].
  destruct (idps w !! id); mnorm; reflexivity.
Qed.

(** X9: with a well-formed id in the path and a database that answers,
    [updateIDP] answers with one of 200, 403, 404 and 500: 404 exactly when
    no document has the id, 403 exactly when the document belongs to someone
    else, 500 only when an AI refresh was asked for or the schema cannot cast
    the members of the body; and whenever the answer is not 200 the IDP
    documents are as they were. *)
Theorem updateIDP_response_codes req w :
  let r := fst (run (updateIDP req) w) in
  In (code r) [200; 403; 404; 500]%nat
  /\ (code r = 404%nat <-> idps w !! u_params_id req = None)
  /\ (code r = 403%nat <->
      exists idp, idps w !! u_params_id req = Some idp
                  /\ employee (idp_fields idp) <> u_user_id req)
  /\ (code r = 500%nat ->
      strictly_true (b_refreshAI (u_body req)) = true
      \/ idp_update_cast_error w (spread_without_refreshAI (u_body req))
         <> None)
  /\ (code r <> 200%nat -> idps (snd (run (updateIDP req) w)) = idps w).
Proof.
  cbv zeta. unfold run, updateIDP, IDP_findById. mnorm.
  destruct (idps w !! u_params_id req) as [idp|] eqn:Hfind.
  - destruct (String.eqb_spec (employee (idp_fields idp)) (u_user_id req))
      as [Howner|Hother]; cbn [negb].
    + assert (Hnot403 :
                (exists idp0, Some idp = Some idp0
                              /\ employee (idp_fields idp0) <> u_user_id req)
                -> False).
      { intros (? & [= <-] & Hne). contradiction. }
      destruct (strictly_true (b_refreshAI (u_body req))) eqn:Hrefresh.
      * mnorm.
        pose proof (refresh_from_ai_idps req
                      (spread_without_refreshAI (u_body req)) w) as Hidps.
        destruct (refresh_from_ai req _ w) as [[refreshed|e] w1].
        -- rewrite bind_eq, IDP_findByIdAndUpdate_eq. cbn [snd] in Hidps.
           destruct (idp_update_cast_error w1 (fst refreshed)).
           ++ unfold console_error. mnorm. cbn [fst snd code status_json In].
              split; [auto 6|]. split; [split; discriminate|].
              split; [split; [discriminate|intros H; destruct (Hnot403 H)]|].
              split; [left; reflexivity|]. intros _. exact Hidps.
           ++ destruct (idps w1 !! u_params_id req); mnorm;
                cbn [fst snd code json status_json In].
              ** split; [auto|]. split; [split; discriminate|].
                 split; [split; [discriminate|intros H; destruct (Hnot403 H)]|].
                 split; [discriminate|]. intros Hn. contradiction.
              ** split; [auto|]. split; [split; discriminate|].
                 split; [split; [discriminate|intros H; destruct (Hnot403 H)]|].
                 split; [discriminate|]. intros Hn. contradiction.
        -- unfold console_error. mnorm. cbn [fst snd code status_json In].
           split; [auto 6|]. split; [split; discriminate|].
           split; [split; [discriminate|intros H; destruct (Hnot403 H)]|].
           split; [left; reflexivity|]. intros _. exact Hidps.
      * rewrite bind_eq. cbv beta iota delta [ret].
        rewrite bind_eq, IDP_findByIdAndUpdate_eq.
        destruct (idp_update_cast_error w _) eqn:Hcast.
        -- unfold console_error. mnorm. cbn [fst snd code status_json In].
           split; [auto 6|]. split; [split; discriminate|].
           split; [split; [discriminate|intros H; destruct (Hnot403 H)]|].
           split; [right; discriminate|]. reflexivity.
        -- rewrite Hfind. mnorm. cbn [fst snd code json status_json In].
           split; [auto|]. split; [split; discriminate|].
           split; [split; [discriminate|intros H; destruct (Hnot403 H)]|].
           split; [discriminate|]. intros Hn. contradiction.
    + mnorm. cbn [fst snd code status_json In].
      split; [auto|]. split; [split; discriminate|].
      split; [split; [intros _; exists idp; auto|reflexivity]|].
      split; [discriminate|]. reflexivity.
  - mnorm. cbn [fst snd code status_json In].
    split; [auto|]. split; [split; reflexivity|].
    split; [split; [discriminate|intros (? & [=] & _)]|].
    split; [discriminate|]. reflexivity.
Qed.


(** X11: when the owner asks for an AI refresh and the Python service
    answers with recommendations, the list of recommended resources handed
    to [findByIdAndUpdate] is the resource ids of the answer, in the order of
    the answer, whatever list the body carried.  When the schema cannot cast
    a member of that update the answer is 500 with the message of the
    CastError and no plan has changed; when it casts them the list is stored
    and the answer is 200 with the summary of the service's answer. *)
Theorem updateIDP_refresh_overwrites_resources req w idp data s ai recs :
  idps w !! u_params_id req = Some idp ->
  employee (idp_fields idp) = u_user_id req ->
  strictly_true (b_refreshAI (u_body req)) = true ->
  python_data req w = Some data ->
  python_service w data = Recommended s ai ->
  validateStatus s = true ->
  ai_recommendations ai = Some recs ->
  let updateData :=
    set_recommendedResources (map ai_resourceId recs)
                             (spread_without_refreshAI (u_body req)) in
  (forall message,
      idp_update_cast_error w updateData = Some message ->
      run (updateIDP req) w
      = (update_failure message, logged "Update IDP Error:" (refresh_log w)))
  /\ (idp_update_cast_error w updateData = None ->
      exists idp',
        run (updateIDP req) w
        = (json (IdpUpdated "IDP updated + AI recommendations refreshed"
                            (Some idp')
                            (Some (recs, ai_skills_to_improve ai))),
           set_idps (insert (u_params_id req) idp') (refresh_log w))
        /\ recommendedResources (idp_fields idp') = map ai_resourceId recs
        /\ idp_oid idp' = idp_oid idp
        /\ (b_employee (u_body req) = None ->
            employee (idp_fields idp') = employee (idp_fields idp))).
Proof.
  intros Hfind Howner Hrefresh Hdata Hreply Hok Hrecs updateData.
  apply String.eqb_eq in Howner.
  assert (Hrun : run (updateIDP req) w
                 = match idp_update_cast_error w updateData with
                   | Some message =>
                       (update_failure message,
                        logged "Update IDP Error:" (refresh_log w))
                   | None =>
                       (json (IdpUpdated
                                "IDP updated + AI recommendations refreshed"
                                (Some {| idp_oid := idp_oid idp;
                                         idp_fields :=
                                           apply_update updateData
                                                        (idp_fields idp) |})
                                (Some (recs, ai_skills_to_improve ai))),
                        set_idps
                          (insert (u_params_id req)
                             {| idp_oid := idp_oid idp;
                                idp_fields :=
                                  apply_update updateData (idp_fields idp) |})
                          (refresh_log w))
                   end).
  { unfold run, updateIDP, IDP_findById. mnorm. rewrite Hfind.
    rewrite Howner, Hrefresh. cbn [negb].
    rewrite bind_eq, (refresh_from_ai_eq _ _ _ _ Hdata).
    rewrite getRecommendedResources_eq.
    change (python_service (refresh_log w)) with (python_service w).
    rewrite Hreply. cbn [rejected_by_axios]. rewrite Hok. cbn [negb].
    rewrite Hrecs. cbv beta iota.
    rewrite bind_eq, IDP_findByIdAndUpdate_eq. cbn [fst snd].
    change (idp_update_cast_error (refresh_log w))
      with (idp_update_cast_error w).
    change (idps (refresh_log w)) with (idps w).
    fold updateData.
    destruct (idp_update_cast_error w updateData).
    - unfold console_error. mnorm. reflexivity.
    - rewrite Hfind. mnorm. reflexivity. }
  rewrite Hrun. split.
  - intros message Hcast. rewrite Hcast. reflexivity.
  - intros Hcast. rewrite Hcast. eexists. split; [reflexivity|].
    split; [reflexivity|]. split; [reflexivity|].
    intros Hnone. subst updateData.
    cbn [idp_fields employee apply_update set_recommendedResources
      spread_without_refreshAI d_employee]. rewrite Hnone. reflexivity.
Qed.

(** X12: an AI refresh for a user without a document, or for a user one of
    whose skill references finds no skill, fails before the Python service
    is asked: [updateIDP] answers 500 with the message of the TypeError, and
    only the console has changed. *)
Theorem updateIDP_refresh_needs_user_skills req w idp :
  idps w !! u_params_id req = Some idp ->
  employee (idp_fields idp) = u_user_id req ->
  strictly_true (b_refreshAI (u_body req)) = true ->
  python_data req w = None ->
  exists detail,
    run (updateIDP req) w
    = (update_failure detail, logged "Update IDP Error:" (refresh_log w))
    /\ (users w !! u_user_id req = None ->
        detail = "Cannot read properties of null (reading 'skills')"%string)
    /\ (forall u, users w !! u_user_id req = Some u ->
                  detail = "Cannot read properties of null (reading '_id')"%string).
Proof.
  intros Hfind Howner Hrefresh Hdata.
  pose proof (python_data_cases req w) as Hcases. rewrite Hdata in Hcases.
  apply String.eqb_eq in Howner.
  destruct Hcases as [Hnone|(u & Hu & Hf)].
  - exists "Cannot read properties of null (reading 'skills')"%string.
    split; [|split; [reflexivity|intros u Hu; congruence]].
    unfold run, updateIDP, IDP_findById. mnorm. rewrite Hfind.
    rewrite Howner, Hrefresh. cbn [negb]. mnorm.
    rewrite (refresh_from_ai_no_user _ _ _ Hnone). unfold console_error.
    mnorm. reflexivity.
  - exists "Cannot read properties of null (reading '_id')"%string.
    split; [|split; [intros Hnone; congruence|reflexivity]].
    unfold run, updateIDP, IDP_findById. mnorm. rewrite Hfind.
    rewrite Howner, Hrefresh. cbn [negb]. mnorm.
    rewrite (refresh_from_ai_dangling _ _ _ _ Hu Hf). unfold console_error.
    mnorm. reflexivity.
Qed.

Lemma python_data_dangling req w u s :
  users w !! u_user_id req = Some u ->
  In s (user_skills u) ->
  find_skill_doc (skillColl w) (skillId s) = None ->
  python_data req w = None.
Proof.
  intros Hu Hs Hnone. unfold python_data. rewrite Hu.
  rewrite (format_user_skills_dangling _ (level s)); [reflexivity|].
  apply in_map_iff. exists s. rewrite Hnone. auto.
Qed.

(** X13: [deleteSkill] removes the document and nothing else: a user who
    holds the deleted skill keeps the reference, and from then on every AI
    refresh of that user's plans answers 500 with a TypeError, without asking
    the Python service and without changing a plan. *)
Theorem deleteSkill_breaks_refresh req w idp u s d :
  NoDup (map skill_oid (skillColl w)) ->
  find_skill_doc (skillColl w) (skillId s) = Some d ->
  users w !! u_user_id req = Some u ->
  In s (user_skills u) ->
  idps w !! u_params_id req = Some idp ->
  employee (idp_fields idp) = u_user_id req ->
  strictly_true (b_refreshAI (u_body req)) = true ->
  let del := {| req_user_role := "admin"%string; req_params_id := skillId s;
                req_body := tt |} in
  let w' := snd (run (deleteSkill del) w) in
  users w' = users w
  /\ run (updateIDP req) w'
     = (update_failure "Cannot read properties of null (reading '_id')",
        logged "Update IDP Error:" (refresh_log w'))
  /\ idps (snd (run (updateIDP req) w')) = idps w.
Proof.
  intros Hnd Hd Hu Hs Hfind Howner Hrefresh del w'.
  assert (Hw' : w' = set_skillColl (remove_skill (skillId s)) w).
  { subst w' del. unfold run, deleteSkill, Skill_findByIdAndDelete.
    cbn [req_user_role req_params_id String.eqb Ascii.eqb Bool.eqb negb].
    mnorm. rewrite Hd. mnorm. reflexivity. }
  clearbody w'. subst w'.
  split; [reflexivity|].
  assert (Hrun : run (updateIDP req) (set_skillColl (remove_skill (skillId s)) w)
                 = (update_failure "Cannot read properties of null (reading '_id')",
                    logged "Update IDP Error:"
                      (refresh_log (set_skillColl (remove_skill (skillId s)) w)))).
  { unfold run, updateIDP, IDP_findById. mnorm.
    change (idps (set_skillColl ?f w)) with (idps w). rewrite Hfind.
    apply String.eqb_eq in Howner. rewrite Howner, Hrefresh. cbn [negb]. mnorm.
    rewrite (refresh_from_ai_dangling _ _ _ u).
    - unfold console_error. mnorm. reflexivity.
    - exact Hu.
    - apply (format_user_skills_dangling _ (level s)).
      apply in_map_iff. exists s. split; [|exact Hs].
      change (skillColl (set_skillColl ?f w)) with (f (skillColl w)).
      rewrite (find_skill_doc_remove_same _ _ Hnd). reflexivity. }
  split; [exact Hrun|]. rewrite Hrun. reflexivity.
Qed.

(** ** createIDP and the lists of plans *)

Lemma IDP_find_by_employee_eq uid w :
  IDP_find_by_employee uid w
  = (Normal (map (populate_idp w)
               (List.filter
                  (fun d => String.eqb (employee (idp_fields d)) uid)
                  (map snd (map_to_list (idps w))))), w).
Proof. unfold IDP_find_by_employee. mnorm. reflexivity. Qed.

Lemma stored_idp_In (m : gmap ObjectId IDPDoc) d :
  In d (map snd (map_to_list m)) <-> exists k, m !! k = Some d.
Proof.
  rewrite in_map_iff. split.
  - intros ([k d'] & Hd & Hin). cbn [snd] in Hd. subst d'. exists k.
    apply elem_of_map_to_list, list_elem_of_In, Hin.
  - intros (k & Hk). exists (k, d). split; [reflexivity|].
    apply list_elem_of_In, elem_of_map_to_list, Hk.
Qed.

Lemma plan_own_list uid w :
  exists l,
    getMyIDPs uid w = (Normal {| a_code := 200; a_body := IdpList l |}, w)
    /\ (forall d, In d (map p_idp l)
                  <-> (exists k, idps w !! k = Some d)
                      /\ employee (idp_fields d) = uid).
Proof.
  eexists. split.
  - unfold getMyIDPs. mnorm. rewrite IDP_find_by_employee_eq. mnorm.
    reflexivity.
  - intros d. rewrite map_map. cbn [populate_idp p_idp]. rewrite map_id.
    rewrite filter_In, stored_idp_In, String.eqb_eq. reflexivity.
Qed.

(** X14: [getMyIDPs] and [getIDPsByEmployee] answer 200 with the same list
    for the same employee id and leave the world as it was; the list holds
    exactly the stored plans of that employee, each with as many skill
    targets as stored (a target whose skill is gone keeps its place with a
    null skill) and with no more resources than stored (a reference to a
    resource that is gone is dropped). *)
Theorem plan_lists_hold_own_plans uid w :
  exists l,
    getMyIDPs uid w = (Normal {| a_code := 200; a_body := IdpList l |}, w)
    /\ getIDPsByEmployee uid w
       = (Normal {| a_code := 200; a_body := IdpList l |}, w)
    /\ (forall d, In d (map p_idp l)
                  <-> (exists k, idps w !! k = Some d)
                      /\ employee (idp_fields d) = uid)
    /\ Forall (fun p =>
                 length (p_skillsToImprove p)
                 = length (skillsToImprove (idp_fields (p_idp p)))
                 /\ (length (p_recommendedResources p)
                     <= length (recommendedResources (idp_fields (p_idp p))))%nat
                 /\ (forall r, In r (p_recommendedResources p) ->
                               In r (resourceColl w)
                               /\ In (resource_oid r)
                                     (recommendedResources (idp_fields (p_idp p)))))
              l.
Proof.
  eexists. split; [|split; [|split]].
  - unfold getMyIDPs. mnorm. rewrite IDP_find_by_employee_eq. mnorm.
    reflexivity.
  - unfold getIDPsByEmployee. mnorm. rewrite IDP_find_by_employee_eq. mnorm.
    reflexivity.
  - intros d. rewrite map_map. cbn [populate_idp p_idp]. rewrite map_id.
    rewrite filter_In, stored_idp_In, String.eqb_eq. reflexivity.
  - apply List.Forall_forall. intros p Hp. apply in_map_iff in Hp as (d & <- & _).
    cbn [populate_idp p_skillsToImprove p_idp p_recommendedResources].
    split; [apply length_map|]. split.
    + generalize (recommendedResources (idp_fields d)). intros ids.
      induction ids as [|i ids IH]; cbn [omap list_omap length]; [lia|].
      destruct (find_resource_doc (resourceColl w) i); cbn [length]; lia.
    + intros r Hr. apply list_elem_of_In, list_elem_of_omap in Hr as (i & Hi & Hfound).
      unfold find_resource_doc in Hfound. apply find_some in Hfound as [Hin Heq].
      apply String.eqb_eq in Heq. subst i. split; [exact Hin|].
      apply list_elem_of_In, Hi.
Qed.

(** X15: when the schema refuses the new document, [createIDP] answers 500
    with the message of the validation error; nothing is stored and nothing
    is queued, only the console has a new line. *)
Theorem createIDP_schema_rejection req w :
  idp_schema_accepts w (create_input req) = false ->
  run (createIDP req) w
  = (status_json 500
       (MessageError "Failed to create IDP" "IDP validation failed"),
     logged "Create IDP Error:" w).
Proof.
  intros Hno. unfold run, createIDP. rewrite try_catch_eq.
  rewrite (createIDP_try_rejected req w Hno). unfold console_error. mnorm.
  reflexivity.
Qed.

(** X16: a plan that [createIDP] stored is listed by [getMyIDPs] for its
    employee although the creating request was answered 500: its status is
    "draft" when the request carried resources and "processing" when it
    carried none, its feedback is empty. *)
Theorem createIDP_then_listed req w :
  idp_schema_accepts w (create_input req) = true ->
  let w' := snd (run (createIDP req) w) in
  exists l,
    getMyIDPs (c_user_id req) w'
    = (Normal {| a_code := 200; a_body := IdpList l |}, w')
    /\ In (created_idp req w) (map p_idp l)
    /\ status (idp_fields (created_idp req w))
       = match c_recommendedResources req with
         | Some (_ :: _) => "draft"%string
         | _ => "processing"%string
         end
    /\ managerFeedback (idp_fields (created_idp req w)) = ""%string
    /\ code (fst (run (createIDP req) w)) = 500%nat.
Proof.
  intros Hok w'.
  destruct (plan_own_list (c_user_id req) w') as (l & Hl & Hin).
  exists l. split; [exact Hl|]. split.
  - apply Hin. split; [|reflexivity].
    exists (pretty (next_oid w)). subst w'.
    destruct (createIDP_try_throws req w Hok) as (Hthrow & Hidps & _).
    unfold run, createIDP. rewrite try_catch_eq.
    destruct (createIDP_try req w) as [c w1]. cbn [fst snd] in Hthrow, Hidps.
    subst c. unfold console_error. mnorm. cbn [snd].
    change (idps (set_console ?f w1)) with (idps w1). rewrite Hidps.
    apply lookup_insert_eq.
  - split; [|split; [reflexivity|apply createIDP_always_500]].
    unfold created_idp, create_input. cbn [idp_fields status in_status].
    destruct (c_recommendedResources req) as [[|r rs]|]; reflexivity.
Qed.

(** ** approveIDP *)

Lemma accepted_status_reviewable st :
  accepted_status st = true <-> exists s, st = Some s /\ In s reviewable.
Proof.
  unfold accepted_status. split.
  - destruct st as [s|]; [|discriminate]. intros H.
    apply andb_true_iff in H as [_ H]. apply existsb_exists in H as (x & Hx & He).
    apply String.eqb_eq in He. subst x. exists s. auto.
  - intros (s & -> & Hin). apply andb_true_iff. split.
    + destruct (String.eqb_spec s ""); [|reflexivity]. subst s.
      cbn [reviewable In] in Hin. intuition discriminate.
    + apply existsb_exists. exists s. split; [exact Hin|apply String.eqb_refl].
Qed.

(** X17: [approveIDP] answers 404 for a well-formed id that no plan has and
    changes nothing.
    For a stored plan the status it writes is always one of "approved",
    "rejected" and "needs_revision": the submitted one when it is one of the
    three, "approved" for every other or missing value.  The feedback is
    overwritten, with the empty string when the request carries none; the
    other members stay.  When the schema accepts the document the answer is
    200 with the message naming the written status; when it does not, the
    answer is 500 and no plan has changed. *)
Theorem approveIDP_outcome schema_accepts req w :
  match idps w !! ap_params_id req with
  | None =>
      approveIDP schema_accepts req w
      = (Normal {| a_code := 404; a_body := ApproveMessage "IDP not found" |}, w)
  | Some idp =>
      exists st,
        In st reviewable
        /\ (forall s, ap_status req = Some s -> In s reviewable -> st = s)
        /\ ((forall s, ap_status req = Some s -> ~ In s reviewable) ->
            st = "approved"%string)
        /\ let idp' := with_review st (or_empty (ap_managerFeedback req)) idp in
           (ap_managerFeedback req = None ->
            managerFeedback (idp_fields idp') = ""%string)
           /\ employee (idp_fields idp') = employee (idp_fields idp)
           /\ recommendedResources (idp_fields idp')
              = recommendedResources (idp_fields idp)
           /\ (schema_accepts idp' = true ->
               approveIDP schema_accepts req w
               = (Normal {| a_code := 200;
                            a_body := ApproveDone
                                        ("IDP " ++ st ++ " successfully") idp' |},
                  set_idps (insert (idp_oid idp) idp') w))
           /\ (schema_accepts idp' = false ->
               approveIDP schema_accepts req w
               = (Normal {| a_code := 500;
                            a_body := ApproveMessage "Server error" |},
                  logged "Approve IDP Error:" w))
  end.
Proof.
  destruct (idps w !! ap_params_id req) as [idp|] eqn:Hfind.
  - exists (if accepted_status (ap_status req)
            then default ""%string (ap_status req) else "approved"%string).
    split; [|split; [|split]].
    + destruct (accepted_status (ap_status req)) eqn:E.
      * apply accepted_status_reviewable in E as (s & -> & Hin). exact Hin.
      * cbn [reviewable In]. auto.
    + intros s Hs Hin.
      rewrite (proj2 (accepted_status_reviewable (ap_status req)))
        by (exists s; auto).
      rewrite Hs. reflexivity.
    + intros Hnot. destruct (accepted_status (ap_status req)) eqn:E;
        [|reflexivity].
      apply accepted_status_reviewable in E as (s & Hs & Hin).
      destruct (Hnot s Hs Hin).
    + cbv zeta. split; [intros ->; reflexivity|].
      split; [reflexivity|]. split; [reflexivity|]. split.
      * intros Hok. unfold approveIDP, IDP_findById. mnorm. rewrite Hfind.
        mnorm. unfold IDP_save. rewrite Hok. mnorm. reflexivity.
      * intros Hno. unfold approveIDP, IDP_findById. mnorm. rewrite Hfind.
        mnorm. unfold IDP_save. rewrite Hno. unfold console_error. mnorm.
        reflexivity.
  - unfold approveIDP, IDP_findById. mnorm. rewrite Hfind. mnorm. reflexivity.
Qed.

(** ** The recommender client *)

(** X18: both functions of the recommender client fail in one way only:
    whatever made the request fail, the error thrown is
    Error("Python service unavailable") and one line is logged; when they
    return, the world is as it was and the value returned is the data of the
    reply, whose status is 2xx: for [getRecommendedResources] the body of
    the recommendation reply, or the body without recommendations of a reply
    that refuses the request under a 2xx status. *)
Theorem recommender_client_contract {Q D}
  (service : Q -> SimilarReply D) (query : Q) (data : PythonData) w :
  (forall e w1, getSimilarSkills service query w = (Thrown e, w1) ->
                e = Error "Python service unavailable"
                /\ w1 = logged "Error calling Python /recommend/similar-skills:" w
                /\ forall s d, service query = SimilarAnswer s d ->
                               validateStatus s = false)
  /\ (forall d w1, getSimilarSkills service query w = (Normal d, w1) ->
                   w1 = w
                   /\ exists s, service query = SimilarAnswer s d
                                /\ (200 <= s < 300)%nat)
  /\ (forall e w1, getRecommendedResources data w = (Thrown e, w1) ->
                   e = Error "Python service unavailable"
                   /\ w1 = logged "Error calling Python /recommend/resources:" w
                   /\ rejected_by_axios (python_service w data) = true)
  /\ (forall d w1, getRecommendedResources data w = (Normal d, w1) ->
                   w1 = w
                   /\ rejected_by_axios (python_service w data) = false
                   /\ exists s,
                        (200 <= s < 300)%nat
                        /\ (python_service w data = Recommended s d
                            \/ (exists kind,
                                   python_service w data = Rejected s kind)
                               /\ d = no_recommendation_body)).
Proof.
  assert (Hrange : forall s, validateStatus s = true -> (200 <= s < 300)%nat).
  { intros s H. unfold validateStatus in H. apply andb_true_iff in H as [H1 H2].
    apply Nat.leb_le in H1. apply Nat.ltb_lt in H2. lia. }
  split; [|split; [|split]].
  - intros e w1. unfold getSimilarSkills, axios_post_similar, console_error.
    mnorm. destruct (service query) as [s d|]; [destruct (validateStatus s) eqn:E|];
      mnorm; intros [= <- <-].
    + split; [reflexivity|]. split; [reflexivity|].
      intros s' d' [= <- <-]. exact E.
    + split; [reflexivity|]. split; [reflexivity|]. intros s' d' [=].
  - intros d w1. unfold getSimilarSkills, axios_post_similar, console_error.
    mnorm. destruct (service query) as [s d'|]; [destruct (validateStatus s) eqn:E|];
      mnorm; intros [= <- <-].
    split; [reflexivity|]. exists s. split; [reflexivity|apply Hrange, E].
  - intros e w1. rewrite getRecommendedResources_eq.
    destruct (rejected_by_axios (python_service w data)).
    + intros [= <- <-]. auto.
    + destruct (python_service w data); intros [=].
  - intros d w1. rewrite getRecommendedResources_eq.
    destruct (rejected_by_axios (python_service w data)) eqn:Hrej;
      [intros [=]|].
    destruct (python_service w data) as [s d'|s kind|]; intros [= <- <-];
      cbn [rejected_by_axios] in Hrej; try discriminate;
      apply negb_false_iff in Hrej; apply Hrange in Hrej;
      (split; [reflexivity|]); (split; [reflexivity|]); exists s;
      (split; [exact Hrej|]).
    + left. reflexivity.
    + right. split; [exists kind; reflexivity | reflexivity].
Qed.

(** ** The auth middleware and the skill routes *)

Lemma split_on_not_nil sep s : split_on sep s <> [].
Proof.
  destruct s as [|c s]; cbn [split_on]; [discriminate|].
  destruct (Ascii.eqb c sep); [discriminate|].
  destruct (split_on sep s); discriminate.
Qed.

Lemma split_on_no_sep sep t :
  ~ In sep (list_ascii_of_string t) -> split_on sep t = [t].
Proof.
  induction t as [|c t IH]; cbn [split_on list_ascii_of_string In];
    [reflexivity|].
  intros Hno. destruct (Ascii.eqb_spec c sep) as [E|E]; [tauto|].
  rewrite IH by tauto. reflexivity.
Qed.

Lemma split_on_first sep t rest :
  ~ In sep (list_ascii_of_string t) ->
  split_on sep (t ++ String sep rest) = t :: split_on sep rest.
Proof.
  induction t as [|c t IH]; cbn [list_ascii_of_string In].
  - intros _. change ("" ++ String sep rest)%string with (String sep rest).
    cbn [split_on]. rewrite Ascii.eqb_refl. reflexivity.
  - intros Hno.
    change (String c t ++ String sep rest)%string
      with (String c (t ++ String sep rest)).
    cbn [split_on]. destruct (Ascii.eqb_spec c sep) as [E|E]; [tauto|].
    rewrite IH by tauto. reflexivity.
Qed.

Lemma prefix_inv p h :
  String.prefix p h = true -> exists x, h = (p ++ x)%string.
Proof.
  revert h. induction p as [|c p IH]; intros h.
  - intros _. exists h. reflexivity.
  - destruct h as [|c' h]; cbn [String.prefix]; [discriminate|].
    destruct (Ascii.ascii_dec c c') as [<-|]; [|discriminate].
    intros H. destruct (IH h H) as (x & ->). exists x. reflexivity.
Qed.

Lemma prefix_app p x : String.prefix p (p ++ x) = true.
Proof.
  induction p as [|c p IH]; [destruct x; reflexivity|].
  change (String c p ++ x)%string with (String c (p ++ x)).
  cbn [String.prefix]. destruct (Ascii.ascii_dec c c); [exact IH|contradiction].
Qed.

Lemma bearer_token_rest x :
  bearer_token ("Bearer " ++ x) = head (split_on " " x).
Proof.
  unfold bearer_token.
  change ("Bearer " ++ x)%string with ("Bearer" ++ String " " x)%string.
  rewrite split_on_first.
  - destruct (split_on " " x); reflexivity.
  - cbn [list_ascii_of_string In]. intros H.
    repeat (destruct H as [H|H]; [discriminate|]). exact H.
Qed.

(** X19: the token that the middleware reads from "Bearer <token>" is the
    token itself when it holds no space; what follows a further space is
    ignored; a header that starts with "Bearer " always yields a token, the
    empty one when a second space follows at once. *)
Theorem bearer_token_round_trip t rest :
  ~ In " "%char (list_ascii_of_string t) ->
  bearer_token ("Bearer " ++ t) = Some t
  /\ bearer_token ("Bearer " ++ t ++ " " ++ rest) = Some t
  /\ bearer_token ("Bearer  " ++ rest) = Some ""%string
  /\ (forall h, String.prefix "Bearer " h = true ->
                exists token, bearer_token h = Some token).
Proof.
  intros Hno. split; [|split; [|split]].
  - rewrite bearer_token_rest, (split_on_no_sep _ _ Hno). reflexivity.
  - rewrite bearer_token_rest.
    change (t ++ " " ++ rest)%string with (t ++ String " " rest)%string.
    rewrite (split_on_first _ _ _ Hno). reflexivity.
  - change ("Bearer  " ++ rest)%string with ("Bearer " ++ String " " rest)%string.
    rewrite bearer_token_rest. cbn [split_on]. reflexivity.
  - intros h Hh. apply prefix_inv in Hh as (x & ->).
    rewrite bearer_token_rest. pose proof (split_on_not_nil " " x) as Hnil.
    destruct (split_on " " x) as [|piece pieces]; [contradiction|].
    exists piece. reflexivity.
Qed.

Lemma authMiddleware_eq verify authorization next w :
  authMiddleware verify authorization next w
  = match authorization with
    | Some h =>
        if String.prefix "Bearer " h then
          match bearer_token h with
          | Some t =>
              if String.eqb t "" then
                (Normal (status_json 401 (Message "Unauthorized: Invalid token")),
                 logged "Auth Error:" w)
              else
                match verify t with
                | Some decoded => next decoded w
                | None =>
                    (Normal (status_json 401
                               (Message "Unauthorized: Invalid token")),
                     logged "Auth Error:" w)
                end
          | None =>
              (Normal (status_json 401 (Message "Unauthorized: Invalid token")),
               logged "Auth Error:" w)
          end
        else
          (Normal (status_json 401 (Message "Unauthorized: No token provided")), w)
    | None =>
        (Normal (status_json 401 (Message "Unauthorized: No token provided")), w)
    end.
Proof.
  unfold authMiddleware, jwt_verify, console_error.
  destruct authorization as [h|]; [|mnorm; reflexivity].
  assert (He : (String.eqb h "" || negb (String.prefix "Bearer " h))
               = negb (String.prefix "Bearer " h)).
  { destruct h; reflexivity. }
  rewrite He. destruct (String.prefix "Bearer " h); cbn [negb];
    [|mnorm; reflexivity].
  destruct (bearer_token h) as [t|];
    [destruct (String.eqb t ""); [|destruct (verify t)]|]; mnorm; reflexivity.
Qed.

Lemma authMiddleware_bearer verify next w t decoded :
  t <> ""%string ->
  ~ In " "%char (list_ascii_of_string t) ->
  verify t = Some decoded ->
  authMiddleware verify (Some ("Bearer " ++ t)%string) next w = next decoded w.
Proof.
  intros Hne Hno Hv. rewrite authMiddleware_eq, prefix_app.
  rewrite bearer_token_rest, (split_on_no_sep _ _ Hno). cbn [head].
  destruct (String.eqb_spec t ""); [contradiction|].
  rewrite Hv. reflexivity.
Qed.

(** X20: the auth middleware hands the request on when the header is
    "Bearer " followed by a non-empty token that verifies; then the next
    handler runs with the decoded token as [req.user] in an unchanged world.
    Without a header that starts with "Bearer " it answers 401 "No token
    provided" and changes nothing; with an empty token or one that does not
    verify it answers 401 "Invalid token" and logs one line.  In neither case
    does the next handler run. *)
Theorem authMiddleware_outcome verify authorization next w :
  (forall t decoded,
      t <> ""%string ->
      ~ In " "%char (list_ascii_of_string t) ->
      authorization = Some ("Bearer " ++ t)%string ->
      verify t = Some decoded ->
      authMiddleware verify authorization next w = next decoded w)
  /\ ((forall h, authorization = Some h -> String.prefix "Bearer " h = false) ->
      authMiddleware verify authorization next w
      = (Normal (status_json 401 (Message "Unauthorized: No token provided")), w))
  /\ (forall h t,
         authorization = Some h ->
         String.prefix "Bearer " h = true ->
         bearer_token h = Some t ->
         t = ""%string \/ verify t = None ->
         authMiddleware verify authorization next w
         = (Normal (status_json 401 (Message "Unauthorized: Invalid token")),
            logged "Auth Error:" w)).
Proof.
  rewrite authMiddleware_eq. split; [|split].
  - intros t decoded Hne Hno -> Hv.
    rewrite prefix_app.
    rewrite bearer_token_rest, (split_on_no_sep _ _ Hno). cbn [head].
    destruct (String.eqb_spec t ""); [contradiction|].
    rewrite Hv. reflexivity.
  - intros Hno. destruct authorization as [h|]; [|reflexivity].
    rewrite (Hno h eq_refl). reflexivity.
  - intros h t -> Hp Ht Hbad. rewrite Hp, Ht.
    destruct (String.eqb_spec t "") as [E|E]; [reflexivity|].
    destruct Hbad as [Hb|Hv]; [contradiction|]. rewrite Hv. reflexivity.
Qed.

(** The handler that a skill route runs once the token is decoded. *)
Lemma skill_router_run verify authorization route w :
  run (skill_router verify authorization route) w
  = match authorization with
    | Some h =>
        if String.prefix "Bearer " h then
          match bearer_token h with
          | Some t =>
              match (if String.eqb t "" then None else verify t) with
              | Some user =>
                  match route with
                  | PostAdd body => run (route_add (to_req user "" body)) w
                  | GetAll => run (getAllSkills (to_req user "" tt)) w
                  | GetById id => run (getSkillById (to_req user id tt)) w
                  | PutUpdate id body => run (route_update (to_req user id body)) w
                  | DeleteDelete id => run (route_delete (to_req user id tt)) w
                  | PostBulkAdd body => run (route_bulk_add (to_req user "" body)) w
                  end
              | None =>
                  (status_json 401 (Message "Unauthorized: Invalid token"),
                   logged "Auth Error:" w)
              end
          | None =>
              (status_json 401 (Message "Unauthorized: Invalid token"),
               logged "Auth Error:" w)
          end
        else (status_json 401 (Message "Unauthorized: No token provided"), w)
    | None => (status_json 401 (Message "Unauthorized: No token provided"), w)
    end.
Proof.
  unfold run at 1, skill_router. rewrite authMiddleware_eq.
  destruct authorization as [h|]; [|reflexivity].
  destruct (String.prefix "Bearer " h); [|reflexivity].
  destruct (bearer_token h) as [t|]; [|reflexivity].
  destruct (String.eqb t ""); [reflexivity|].
  destruct (verify t) as [user|]; [|reflexivity].
  destruct route; reflexivity.
Qed.

Lemma getAllSkills_reads req w :
  run (getAllSkills req) w = (json (SkillList (skillColl w)), w).
Proof. unfold run, getAllSkills, Skill_find_all. mnorm. reflexivity. Qed.

Lemma getSkillById_reads req w :
  snd (run (getSkillById req) w) = w
  /\ code (fst (run (getSkillById req) w)) <> 403%nat.
Proof.
  unfold run, getSkillById, Skill_findById. mnorm.
  destruct (find_skill_doc (skillColl w) (req_params_id req)); mnorm;
    split; [reflexivity|discriminate|reflexivity|discriminate].
Qed.

(** X21: through the skill routes the stored skills change only for a
    request to one of the four admin routes whose header starts with
    "Bearer " and whose token verifies with the role admin. *)
Theorem skill_routes_change_needs_admin verify authorization route w :
  skillColl (snd (run (skill_router verify authorization route) w))
  <> skillColl w ->
  (exists h t user,
      authorization = Some h
      /\ String.prefix "Bearer " h = true
      /\ bearer_token h = Some t
      /\ t <> ""%string
      /\ verify t = Some user
      /\ claim_role user = "admin"%string)
  /\ route <> GetAll
  /\ (forall id, route <> GetById id).
Proof.
  rewrite skill_router_run. intros Hchanged.
  destruct authorization as [h|]; [|destruct Hchanged; reflexivity].
  destruct (String.prefix "Bearer " h) eqn:Hp; [|destruct Hchanged; reflexivity].
  destruct (bearer_token h) as [t|] eqn:Ht; [|destruct Hchanged; reflexivity].
  destruct (String.eqb_spec t "") as [Et|Et]; [destruct Hchanged; reflexivity|].
  destruct (verify t) as [user|] eqn:Hv; [|destruct Hchanged; reflexivity].
  assert (Hread : route <> GetAll /\ (forall id, route <> GetById id)).
  { split.
    - intros ->. apply Hchanged. rewrite getAllSkills_reads. reflexivity.
    - intros id ->. apply Hchanged.
      rewrite (proj1 (getSkillById_reads _ w)). reflexivity. }
  split; [|exact Hread].
  exists h, t, user. split; [reflexivity|]. split; [exact Hp|].
  split; [exact Ht|]. split; [exact Et|]. split; [exact Hv|].
  destruct (String.eqb_spec (claim_role user) "admin") as [E|E]; [exact E|].
  exfalso. apply Hchanged.
  destruct route as [body| |id|id body|id|body];
    [unfold route_add|destruct (proj1 Hread eq_refl)
    |destruct (proj2 Hread id eq_refl)|unfold route_update|unfold route_delete
    |unfold route_bulk_add];
    rewrite route_refuses_others by exact E; reflexivity.
Qed.

Ltac crack :=
  repeat first
    [ rewrite bind_eq
    | rewrite try_catch_eq
    | progress cbv beta iota zeta delta [get_world ret throw modify]
    | match goal with
      | |- context [match ?o with Some _ => _ | None => _ end] =>
          is_var o; destruct o
      | |- context [if ?b then _ else _] => destruct b
      | |- context [let (_, _) := ?c ?w in _] => destruct (c w) as [[?|?] ?]
      end ].

Lemma admin_handlers_never_403 user w :
  claim_role user = "admin"%string ->
  (forall body, code (fst (run (addSkill (to_req user "" body)) w)) <> 403%nat)
  /\ (forall id body,
         code (fst (run (updateSkill (to_req user id body)) w)) <> 403%nat)
  /\ (forall id, code (fst (run (deleteSkill (to_req user id tt)) w)) <> 403%nat)
  /\ (forall body,
         code (fst (run (bulkAddSkills (to_req user "" body)) w)) <> 403%nat).
Proof.
  intros Hadmin. apply String.eqb_eq in Hadmin.
  split; [|split; [|split]].
  - intros body. unfold run, addSkill, console_error. cbn [to_req req_user_role].
    rewrite Hadmin. cbn [negb]. crack; discriminate.
  - intros id body. unfold run, updateSkill, console_error.
    cbn [to_req req_user_role]. rewrite Hadmin. cbn [negb]. crack; discriminate.
  - intros id. unfold run, deleteSkill, console_error.
    cbn [to_req req_user_role]. rewrite Hadmin. cbn [negb]. crack; discriminate.
  - intros body. unfold run, bulkAddSkills, console_error.
    cbn [to_req req_user_role req_body]. rewrite Hadmin. cbn [negb].
    destruct body as [skills|]; crack; discriminate.
Qed.

(** X22: a 403 from a skill route is always the answer of the role
    middleware, "Access denied: Only admin allowed", with the world as it
    was; the check of the role inside the four handlers, with its answer
    "Access denied: Admin only", is never what a route answers. *)
Theorem skill_routes_403_is_role_middleware verify authorization route w :
  code (fst (run (skill_router verify authorization route) w)) = 403%nat ->
  run (skill_router verify authorization route) w
  = (status_json 403 (Message "Access denied: Only admin allowed"), w).
Proof.
  rewrite skill_router_run.
  destruct authorization as [h|]; [|discriminate].
  destruct (String.prefix "Bearer " h); [|discriminate].
  destruct (bearer_token h) as [t|]; [|discriminate].
  destruct (String.eqb t ""); [discriminate|].
  destruct (verify t) as [user|]; [|discriminate].
  destruct (String.eqb_spec (claim_role user) "admin") as [E|E].
  - destruct (admin_handlers_never_403 user w E) as (Ha & Hu & Hd & Hb).
    destruct route as [body| |id|id body|id|body]; intros H403; exfalso.
    + unfold route_add in H403. rewrite route_admits_admin in H403 by exact E.
      exact (Ha _ H403).
    + rewrite getAllSkills_reads in H403. discriminate.
    + exact (proj2 (getSkillById_reads _ w) H403).
    + unfold route_update in H403. rewrite route_admits_admin in H403 by exact E.
      exact (Hu _ _ H403).
    + unfold route_delete in H403. rewrite route_admits_admin in H403 by exact E.
      exact (Hd _ H403).
    + unfold route_bulk_add in H403. rewrite route_admits_admin in H403 by exact E.
      exact (Hb _ H403).
  - destruct route as [body| |id|id body|id|body]; intros H403.
    + unfold route_add. rewrite route_refuses_others by exact E. reflexivity.
    + rewrite getAllSkills_reads in H403. discriminate.
    + destruct (proj2 (getSkillById_reads _ w) H403).
    + unfold route_update. rewrite route_refuses_others by exact E. reflexivity.
    + unfold route_delete. rewrite route_refuses_others by exact E. reflexivity.
    + unfold route_bulk_add. rewrite route_refuses_others by exact E. reflexivity.
Qed.

(** ** deleteResource and the lists of plans *)

Lemma find_resource_doc_remove_same id coll :
  NoDup (map resource_oid coll) ->
  find_resource_doc (remove_resource id coll) id = None.
Proof.
  unfold find_resource_doc.
  induction coll as [|r coll IH]; cbn [remove_resource List.find map];
    [reflexivity|].
  intros Hnd. apply NoDup_cons in Hnd as [Hr Hnd].
  destruct (String.eqb_spec (resource_oid r) id) as [E|E].
  - apply find_none_of. intros x Hx. apply String.eqb_neq. intros Hx'.
    apply Hr. rewrite E, <- Hx'. apply list_elem_of_In, in_map, Hx.
  - cbn [List.find]. destruct (String.eqb_spec (resource_oid r) id);
      [contradiction|]. apply IH, Hnd.
Qed.

(** X23: for an admin and a catalog whose ids are pairwise distinct,
    [deleteResource] answers 200 and removes the resource only: the plans
    keep its id, yet no list of plans shows a resource of that id any more;
    who is not an admin is answered 403 and changes nothing. *)
Theorem deleteResource_then_unlisted role id w r :
  NoDup (map resource_oid (resourceColl w)) ->
  find_resource_doc (resourceColl w) id = Some r ->
  let w' := set_resourceColl (remove_resource id) w in
  run (deleteResource {| req_user_role := "admin"%string; req_params_id := id;
                         req_body := tt |}) w
  = (json (Message "Resource deleted successfully"), w')
  /\ idps w' = idps w
  /\ (forall uid l p r',
         getMyIDPs uid w'
         = (Normal {| a_code := 200; a_body := IdpList l |}, w') ->
         In p l -> In r' (p_recommendedResources p) -> resource_oid r' <> id)
  /\ (role <> "admin"%string ->
      run (deleteResource {| req_user_role := role; req_params_id := id;
                             req_body := tt |}) w
      = (status_json 403 (Message "Access denied: Admin only"), w)).
Proof.
  intros Hnd Hfind w'. split; [|split; [reflexivity|split]].
  - unfold run, deleteResource, Resource_findByIdAndDelete.
    cbn [req_user_role req_params_id String.eqb Ascii.eqb Bool.eqb negb].
    mnorm. rewrite Hfind. mnorm. reflexivity.
  - intros uid l p r' Hl Hp Hr' Hid.
    unfold getMyIDPs in Hl. rewrite try_catch_eq, bind_eq in Hl.
    rewrite IDP_find_by_employee_eq in Hl.
    cbv beta iota delta [ret] in Hl. injection Hl as <-.
    apply in_map_iff in Hp as (d & <- & _).
    cbn [populate_idp p_recommendedResources] in Hr'.
    apply list_elem_of_In, list_elem_of_omap in Hr' as (i & _ & Hfound).
    assert (Hi : i = id).
    { unfold find_resource_doc in Hfound. apply find_some in Hfound as [_ He].
      apply String.eqb_eq in He. congruence. }
    subst i. subst w'.
    change (resourceColl (set_resourceColl ?f w)) with (f (resourceColl w))
      in Hfound.
    rewrite (find_resource_doc_remove_same _ _ Hnd) in Hfound. discriminate.
  - intros Hrole. unfold run, deleteResource. cbn [req_user_role].
    destruct (String.eqb_spec role "admin") as [E|E]; [contradiction|].
    cbn [negb]. mnorm. reflexivity.
Qed.


(** ** What no handler takes away *)

Lemma grows_to_refl w : grows_to w w.
Proof.
  repeat split; try reflexivity.
  - exists []. rewrite app_nil_r. reflexivity.
  - exists []. rewrite app_nil_r. reflexivity.
  - intros k Hk. exact Hk.
Qed.

Lemma grows_to_trans w1 w2 w3 :
  grows_to w1 w2 -> grows_to w2 w3 -> grows_to w1 w3.
Proof.
  intros (Hu & Hr & (l & Hl) & (j & Hj) & Hn & Hp)
         (Hu' & Hr' & (l' & Hl') & (j' & Hj') & Hn' & Hp').
  split; [congruence|]. split; [congruence|].
  split; [exists (l ++ l'); rewrite Hl', Hl, app_assoc; reflexivity|].
  split; [exists (j ++ j'); rewrite Hj', Hj, app_assoc; reflexivity|].
  split; [lia|]. intros k Hk. apply Hp', Hp, Hk.
Qed.

Lemma same_plans_refl w : same_plans w w.
Proof. split; reflexivity. Qed.

Lemma same_plans_trans w1 w2 w3 :
  same_plans w1 w2 -> same_plans w2 w3 -> same_plans w1 w3.
Proof. intros [H1 H2] [H3 H4]. split; congruence. Qed.

Section Leads.
Context (R : World -> World -> Prop).
Hypothesis R_refl : forall w, R w w.
Hypothesis R_trans : forall w1 w2 w3, R w1 w2 -> R w2 w3 -> R w1 w3.

Lemma leads_ret {A} (a : A) : leads R (ret a).
Proof. intros w. apply R_refl. Qed.

Lemma leads_throw {A} (e : JsError) : leads R (@throw A e).
Proof. intros w. apply R_refl. Qed.

Lemma leads_get_world : leads R get_world.
Proof. intros w. apply R_refl. Qed.

Lemma leads_bind {A B} (c : M A) (k : A -> M B) :
  leads R c -> (forall a, leads R (k a)) -> leads R (bind c k).
Proof.
  intros Hc Hk w. rewrite bind_eq. specialize (Hc w).
  destruct (c w) as [[a|e] w']; cbn [snd] in *.
  - apply (R_trans _ _ _ Hc), Hk.
  - exact Hc.
Qed.

Lemma leads_try_catch {A} (c : M A) (h : JsError -> M A) :
  leads R c -> (forall e, leads R (h e)) -> leads R (try_catch c h).
Proof.
  intros Hc Hh w. rewrite try_catch_eq. specialize (Hc w).
  destruct (c w) as [[a|e] w']; cbn [snd] in *.
  - exact Hc.
  - apply (R_trans _ _ _ Hc), Hh.
Qed.

Lemma leads_mapM {A B} (f : A -> M B) (l : list A) :
  (forall a, leads R (f a)) -> leads R (mapM f l).
Proof.
  intros Hf. induction l as [|a l IH]; cbn [mapM].
  - apply leads_ret.
  - apply leads_bind; [apply Hf|]. intros b.
    apply leads_bind; [exact IH|]. intros bs. apply leads_ret.
Qed.

Lemma leads_run (h : M Response) (w : World) :
  leads R h -> R w (snd (run h w)).
Proof.
  intros Hh. unfold run. specialize (Hh w).
  destruct (h w) as [[r|e] w']; exact Hh.
Qed.

Lemma leads_perform_all ops :
  (forall op, leads R (handler op)) ->
  forall w, R w (perform_all ops w).
Proof.
  intros Hh. induction ops as [|op ops IH]; intros w; cbn [perform_all].
  - apply R_refl.
  - apply (R_trans _ (snd (perform op w))); [|apply IH].
    apply leads_run, Hh.
Qed.

End Leads.

Lemma grows_console (label : string) :
  leads grows_to (modify (set_console (fun out => out ++ [label]))).
Proof.
  intros w. cbn [modify snd].
  pose proof (grows_to_refl w) as (Hu & Hr & _ & Hj & Hn & Hp).
  repeat split; try assumption. exists [label]. reflexivity.
Qed.

Lemma grows_set_skillColl f : leads grows_to (modify (set_skillColl f)).
Proof. intros w. exact (grows_to_refl w). Qed.

Lemma grows_fresh_oid : leads grows_to fresh_oid.
Proof.
  intros w. cbn [fresh_oid snd].
  pose proof (grows_to_refl w) as (Hu & Hr & Hl & Hj & _ & Hp).
  repeat split; try assumption. cbn [set_next_oid next_oid]. lia.
Qed.

Lemma grows_insert_idp k d : leads grows_to (modify (set_idps (insert k d))).
Proof.
  intros w. cbn [modify snd].
  pose proof (grows_to_refl w) as (Hu & Hr & Hl & Hj & Hn & _).
  repeat split; try assumption.
  intros k' Hk'. cbn [set_idps idps].
  destruct (decide (k = k')) as [->|Hne].
  - rewrite lookup_insert_eq. eexists. reflexivity.
  - rewrite lookup_insert_ne by exact Hne. exact Hk'.
Qed.

Lemma grows_enqueue job :
  leads grows_to (modify (set_queue (fun q => q ++ [job]))).
Proof.
  intros w. cbn [modify snd].
  pose proof (grows_to_refl w) as (Hu & Hr & Hl & _ & Hn & Hp).
  repeat split; try assumption. exists [job]. reflexivity.
Qed.

Ltac leads_step refl trans leaf :=
  first
    [ apply (leads_ret _ refl) | apply (leads_throw _ refl)
    | apply (leads_get_world _ refl)
    | apply (leads_bind _ trans); [|intros ?]
    | apply (leads_try_catch _ trans); [|intros ?]
    | apply (leads_mapM _ refl trans); intros ?
    | leaf
    | match goal with
      | |- leads _ (if ?b then _ else _) => destruct b
      | |- leads _ (match ?x with _ => _ end) => destruct x
      end ].

Ltac grows_leaf :=
  first [ apply grows_console | apply grows_fresh_oid | apply grows_insert_idp
        | apply grows_enqueue | apply grows_set_skillColl ].

Ltac grows := repeat leads_step grows_to_refl grows_to_trans ltac:(grows_leaf).

Ltac same_plans_leaf := intros ?; split; reflexivity.

Ltac plans :=
  repeat leads_step same_plans_refl same_plans_trans ltac:(same_plans_leaf).

Lemma grows_handler op : leads grows_to (handler op).
Proof.
  destruct op as [req|req|req|req|req|req|req|req]; cbn [handler].
  - unfold createIDP, createIDP_try, IDP_create, addJob, resolve,
      console_error. cbv zeta. grows.
  - unfold updateIDP, IDP_findById, refresh_from_ai, IDP_findByIdAndUpdate,
      User_findById_populated, Skill_find_all, Resource_find_populated,
      getRecommendedResources, axios_post, format_user_skill, console_error,
      console_log. cbv zeta. grows.
  - unfold addSkill, Skill_findOne_name, Skill_create, insert_skill,
      console_error. cbv zeta. grows.
  - unfold getAllSkills, Skill_find_all, console_error. grows.
  - unfold getSkillById, Skill_findById, console_error. grows.
  - unfold updateSkill, Skill_findByIdAndUpdate, console_error. cbv zeta.
    grows.
  - unfold bulkAddSkills, Skill_find_name_in, Skill_insertMany, insert_skill,
      console_error. cbv zeta. grows.
  - unfold deleteSkill, Skill_findByIdAndDelete, console_error. grows.
Qed.

Lemma skill_handlers_same_plans op :
  (forall req, op <> OpCreateIDP req) ->
  (forall req, op <> OpUpdateIDP req) ->
  leads same_plans (handler op).
Proof.
  intros Hc Hu.
  destruct op as [req|req|req|req|req|req|req|req]; cbn [handler];
    [destruct (Hc req eq_refl)|destruct (Hu req eq_refl)|..].
  - unfold addSkill, Skill_findOne_name, Skill_create, insert_skill,
      console_error. cbv zeta. plans.
  - unfold getAllSkills, Skill_find_all, console_error. plans.
  - unfold getSkillById, Skill_findById, console_error. plans.
  - unfold updateSkill, Skill_findByIdAndUpdate, console_error. cbv zeta.
    plans.
  - unfold bulkAddSkills, Skill_find_name_in, Skill_insertMany, insert_skill,
      console_error. cbv zeta. plans.
  - unfold deleteSkill, Skill_findByIdAndDelete, console_error. plans.
Qed.

(** X24: no sequence of requests to [createIDP], [updateIDP] and the six
    handlers of the skill controller touches a user or a resource, takes a
    line off the console or a job off the queue, lowers the id counter or
    deletes a plan; the two IDP handlers leave the skills as they are, and
    a sequence of requests to the skill handlers leaves the plans and the
    queue as they are. *)
Theorem handlers_only_add ops w :
  grows_to w (perform_all ops w)
  /\ (forall create update,
         skillColl (snd (perform (OpCreateIDP create) w)) = skillColl w
         /\ skillColl (snd (perform (OpUpdateIDP update) w)) = skillColl w)
  /\ ((forall op, In op ops ->
                  (forall req, op <> OpCreateIDP req)
                  /\ (forall req, op <> OpUpdateIDP req)) ->
      same_plans w (perform_all ops w)).
Proof.
  split; [|split].
  - apply (leads_perform_all _ grows_to_refl grows_to_trans), grows_handler.
  - intros create update. split.
    + exact (keeps_run (fun c => c = skillColl w) (createIDP create) w
               (keeps_createIDP _ create) eq_refl).
    + exact (keeps_run (fun c => c = skillColl w) (updateIDP update) w
               (keeps_updateIDP _ update) eq_refl).
  - revert w. induction ops as [|op ops IH]; intros w Hops; cbn [perform_all].
    + apply same_plans_refl.
    + apply (same_plans_trans _ (snd (perform op w))).
      * apply (leads_run _ (handler op) w).
        apply skill_handlers_same_plans; apply Hops; left; reflexivity.
      * apply IH. intros op' Hin. apply Hops. right. exact Hin.
Qed.

(** ** The theorems above at concrete requests *)

Ltac distinct_strings := apply (bool_decide_unpack _); vm_compute; exact I.

Lemma bulkAddSkills_inserts_all_witness :
  run (bulkAddSkills (Cases.as_admin "" (Some [Cases.go; Cases.rust])))
      Cases.world
  = (status_json 201
       (SkillsAdded "Skills added successfully"
                    (length [Cases.go; Cases.rust])
                    (new_skill_docs (next_oid Cases.world)
                                    [Cases.go_fields; Cases.rust_fields])),
     with_new_skills [Cases.go_fields; Cases.rust_fields] Cases.world).
Proof.
  refine (proj1 (bulkAddSkills_inserts_all
                   (Cases.as_admin "" (Some [Cases.go; Cases.rust]))
                   [Cases.go; Cases.rust]
                   [Cases.go_fields; Cases.rust_fields]
                   Cases.world eq_refl eq_refl _ _ _)).
  - vm_compute. reflexivity.
  - vm_compute. reflexivity.
  - distinct_strings.
Defined.

Lemma bulkAddSkills_partial_insert_witness :
  run (bulkAddSkills (Cases.as_admin "" (Some [Cases.go; Cases.go_again])))
      Cases.world
  = (status_json 500 (Message "Server error"),
     logged "Bulk Add Skills Error:"
            (with_new_skills [Cases.go_fields] Cases.world)).
Proof.
  refine (proj1 (bulkAddSkills_partial_insert
                   (Cases.as_admin "" (Some [Cases.go; Cases.go_again]))
                   [Cases.go; Cases.go_again]
                   [Cases.go_fields] Cases.go_again_fields []
                   Cases.world eq_refl eq_refl _ _ _ _)).
  - vm_compute. reflexivity.
  - vm_compute. reflexivity.
  - distinct_strings.
  - left. reflexivity.
Defined.

Lemma addSkill_creates_once_witness :
  run (addSkill (Cases.as_admin "" Cases.go)) Cases.world
  = (status_json 201
       (SkillAdded "Skill added successfully"
                   (new_skill_doc (next_oid Cases.world) Cases.go_fields)),
     with_new_skills [Cases.go_fields] Cases.world)
  /\ run (addSkill (Cases.as_admin "" Cases.go))
         (with_new_skills [Cases.go_fields] Cases.world)
     = (status_json 400 (Message "Skill already exists"),
        with_new_skills [Cases.go_fields] Cases.world).
Proof.
  destruct (addSkill_creates_once (Cases.as_admin "" Cases.go) Cases.go_fields
              Cases.world eq_refl)
    as (Hfirst & _ & Hsecond).
  - vm_compute. reflexivity.
  - vm_compute. reflexivity.
  - split; [exact Hfirst | exact Hsecond].
Defined.

Lemma addSkill_rejects_invalid_witness :
  skillColl (snd (run (addSkill (Cases.as_admin "" Cases.blank)) Cases.world))
  = skillColl Cases.world
  /\ code (fst (run (addSkill (Cases.as_admin "" Cases.blank)) Cases.world))
     <> 201%nat.
Proof.
  destruct (addSkill_rejects_invalid (Cases.as_admin "" Cases.blank) Cases.world)
    as (Hsame & Hcode & _).
  - left. vm_compute. reflexivity.
  - split; [exact Hsame | exact Hcode].
Defined.

Lemma skill_mutations_need_admin_witness :
  run (deleteSkill {| req_user_role := "manager"%string;
                      req_params_id := "sk1"%string; req_body := tt |})
      Cases.world
  = (status_json 403 (Message "Access denied: Admin only"), Cases.world).
Proof.
  refine (proj2 (proj2 (proj2 (skill_mutations_need_admin
                                 "manager" "sk1" Cases.go Cases.go None
                                 Cases.world _)))).
  discriminate.
Defined.

Lemma updateSkill_unknown_or_taken_witness :
  run (updateSkill (Cases.as_admin "sk9" Cases.recategorize)) Cases.two_skills
  = (status_json 404 (Message "Skill not found"), Cases.two_skills)
  /\ run (updateSkill (Cases.as_admin "sk1" Cases.rename_to_typescript))
         Cases.two_skills
     = (status_json 500 (Message "Server error"),
        logged "Update Skill Error:" Cases.two_skills).
Proof.
  split.
  - refine (proj1 (updateSkill_unknown_or_taken
                     (Cases.as_admin "sk9" Cases.recategorize)
                     Cases.two_skills eq_refl) _).
    vm_compute. reflexivity.
  - refine (proj1 (proj2 (updateSkill_unknown_or_taken
                            (Cases.as_admin "sk1" Cases.rename_to_typescript)
                            Cases.two_skills eq_refl)
                     Scenarios.Srv.javascript " TypeScript " Cases.typescript
                     _ _ _ _)).
    + vm_compute. reflexivity.
    + reflexivity.
    + vm_compute. left. reflexivity.
    + vm_compute. reflexivity.
Defined.


Lemma deleteSkill_then_not_found_witness :
  run (getSkillById {| req_user_role := "employee"%string;
                       req_params_id := "sk1"%string; req_body := tt |})
      (set_skillColl (remove_skill "sk1") Cases.two_skills)
  = (status_json 404 (Message "Skill not found"),
     set_skillColl (remove_skill "sk1") Cases.two_skills).
Proof.
  refine (proj1 (proj2 (deleteSkill_then_not_found
                          "employee" "sk1" Cases.two_skills
                          Scenarios.Srv.javascript _ _))).
  - distinct_strings.
  - vm_compute. reflexivity.
Defined.


Lemma updateIDP_refresh_overwrites_resources_witness :
  exists idp',
    run (updateIDP Scenarios.Srv.refresh_by_owner) Cases.with_course
    = (json (IdpUpdated "IDP updated + AI recommendations refreshed"
               (Some idp')
               (Some ([{| ai_resourceId := resource_oid Cases.js_course;
                          ai_score := 0.9 |}],
                      ai_skills_to_improve Cases.recommended))),
       set_idps (insert (u_params_id Scenarios.Srv.refresh_by_owner) idp')
                (refresh_log Cases.with_course))
    /\ recommendedResources (idp_fields idp')
       = map ai_resourceId [{| ai_resourceId := resource_oid Cases.js_course;
                               ai_score := 0.9 |}]
    /\ idp_oid idp' = idp_oid Cases.plan_with_course
    /\ (b_employee (u_body Scenarios.Srv.refresh_by_owner) = None ->
        employee (idp_fields idp') = employee (idp_fields Cases.plan_with_course)).
Proof.
  refine (proj2 (updateIDP_refresh_overwrites_resources
                   Scenarios.Srv.refresh_by_owner Cases.with_course
                   Cases.plan_with_course
                   {| pd_user_skills := [{| uf_skillId := "sk1"; uf_level := 3 |}];
                      pd_skills_to_improve := [];
                      pd_performance_reports := [];
                      pd_resources :=
                        [format_resource
                           (Cases.js_course, Some Scenarios.Srv.javascript)];
                      pd_skills := [format_skill Scenarios.Srv.javascript];
                      pd_user_skills_data := [];
                      pd_limit := 10 |}
                   200%nat Cases.recommended
                   [{| ai_resourceId := resource_oid Cases.js_course;
                       ai_score := 0.9 |}]
                   _ eq_refl eq_refl _ eq_refl eq_refl eq_refl) _).
  - vm_compute. reflexivity.
  - vm_compute. reflexivity.
  - vm_compute. reflexivity.
Defined.

Lemma updateIDP_refresh_needs_user_skills_witness :
  exists detail,
    run (updateIDP Scenarios.Srv.refresh_by_owner) Cases.without_skills
    = (update_failure detail,
       logged "Update IDP Error:" (refresh_log Cases.without_skills))
    /\ (users Cases.without_skills !! u_user_id Scenarios.Srv.refresh_by_owner
        = None ->
        detail = "Cannot read properties of null (reading 'skills')"%string)
    /\ (forall u,
           users Cases.without_skills !! u_user_id Scenarios.Srv.refresh_by_owner
           = Some u ->
           detail = "Cannot read properties of null (reading '_id')"%string).
Proof.
  refine (updateIDP_refresh_needs_user_skills
            Scenarios.Srv.refresh_by_owner Cases.without_skills
            Scenarios.Srv.plan _ eq_refl eq_refl _).
  - vm_compute. reflexivity.
  - vm_compute. reflexivity.
Defined.

Lemma deleteSkill_breaks_refresh_witness :
  run (updateIDP Scenarios.Srv.refresh_by_owner)
      (snd (run (deleteSkill (Cases.as_admin "sk1" tt)) Cases.world))
  = (update_failure "Cannot read properties of null (reading '_id')",
     logged "Update IDP Error:"
       (refresh_log
          (snd (run (deleteSkill (Cases.as_admin "sk1" tt)) Cases.world)))).
Proof.
  refine (proj1 (proj2 (deleteSkill_breaks_refresh
                          Scenarios.Srv.refresh_by_owner Cases.world
                          Scenarios.Srv.plan Scenarios.Srv.alice
                          {| skillId := "sk1"; level := 3 |}
                          Scenarios.Srv.javascript
                          _ _ _ _ _ eq_refl eq_refl))).
  - distinct_strings.
  - vm_compute. reflexivity.
  - vm_compute. reflexivity.
  - left. reflexivity.
  - vm_compute. reflexivity.
Defined.

Lemma createIDP_schema_rejection_witness :
  run (createIDP Scenarios.Srv.create_without_resources) Cases.refusing
  = (status_json 500
       (MessageError "Failed to create IDP" "IDP validation failed"),
     logged "Create IDP Error:" Cases.refusing).
Proof.
  refine (createIDP_schema_rejection Scenarios.Srv.create_without_resources
            Cases.refusing _).
  reflexivity.
Defined.

Lemma createIDP_then_listed_witness :
  exists l,
    getMyIDPs "u1"
      (snd (run (createIDP Cases.create_with_resources) Cases.world))
    = (Normal {| a_code := 200; a_body := IdpList l |},
       snd (run (createIDP Cases.create_with_resources) Cases.world))
    /\ In (created_idp Cases.create_with_resources Cases.world) (map p_idp l)
    /\ status (idp_fields (created_idp Cases.create_with_resources Cases.world))
       = "draft"%string
    /\ managerFeedback
         (idp_fields (created_idp Cases.create_with_resources Cases.world))
       = ""%string
    /\ code (fst (run (createIDP Cases.create_with_resources) Cases.world))
       = 500%nat.
Proof.
  refine (createIDP_then_listed Cases.create_with_resources Cases.world _).
  reflexivity.
Defined.

Lemma bearer_token_round_trip_witness :
  bearer_token "Bearer token-of-admin" = Some "token-of-admin"%string
  /\ bearer_token "Bearer token-of-admin and more"
     = Some "token-of-admin"%string.
Proof.
  destruct (bearer_token_round_trip "token-of-admin" "and more")
    as (Hplain & Hrest & _).
  - vm_compute. intuition discriminate.
  - split; [exact Hplain | exact Hrest].
Defined.

Lemma skill_routes_change_needs_admin_witness :
  (exists h t user,
      Some "Bearer token-of-admin"%string = Some h
      /\ String.prefix "Bearer " h = true
      /\ bearer_token h = Some t
      /\ t <> ""%string
      /\ Cases.verify t = Some user
      /\ claim_role user = "admin"%string)
  /\ PostAdd Cases.go <> GetAll
  /\ (forall id, PostAdd Cases.go <> GetById id).
Proof.
  refine (skill_routes_change_needs_admin Cases.verify
            (Some "Bearer token-of-admin"%string) (PostAdd Cases.go)
            Cases.world _).
  vm_compute. discriminate.
Defined.

Lemma skill_routes_403_is_role_middleware_witness :
  run (skill_router Cases.verify (Some "Bearer token-of-u1"%string)
         (DeleteDelete "sk1"))
      Cases.world
  = (status_json 403 (Message "Access denied: Only admin allowed"), Cases.world).
Proof.
  refine (skill_routes_403_is_role_middleware Cases.verify
            (Some "Bearer token-of-u1"%string) (DeleteDelete "sk1")
            Cases.world _).
  vm_compute. reflexivity.
Defined.

Lemma deleteResource_then_unlisted_witness :
  run (deleteResource (Cases.as_admin (resource_oid Cases.js_course) tt))
      Cases.with_course
  = (json (Message "Resource deleted successfully"),
     set_resourceColl (remove_resource (resource_oid Cases.js_course))
                      Cases.with_course).
Proof.
  refine (proj1 (deleteResource_then_unlisted "employee"
                   (resource_oid Cases.js_course) Cases.with_course
                   Cases.js_course _ _)).
  - distinct_strings.
  - vm_compute. reflexivity.
Defined.


Lemma approveIDP_outcome_witness :
  approveIDP (fun _ => true) Cases.review_done Cases.world
  = (Normal {| a_code := 200;
               a_body := ApproveDone "IDP approved successfully"
                           (with_review "approved" "" Scenarios.Srv.plan) |},
     set_idps (insert "idp1"%string
                      (with_review "approved" "" Scenarios.Srv.plan))
              Cases.world).
Proof.
  assert (Hfind : idps Cases.world !! ap_params_id Cases.review_done
                  = Some Scenarios.Srv.plan) by (vm_compute; reflexivity).
  pose proof (approveIDP_outcome (fun _ => true) Cases.review_done Cases.world)
    as H.
  rewrite Hfind in H. destruct H as (st & _ & _ & Hfallback & _ & _ & _ & Hok & _).
  assert (Hst : st = "approved"%string).
  { apply Hfallback. intros s [= <-]. vm_compute. intuition discriminate. }
  subst st. exact (Hok eq_refl).
Defined.

Lemma recommender_client_contract_witness :
  exists e w1,
    getSimilarSkills Cases.overloaded ["React"%string] Cases.world = (Thrown e, w1)
    /\ e = Error "Python service unavailable"
    /\ w1 = logged "Error calling Python /recommend/similar-skills:" Cases.world.
Proof.
  assert (H : getSimilarSkills Cases.overloaded ["React"%string] Cases.world
              = (Thrown (Error "Python service unavailable"),
                 logged "Error calling Python /recommend/similar-skills:"
                        Cases.world))
    by (vm_compute; reflexivity).
  destruct (proj1 (recommender_client_contract Cases.overloaded ["React"%string]
                     Cases.request_of_u1 Cases.world) _ _ H)
    as (He & Hw & _).
  eexists _, _. split; [exact H|]. split; [exact He | exact Hw].
Defined.

Lemma authMiddleware_outcome_witness :
  authMiddleware Cases.verify (Some "Bearer forged"%string)
                 (fun user => deleteSkill (to_req user "sk1" tt)) Cases.world
  = (Normal (status_json 401 (Message "Unauthorized: Invalid token")),
     logged "Auth Error:" Cases.world).
Proof.
  refine (proj2 (proj2 (authMiddleware_outcome Cases.verify
                          (Some "Bearer forged"%string)
                          (fun user => deleteSkill (to_req user "sk1" tt))
                          Cases.world))
            "Bearer forged"%string "forged"%string eq_refl _ _ _).
  - vm_compute. reflexivity.
  - vm_compute. reflexivity.
  - right. vm_compute. reflexivity.
Defined.


Lemma handlers_only_add_witness :
  same_plans Cases.world
    (perform_all [OpAddSkill (Cases.as_admin "" Cases.go);
                  OpDeleteSkill (Cases.as_admin "sk1" tt)]
                 Cases.world).
Proof.
  refine (proj2 (proj2 (handlers_only_add
                          [OpAddSkill (Cases.as_admin "" Cases.go);
                           OpDeleteSkill (Cases.as_admin "sk1" tt)]
                          Cases.world)) _).
  intros op [<-|[<-|[]]]; split; intros req; discriminate.
Defined.


(** ** White space beyond ASCII

    The [trim] of the schema removes every white space of
    [String.prototype.trim], so a name that differs from a stored one by a
    no-break space is that name. *)

Example trim_unicode_space :
  trim (Cases.ideographic_space ++ " Go" ++ Cases.no_break_space)%string
  = "Go"%string.
Proof. vm_compute. reflexivity. Qed.

Example addSkill_no_break_space :
  run (addSkill
         (Cases.as_admin ""
            {| s_name := Some ("JavaScript" ++ Cases.no_break_space)%string;
               s_category := Some "Technical"%string;
               s_description := None |}))
      Cases.world
  = (status_json 400 (Message "Skill already exists"), Cases.world).
Proof. vm_compute. reflexivity. Qed.

Example updateSkill_no_break_space :
  run (updateSkill
         (Cases.as_admin "sk1"
            {| s_name := Some ("TypeScript" ++ Cases.no_break_space)%string;
               s_category := None; s_description := None |}))
      Cases.two_skills
  = (status_json 500 (Message "Server error"),
     logged "Update Skill Error:" Cases.two_skills).
Proof. vm_compute. reflexivity. Qed.

End ExtendedFacts.





(* ===================================================================== *)
(** * Properties of the organization settings model *)
(* ===================================================================== *)

Module OrgFacts.
Import Backend Org.

Lemma find_app_new {A} (p : A -> bool) (l : list A) (x : A) :
  List.find p l = None -> p x = true -> List.find p (l ++ [x]) = Some x.
Proof.
  induction l as [|y l IH]; cbn [List.find app].
  - intros _ ->. reflexivity.
  - destruct (p y); [discriminate|]. exact IH.
Qed.

Lemma findOne_none_free name s :
  findOne name s = None ->
  existsb (fun d => String.eqb (company d) (trim name)) (docs s) = false
  /\ ~ In (trim name) (map company (docs s)).
Proof.
  unfold findOne. intros Hnone.
  assert (Hall : forall d, In d (docs s) ->
                           String.eqb (company d) (trim name) = false).
  { intros d Hd. exact (find_none _ _ Hnone d Hd). }
  split.
  - destruct (existsb _ (docs s)) eqn:E; [|reflexivity].
    apply existsb_exists in E as (d & Hd & He). rewrite (Hall d Hd) in He.
    discriminate.
  - intros Hin. apply in_map_iff in Hin as (d & Hc & Hd).
    specialize (Hall d Hd). rewrite Hc, String.eqb_refl in Hall. discriminate.
Qed.

(** X25: [getOrCreate] keeps one document per company.  It fails only for a
    name that is empty after trimming and has no document, with a validation
    error and without storing anything, never with a duplicate key; when it
    succeeds the document carries the trimmed name and is stored, the stored
    documents before it are still there in their order, a second call with
    the same name returns the same document and changes nothing, and a
    document it had to create is the last one and carries the default
    weights, whose factors sum to 1. *)
Theorem getOrCreate_one_per_company name s :
  one_per_company s ->
  one_per_company (snd (getOrCreate name s))
  /\ (forall e, fst (getOrCreate name s) = inl e ->
                trim name = ""%string
                /\ e = ValidationError
                        "OrgSettings validation failed: company: Path `company` is required."
                /\ snd (getOrCreate name s) = s)
  /\ (forall d, fst (getOrCreate name s) = inr d ->
                company d = trim name
                /\ In d (docs (snd (getOrCreate name s)))
                /\ getOrCreate name (snd (getOrCreate name s))
                   = (inr d, snd (getOrCreate name s))
                /\ (findOne name s = None ->
                    docs (snd (getOrCreate name s)) = docs s ++ [d]
                    /\ (Weights.factor_sum (recommenderDefaults d) == 1)%Q))
  /\ (exists added, docs (snd (getOrCreate name s)) = docs s ++ added).
Proof.
  intros Hone. unfold getOrCreate.
  destruct (findOne name s) as [d0|] eqn:Hfind.
  - cbn [fst snd]. split; [exact Hone|]. split; [intros e [=]|]. split.
    + intros d [= <-].
      pose proof (find_some _ _ Hfind) as [Hin He].
      apply String.eqb_eq in He.
      split; [exact He|]. split; [exact Hin|]. split.
      * cbv zeta. rewrite Hfind. reflexivity.
      * intros Hnone. congruence.
    + exists []. rewrite app_nil_r. reflexivity.
  - destruct (findOne_none_free name s Hfind) as [Hex Hfree].
    unfold create. rewrite Hex.
    destruct (String.eqb_spec (trim name) "") as [Eblank|Enonblank].
    + cbn [fst snd]. split; [exact Hone|].
      split; [intros e [= <-]; auto|]. split; [intros d [=]|].
      exists []. rewrite app_nil_r. reflexivity.
    + cbn [fst snd docs]. split.
      * unfold one_per_company. cbn [docs]. rewrite map_app.
        cbn [map new_settings company].
        apply NoDup_app. split; [exact Hone|]. split.
        -- intros x Hx Hx'. apply list_elem_of_In in Hx.
           apply list_elem_of_In in Hx'. cbn [In] in Hx'.
           destruct Hx' as [<-|[]]. exact (Hfree Hx).
        -- apply NoDup_singleton.
      * split; [intros e [=]|]. split; [|eexists; reflexivity].
        intros d [= <-]. split; [reflexivity|].
        split; [apply in_or_app; right; left; reflexivity|].
        split.
        -- unfold findOne at 1. cbn [docs].
           rewrite (find_app_new _ (docs s) (new_settings (pretty (next_id s)) name)).
           ++ reflexivity.
           ++ exact Hfind.
           ++ cbn [new_settings company]. apply String.eqb_refl.
        -- intros _. split; [reflexivity|].
           cbn [new_settings recommenderDefaults]. reflexivity.
Qed.

Lemma getOrCreate_one_per_company_witness :
  one_per_company (snd (getOrCreate " Acme " Cases.empty_store))
  /\ (forall d, fst (getOrCreate " Acme " Cases.empty_store) = inr d ->
                company d = trim " Acme "
                /\ In d (docs (snd (getOrCreate " Acme " Cases.empty_store)))
                /\ getOrCreate " Acme "
                     (snd (getOrCreate " Acme " Cases.empty_store))
                   = (inr d, snd (getOrCreate " Acme " Cases.empty_store))
                /\ (findOne " Acme " Cases.empty_store = None ->
                    docs (snd (getOrCreate " Acme " Cases.empty_store))
                    = docs Cases.empty_store ++ [d]
                    /\ (Weights.factor_sum (recommenderDefaults d) == 1)%Q)).
Proof.
  destruct (getOrCreate_one_per_company " Acme " Cases.empty_store)
    as (Hone & _ & Hdone & _).
  - constructor.
  - split; [exact Hone | exact Hdone].
Defined.


Example getOrCreate_no_break_space :
  getOrCreate ("Acme" ++ Cases.no_break_space)
              (snd (getOrCreate "Acme" Cases.empty_store))
  = (fst (getOrCreate "Acme" Cases.empty_store),
     snd (getOrCreate "Acme" Cases.empty_store)).
Proof. vm_compute. reflexivity. Qed.

End OrgFacts.


(* ===================================================================== *)
(** * Properties of the API client, and of the client with the backend *)
(* ===================================================================== *)

Module FrontendFacts.
Import Backend Extended Frontend.

(** X26: a request of a client whose storage holds a non-empty access token
    without a space carries "Bearer <token>", whatever header the request had
    before, and the auth middleware of the backend reads that very token from
    it: when the token verifies, the next handler runs with the decoded
    token.  A client without a token leaves the headers as they are, and a
    request without the header is answered 401. *)
Theorem request_interceptor_round_trip
  storage headers verify t decoded next w :
  storage !! "accessToken"%string = Some t ->
  t <> ""%string ->
  ~ In " "%char (list_ascii_of_string t) ->
  verify t = Some decoded ->
  request_interceptor storage headers !! "Authorization"%string
  = Some ("Bearer " ++ t)%string
  /\ authMiddleware verify
       (request_interceptor storage headers !! "Authorization"%string) next w
     = next decoded w
  /\ (forall storage',
         truthy_string (storage' !! "accessToken"%string) = false ->
         request_interceptor storage' headers = headers
         /\ (headers !! "Authorization"%string = None ->
             authMiddleware verify
               (request_interceptor storage' headers !! "Authorization"%string)
               next w
             = (Normal (status_json 401
                          (Message "Unauthorized: No token provided")), w))).
Proof.
  intros Ht Hne Hno Hv.
  assert (Hheader : request_interceptor storage headers !! "Authorization"%string
                    = Some ("Bearer " ++ t)%string).
  { unfold request_interceptor. rewrite Ht. cbn [truthy_string].
    destruct (String.eqb_spec t ""); [contradiction|]. cbn [negb].
    cbn [default from_option]. apply lookup_insert_eq. }
  split; [exact Hheader|]. split.
  - rewrite Hheader.
    apply (ExtendedFacts.authMiddleware_bearer verify next w t decoded Hne Hno
             Hv).
  - intros storage' Hnone. unfold request_interceptor. rewrite Hnone.
    split; [reflexivity|]. intros ->.
    rewrite ExtendedFacts.authMiddleware_eq. reflexivity.
Qed.

(** X27: [refreshAccessToken] either fails and leaves storage, listener and
    calls as they were, for want of a stored refresh token, for want of an
    access token in the reply, or with the error of the request; or it
    returns a non-empty access token, stores both tokens, keeps the stored
    refresh token when the reply carries none, and calls the registered
    listener once with the two tokens.  After a success the next request
    carries the new access token.  A listener is registered until its own
    unsubscribe: the unsubscribe of a replaced listener removes nothing. *)
Theorem refreshAccessToken_outcome post c :
  match refreshAccessToken post c with
  | (inl e, c') =>
      c' = c
      /\ (e = Error "No refresh token"
          /\ truthy_string (storage c !! "refreshToken"%string) = false
          \/ exists stored,
               storage c !! "refreshToken"%string = Some stored
               /\ (post stored = RejectedWith e
                   \/ e = Error "No access token returned"
                      /\ exists data, post stored = Resolved data
                                      /\ truthy_string (data ≫= r_accessToken)
                                         = false))
  | (inr tokens, c') =>
      accessToken tokens <> ""%string
      /\ storage c' !! "accessToken"%string = Some (accessToken tokens)
      /\ storage c' !! "refreshToken"%string = Some (refreshToken tokens)
      /\ (forall k, k <> "accessToken"%string -> k <> "refreshToken"%string ->
                    storage c' !! k = storage c !! k)
      /\ (forall headers,
             request_interceptor (storage c') headers !! "Authorization"%string
             = Some ("Bearer " ++ accessToken tokens)%string)
      /\ (exists stored data,
             storage c !! "refreshToken"%string = Some stored
             /\ post stored = Resolved data
             /\ data ≫= r_accessToken = Some (accessToken tokens)
             /\ refreshToken tokens = default stored (data ≫= r_refreshToken))
      /\ tokenListener c' = tokenListener c
      /\ match tokenListener c with
         | Some listener =>
             exists event,
               calls c' = calls c ++ [(listener, event)]
               /\ ev_accessToken event = Some (accessToken tokens)
               /\ ev_refreshToken event = Some (refreshToken tokens)
               /\ ev_forceLogout event = false
         | None => calls c' = calls c
         end
  end
  /\ (forall a b, a <> b ->
                  tokenListener
                    (unsubscribe a (registerTokenListener b
                                      (registerTokenListener a c)))
                  = Some b)
  /\ (forall a, tokenListener (unsubscribe a (registerTokenListener a c)) = None).
Proof.
  split; [|split].
  - unfold refreshAccessToken.
    destruct (storage c !! "refreshToken"%string) as [stored|] eqn:Hstored.
    + cbn [truthy_string]. destruct (String.eqb_spec stored "") as [E|E];
        cbn [negb].
      * split; [reflexivity|]. left. split; [reflexivity|]. subst stored.
        reflexivity.
      * cbn [default from_option]. change (id stored) with stored.
        destruct (post stored) as [data|e] eqn:Hpost.
        -- destruct (data ≫= r_accessToken) as [a|] eqn:Ha.
           ++ cbn [truthy_string]. destruct (String.eqb_spec a "") as [Ea|Ea];
                cbn [negb].
              ** split; [reflexivity|]. right. exists stored.
                 split; [reflexivity|]. right. split; [reflexivity|].
                 exists data. split; [exact Hpost|]. rewrite Ha. subst a.
                 reflexivity.
              ** cbn [accessToken refreshToken storage tokenListener calls
                   default from_option]. change (id a) with a.
                 split; [exact Ea|]. split.
                 { rewrite lookup_insert_ne by discriminate.
                   apply lookup_insert_eq. }
                 split; [apply lookup_insert_eq|]. split.
                 { intros k Hk1 Hk2. rewrite !lookup_insert_ne by congruence.
                   reflexivity. }
                 split.
                 { intros headers. unfold request_interceptor.
                   rewrite lookup_insert_ne by discriminate.
                   rewrite lookup_insert_eq. cbn [truthy_string].
                   destruct (String.eqb_spec a ""); [contradiction|].
                   cbn [negb default from_option]. apply lookup_insert_eq. }
                 split.
                 { exists stored, data. repeat split; assumption || reflexivity. }
                 split; [reflexivity|].
                 destruct (tokenListener c) as [listener|]; [|reflexivity].
                 eexists. split; [reflexivity|]. repeat split.
           ++ cbn [truthy_string negb]. split; [reflexivity|]. right.
              exists stored. split; [reflexivity|]. right.
              split; [reflexivity|]. exists data. split; [exact Hpost|].
              rewrite Ha. reflexivity.
        -- split; [reflexivity|]. right. exists stored.
           split; [reflexivity|]. left. exact Hpost.
    + cbn [truthy_string negb]. split; [reflexivity|]. left.
      split; reflexivity.
  - intros a b Hab. unfold unsubscribe, registerTokenListener.
    cbn [tokenListener]. destruct (Nat.eqb_spec b a) as [E|E]; [congruence|].
    reflexivity.
  - intros a. unfold unsubscribe, registerTokenListener. cbn [tokenListener].
    rewrite Nat.eqb_refl. reflexivity.
Qed.

Lemma request_interceptor_round_trip_witness :
  request_interceptor {[ "accessToken"%string := "token-of-u1"%string ]}
                      {[ "Authorization"%string := "Bearer stale"%string ]}
    !! "Authorization"%string
  = Some "Bearer token-of-u1"%string
  /\ authMiddleware Cases.verify
       (request_interceptor {[ "accessToken"%string := "token-of-u1"%string ]}
                            {[ "Authorization"%string := "Bearer stale"%string ]}
          !! "Authorization"%string)
       (fun user => getSkillById (to_req user "sk1" tt)) Cases.world
     = getSkillById (to_req Cases.employee_u1 "sk1" tt) Cases.world.
Proof.
  destruct (request_interceptor_round_trip
              {[ "accessToken"%string := "token-of-u1"%string ]}
              {[ "Authorization"%string := "Bearer stale"%string ]}
              Cases.verify "token-of-u1" Cases.employee_u1
              (fun user => getSkillById (to_req user "sk1" tt)) Cases.world)
    as (Hheader & Hnext & _).
  - vm_compute. reflexivity.
  - discriminate.
  - vm_compute. intuition discriminate.
  - vm_compute. reflexivity.
  - split; [exact Hheader | exact Hnext].
Defined.

Lemma refreshAccessToken_outcome_witness :
  refreshAccessToken Cases.rotate_access Cases.signed_in
  = (inr {| accessToken := "access-2"; refreshToken := "refresh-1" |},
     Cases.refreshed)
  /\ (forall headers,
         request_interceptor (storage Cases.refreshed) headers
           !! "Authorization"%string
         = Some "Bearer access-2"%string)
  /\ storage Cases.refreshed !! "refreshToken"%string = Some "refresh-1"%string.
Proof.
  assert (Hrun : refreshAccessToken Cases.rotate_access Cases.signed_in
                 = (inr {| accessToken := "access-2";
                           refreshToken := "refresh-1" |},
                    Cases.refreshed))
    by (vm_compute; reflexivity).
  destruct (refreshAccessToken_outcome Cases.rotate_access Cases.signed_in)
    as [H _].
  rewrite Hrun in H.
  destruct H as (_ & _ & Hrefresh & _ & Hheader & _).
  split; [exact Hrun|]. split; [exact Hheader | exact Hrefresh].
Defined.

End FrontendFacts.
